(** * EcoSim front end: save/load, advance and the species views

    A shallow embedding of the TypeScript client of the ecosystem
    simulator (App.tsx, api.ts, types.ts, ControlPanel, SpeciesPanel,
    EcosystemViewport, SpeciesMarkers) together with the properties the
    specification states about it.

    Conventions.
    - A JavaScript value is a term of [JS.value]; an object is an
      association list in property order.
    - JavaScript numbers are modelled by exact rationals ([Q]); rounding
      of IEEE doubles is outside the model, and the functions of the
      platform that format or approximate numbers are fields of
      [JS.Runtime].
    - A JSON text is modelled by the document it denotes ([JS.text]).
    - An event handler of a React component is a function from the state
      it closes over to the list of effects it performs, in order. *)

From Stdlib Require Import String Ascii List Bool ZArith QArith Qround Qminmax Qabs Lia Lqa.
From Stdlib Require Import Permutation Sorted DecimalString.
Import ListNotations.

Local Open Scope string_scope.
Local Open Scope Z_scope.

(* ===================================================================== *)
(** ** JavaScript values and the parts of the platform the client uses   *)
(* ===================================================================== *)

Module JS.

Set Warnings "-register-all".

Inductive value : Type :=
| VUndefined
| VNull
| VBool (b : bool)
| VNum (n : Q)
| VStr (s : string)
| VArr (items : list value)
| VObj (props : list (string * value)).

(** What a [throw] carries: an [Error] instance with its message, or any
    other value. *)
Inductive thrown : Type :=
| ErrorInstance (message : string)
| OtherThrown (v : value).

(** Result of evaluating code that may throw. *)
Inductive completion (A : Type) : Type :=
| Normal (a : A)
| Throw (e : thrown).
Arguments Normal {A} a.
Arguments Throw {A} e.

Definition bind {A B} (c : completion A) (k : A -> completion B) : completion B :=
  match c with
  | Normal a => k a
  | Throw e => Throw e
  end.

(** [try c catch (err) { h err }] *)
Definition try_catch {A} (c : completion A) (h : thrown -> completion A) : completion A :=
  match c with
  | Normal a => Normal a
  | Throw e => h e
  end.

Declare Scope js_scope.
Delimit Scope js_scope with js.
Notation "x <- c ;; k" := (bind c (fun x => k))
  (at level 61, c at next level, right associativity) : js_scope.

(** Functions of the host whose results depend on floating point or on
    the engine. *)
Class Runtime : Type := {
  (** Number::toString, the decimal rendering of a number *)
  Number_toString : Q -> string;
  (** Number.prototype.toFixed *)
  Number_toFixed : Q -> nat -> string;
  (** Math.log10 *)
  Math_log10 : Q -> Q;
  (** message of the TypeError raised by reading a property of
      [null] or [undefined] *)
  TypeError_message : value -> string -> string
}.

(** ToBoolean *)
Definition truthy (v : value) : bool :=
  match v with
  | VUndefined | VNull => false
  | VBool b => b
  | VNum n => negb (Qeq_bool n 0)
  | VStr s => negb (String.eqb s "")
  | VArr _ | VObj _ => true
  end.

Fixpoint lookup (k : string) (props : list (string * value)) : option value :=
  match props with
  | [] => None
  | (k', v) :: rest => if String.eqb k k' then Some v else lookup k rest
  end.

(** [v.k] for a property name [k] that is not inherited: a missing
    property reads as [undefined]; arrays and strings have [length].
    Their index properties are not modelled: the client reads none. *)
Definition field (v : value) (k : string) : value :=
  match v with
  | VObj props => match lookup k props with Some x => x | None => VUndefined end
  | VArr items =>
      if String.eqb k "length" then VNum (inject_Z (Z.of_nat (List.length items)))
      else VUndefined
  | VStr s =>
      if String.eqb k "length" then VNum (inject_Z (Z.of_nat (String.length s)))
      else VUndefined
  | _ => VUndefined
  end.

(** [a || b] on values *)
Definition or_else (a b : value) : value := if truthy a then a else b.

Section WithRuntime.
Context {RT : Runtime}.

(** Property read [v.k]; reading from [null] or [undefined] throws. *)
Definition get (v : value) (k : string) : completion value :=
  match v with
  | VUndefined | VNull => Throw (ErrorInstance (TypeError_message v k))
  | _ => Normal (field v k)
  end.

(** ToString, as used by template literals and by [new Error(x)]. *)
Fixpoint ToString (v : value) : string :=
  match v with
  | VUndefined => "undefined"
  | VNull => "null"
  | VBool true => "true"
  | VBool false => "false"
  | VNum n => Number_toString n
  | VStr s => s
  | VArr items =>
      String.concat ","
        (map (fun x => match x with
                       | VUndefined | VNull => ""
                       | _ => ToString x
                       end) items)
  | VObj _ => "[object Object]"
  end.

(** [new Error(x)]: the message is ToString of the argument unless the
    argument is [undefined]. *)
Definition new_Error (x : value) : thrown :=
  match x with
  | VUndefined => ErrorInstance ""
  | _ => ErrorInstance (ToString x)
  end.

End WithRuntime.

(** *** JSON

    A text is represented by what [JSON.parse] makes of it: either it is
    not JSON, or it denotes a document. (A document that was read from
    a text has no [undefined] in it; nothing below relies on that.) *)
Inductive text : Type :=
| NotJSON (raw : string)
| JSONText (doc : value).

(** The document [JSON.stringify] writes for a value: properties whose
    value is [undefined] are left out, and [undefined] array items are
    written as [null]. *)
Fixpoint serialized (v : value) : value :=
  match v with
  | VArr items =>
      VArr (map (fun x => match x with
                          | VUndefined => VNull
                          | _ => serialized x
                          end) items)
  | VObj props =>
      VObj (flat_map (fun p => match p with
                               | (_, VUndefined) => []
                               | (k, x) => [(k, serialized x)]
                               end) props)
  | _ => v
  end.

(** [JSON.stringify(v)]; [None] is the result [undefined]. *)
Definition JSON_stringify (v : value) : option text :=
  match v with
  | VUndefined => None
  | _ => Some (JSONText (serialized v))
  end.

(** [JSON.parse(t)]; [None] is a SyntaxError. *)
Definition JSON_parse (t : text) : option value :=
  match t with
  | NotJSON _ => None
  | JSONText doc => Some doc
  end.

(** The text a Blob or a request body holds for [JSON.stringify(v)]. *)
Definition as_text (o : option text) : text :=
  match o with
  | Some t => t
  | None => NotJSON "undefined"
  end.

(** *** Date

    A [Date] is represented by its UTC components, as the getters
    [getUTCFullYear], [getUTCMonth] (0 to 11), [getUTCDate], ... return
    them. *)
Record Date : Type := {
  utcFullYear : Z;
  utcMonth : Z;
  utcDate : Z;
  utcHours : Z;
  utcMinutes : Z;
  utcSeconds : Z;
  utcMilliseconds : Z
}.

(** A year of 366 days *)
Definition isLeapYear (y : Z) : bool :=
  (y mod 4 =? 0) && (negb (y mod 100 =? 0) || (y mod 400 =? 0)).

(** The number of days of month [m] (0 to 11) of year [y]. *)
Definition daysInMonth (y m : Z) : Z :=
  if m =? 1 then (if isLeapYear y then 29 else 28)
  else if (m =? 3) || (m =? 5) || (m =? 8) || (m =? 10) then 30
  else 31.

(** DayFromYear, MakeDay, MakeTime and MakeDate of ECMAScript: the
    number of the first day of a year, of a day, the milliseconds of a
    time of day, and the time value, counted from the epoch. *)
Definition DayFromYear (y : Z) : Z :=
  365 * (y - 1970) + (y - 1969) / 4 - (y - 1901) / 100 + (y - 1601) / 400.

Definition MakeDay (y m dt : Z) : Z :=
  DayFromYear y
  + fold_right Z.add 0 (map (fun k => daysInMonth y (Z.of_nat k)) (seq 0 (Z.to_nat m)))
  + dt - 1.

Definition MakeTime (h mi s ms : Z) : Z := h * 3600000 + mi * 60000 + s * 1000 + ms.

Definition timeValue (d : Date) : Z :=
  MakeDay (utcFullYear d) (utcMonth d) (utcDate d) * 86400000
  + MakeTime (utcHours d) (utcMinutes d) (utcSeconds d) (utcMilliseconds d).

Definition in_range (lo hi n : Z) : bool := (lo <=? n) && (n <=? hi).

(** The components are those of a date of the calendar and of a time of
    day, and the time value is one a [Date] can hold: at most 8.64e15
    milliseconds from the epoch. *)
Definition Date_ok (d : Date) : bool :=
  in_range 0 11 (utcMonth d)
  && in_range 1 (daysInMonth (utcFullYear d) (utcMonth d)) (utcDate d)
  && in_range 0 23 (utcHours d)
  && in_range 0 59 (utcMinutes d)
  && in_range 0 59 (utcSeconds d)
  && in_range 0 999 (utcMilliseconds d)
  && in_range (-8640000000000000) 8640000000000000 (timeValue d).

(** The components of a [Date] that is not an Invalid Date; [new Date()]
    is one. *)
Definition Date_valid (d : Date) : Prop := Date_ok d = true.

Definition digit (n : Z) : ascii := ascii_of_nat (48 + Z.to_nat (n mod 10)).

(** The last [width] decimal digits of [n], most significant first,
    padded with zeros. *)
Fixpoint pad (width : nat) (n : Z) : string :=
  match width with
  | O => ""
  | S w => String (digit (n / 10 ^ Z.of_nat w)) (pad w n)
  end.

(** Date.prototype.toISOString: YYYY-MM-DDTHH:mm:ss.sssZ, the year
    written with a sign and six digits outside 0..9999. *)
Definition toISOString (d : Date) : string :=
  let y := utcFullYear d in
  (if (0 <=? y) && (y <=? 9999) then pad 4 y
   else (if y <? 0 then "-" else "+") ++ pad 6 (Z.abs y))
  ++ "-" ++ pad 2 (utcMonth d + 1) ++ "-" ++ pad 2 (utcDate d)
  ++ "T" ++ pad 2 (utcHours d) ++ ":" ++ pad 2 (utcMinutes d)
  ++ ":" ++ pad 2 (utcSeconds d) ++ "." ++ pad 3 (utcMilliseconds d) ++ "Z".

(** [has_field v k]: [v] is an object with an own property [k]. *)
Definition has_field (v : value) (k : string) : bool :=
  match v with
  | VObj props => match lookup k props with Some _ => true | None => false end
  | _ => false
  end.

End JS.

(* ===================================================================== *)
(** ** ISO 8601 date-time strings, as ECMAScript reads them              *)
(* ===================================================================== *)

Module ISO8601.
Import JS.

Definition digit_value (c : ascii) : option Z :=
  let n := Z.of_nat (nat_of_ascii c) in
  if (48 <=? n) && (n <=? 57) then Some (n - 48) else None.

(** Reads exactly [width] digits. *)
Fixpoint read_digits (width : nat) (acc : Z) (s : string) : option (Z * string) :=
  match width with
  | O => Some (acc, s)
  | S w =>
      match s with
      | String c rest =>
          match digit_value c with
          | Some d => read_digits w (10 * acc + d) rest
          | None => None
          end
      | EmptyString => None
      end
  end.

(** Reads [width] digits followed by the separator [sep]. *)
Definition read_field (width : nat) (sep : ascii) (s : string) : option (Z * string) :=
  match read_digits width 0 s with
  | Some (n, String c rest) => if Ascii.eqb c sep then Some (n, rest) else None
  | _ => None
  end.

(** The year: four digits, or a sign and six digits; the year 0 is not
    written with a minus sign. *)
Definition read_year (s : string) : option (Z * string) :=
  match s with
  | String c rest =>
      if Ascii.eqb c "+" then read_field 6 "-" rest
      else if Ascii.eqb c "-" then
        match read_field 6 "-" rest with
        | Some (n, rest') => if n =? 0 then None else Some (- n, rest')
        | None => None
        end
      else read_field 4 "-" s
  | EmptyString => None
  end.

(** The date and time a string of the form YYYY-MM-DDTHH:mm:ss.sssZ
    (or with an expanded year, a sign and six digits) denotes, as
    [Date.parse] reads it: [None] when the string has another form, when
    a field is out of range (a month 13, a 30th of February, an hour 24)
    or when the date is outside the range of [Date]. The other forms
    [Date.parse] reads (a date alone, a time without milliseconds, an
    offset in place of Z) are not read here. *)
Definition parse (s : string) : option Date :=
  match read_year s with
  | Some (year, s1) =>
  match read_field 2 "-" s1 with
  | Some (month, s2) =>
  match read_field 2 "T" s2 with
  | Some (day, s3) =>
  match read_field 2 ":" s3 with
  | Some (hours, s4) =>
  match read_field 2 ":" s4 with
  | Some (minutes, s5) =>
  match read_field 2 "." s5 with
  | Some (seconds, s6) =>
  match read_field 3 "Z" s6 with
  | Some (ms, EmptyString) =>
      let d := {| utcFullYear := year; utcMonth := month - 1; utcDate := day;
                  utcHours := hours; utcMinutes := minutes; utcSeconds := seconds;
                  utcMilliseconds := ms |} in
      if Date_ok d then Some d else None
  | _ => None end
  | None => None end
  | None => None end
  | None => None end
  | None => None end
  | None => None end
  | None => None end.

Definition is_timestamp (s : string) : bool :=
  match parse s with Some _ => true | None => false end.

End ISO8601.

(* ===================================================================== *)
(** ** types.ts (frontend/src/types.ts): the data model                  *)
(* ===================================================================== *)

Module Types.
Import JS.

Inductive BiomeType : Type :=
| grassland | forest | desert | tundra | wetland | mountain.

Inductive DietType : Type :=
| herbivore | carnivore | omnivore | producer.

Record Species : Type := {
  name : string;
  population : Z;
  diet : DietType;
  prey : list string;
  predators : list string;
  preferred_biome : BiomeType;
  reproduction_rate : Q;
  territory_size : Q
}.

Record Tile : Type := {
  x : Z;
  y : Z;
  biome : BiomeType;
  elevation : Q;
  water_level : Q;
  vegetation : Q;
  species_present : list string
}.

Record EcosystemState : Type := {
  turn : Z;
  grid_size : Z;
  tiles : list Tile;
  species : list Species;
  season : string;
  temperature : Q;
  events_log : list string
}.

Record InterventionRequest : Type := {
  action : string;
  details : option string
}.

(** The string a member of a union of literals is at run time. *)
Definition BiomeType_literal (b : BiomeType) : string :=
  match b with
  | grassland => "grassland"
  | forest => "forest"
  | desert => "desert"
  | tundra => "tundra"
  | wetland => "wetland"
  | mountain => "mountain"
  end.

Definition DietType_literal (d : DietType) : string :=
  match d with
  | herbivore => "herbivore"
  | carnivore => "carnivore"
  | omnivore => "omnivore"
  | producer => "producer"
  end.

(** The object a value of each interface is at run time. *)
Definition integer (z : Z) : value := VNum (inject_Z z).
Definition strings (l : list string) : value := VArr (map VStr l).

Definition Species_object (s : Species) : value :=
  VObj [ ("name", VStr (name s));
         ("population", integer (population s));
         ("diet", VStr (DietType_literal (diet s)));
         ("prey", strings (prey s));
         ("predators", strings (predators s));
         ("preferred_biome", VStr (BiomeType_literal (preferred_biome s)));
         ("reproduction_rate", VNum (reproduction_rate s));
         ("territory_size", VNum (territory_size s)) ].

Definition Tile_object (t : Tile) : value :=
  VObj [ ("x", integer (x t));
         ("y", integer (y t));
         ("biome", VStr (BiomeType_literal (biome t)));
         ("elevation", VNum (elevation t));
         ("water_level", VNum (water_level t));
         ("vegetation", VNum (vegetation t));
         ("species_present", strings (species_present t)) ].

Definition EcosystemState_object (s : EcosystemState) : value :=
  VObj [ ("turn", integer (turn s));
         ("grid_size", integer (grid_size s));
         ("tiles", VArr (map Tile_object (tiles s)));
         ("species", VArr (map Species_object (species s)));
         ("season", VStr (season s));
         ("temperature", VNum (temperature s));
         ("events_log", strings (events_log s)) ].

(** An optional property that is absent reads as [undefined]. *)
Definition InterventionRequest_object (i : InterventionRequest) : value :=
  VObj [ ("action", VStr (action i));
         ("details", match details i with
                     | Some d => VStr d
                     | None => VUndefined
                     end) ].

End Types.

(* ===================================================================== *)
(** ** Effects of the client and the monad its asynchronous code runs in *)
(* ===================================================================== *)

Module Eff.
Import JS.

Record Request : Type := {
  url : string;
  method : string;
  headers : list (string * string);
  body : option text
}.

(** A response: its status and what [response.json()] settles to. *)
Record Response : Type := {
  status : Z;
  json : completion value
}.

(** [response.ok] *)
Definition ok (r : Response) : bool := (200 <=? status r) && (status r <=? 299).

(** What the code does to the world outside it, in order: requests,
    calls of the state setters of [App], console output and the
    download that [handleSave] triggers. *)
Inductive effect : Type :=
| Fetch (req : Request)
| SetEcosystem (v : value)
| SetIsLoading (b : bool)
| SetEvents (v : value)
| SetNarration (v : value)
| SetWarnings (v : value)
| SetError (e : option string)
| ConsoleError (label : string) (err : thrown)
| Download (filename : string) (content : text).

(** A computation performs effects and then returns or throws. *)
Definition action (A : Type) : Type := list effect * completion A.

Definition ret {A} (a : A) : action A := ([], Normal a).
Definition throw {A} (e : thrown) : action A := ([], Throw e).
Definition perform (e : effect) : action unit := ([e], Normal tt).
Definition lift {A} (c : completion A) : action A := ([], c).

Definition bind {A B} (m : action A) (k : A -> action B) : action B :=
  match m with
  | (tr, Normal a) => let (tr', r) := k a in ((tr ++ tr')%list, r)
  | (tr, Throw e) => (tr, Throw e)
  end.

(** [try { m } catch (err) { h err }] *)
Definition try_catch {A} (m : action A) (h : thrown -> action A) : action A :=
  match m with
  | (tr, Normal a) => (tr, Normal a)
  | (tr, Throw e) => let (tr', r) := h e in ((tr ++ tr')%list, r)
  end.

(** [try { m } finally { f }], for an [f] that neither returns a value
    nor throws of its own accord. *)
Definition try_finally {A} (m : action A) (f : action unit) : action A :=
  match m, f with
  | (tr, r), (tr', Normal _) => ((tr ++ tr')%list, r)
  | (tr, _), (tr', Throw e) => ((tr ++ tr')%list, Throw e)
  end.

Definition trace {A} (m : action A) : list effect := fst m.
Definition outcome {A} (m : action A) : completion A := snd m.

Declare Scope action_scope.
Delimit Scope action_scope with action.
Notation "x <- m ;; k" := (bind m (fun x => k))
  (at level 61, m at next level, right associativity) : action_scope.
Notation "m ;; k" := (bind m (fun _ => k))
  (at level 61, right associativity) : action_scope.

End Eff.

(* ===================================================================== *)
(** ** api.ts (frontend/src/api.ts)                                      *)
(* ===================================================================== *)

Module Api.
Import JS Types Eff.
Local Open Scope action_scope.

Section Client.
Context {RT : Runtime}.

(** [import.meta.env.VITE_API_URL], if the build defines it. *)
Variable VITE_API_URL : option string.

(** The network and the server behind it: what [fetch] settles to for a
    request. *)
Variable server : Request -> completion Response.

Definition API_BASE : string :=
  match VITE_API_URL with
  | Some u => if String.eqb u "" then "http://localhost:8000" else u
  | None => "http://localhost:8000"
  end.

Definition fetch (req : Request) : action Response :=
  perform (Fetch req) ;; lift (server req).

Definition advanceRequest (intervention : option InterventionRequest) : Request :=
  {| url := API_BASE ++ "/ecosystem/advance";
     method := "POST";
     headers := [("Content-Type", "application/json")];
     body := match intervention with
             | Some i => JSON_stringify (InterventionRequest_object i)
             | None => None
             end |}.

Definition advanceTurn (intervention : option InterventionRequest) : action value :=
  response <- fetch (advanceRequest intervention) ;;
  if negb (ok response) then throw (ErrorInstance "Failed to advance turn")
  else lift (json response).

Definition loadRequest (state : value) : Request :=
  {| url := API_BASE ++ "/ecosystem/load";
     method := "POST";
     headers := [("Content-Type", "application/json")];
     body := JSON_stringify state |}.

Definition loadEcosystem (state : value) : action value :=
  response <- fetch (loadRequest state) ;;
  if negb (ok response) then
    errorData <- lift (JS.try_catch (json response) (fun _ => Normal (VObj []))) ;;
    detail <- lift (get errorData "detail") ;;
    throw (new_Error
             (or_else detail
                (VStr ("Server error: " ++ ToString (integer (status response))))))
  else lift (json response).

End Client.
End Api.

(* ===================================================================== *)
(** ** App.tsx (frontend/src/App.tsx)                                    *)
(* ===================================================================== *)

Module App.
Import JS Types Eff.
Local Open Scope action_scope.

(** The state hooks of [App]. *)
Record AppState : Type := {
  ecosystem : value;
  isLoading : bool;
  events : value;
  narration : value;
  warnings : value;
  error : option string
}.

Definition initial : AppState :=
  {| ecosystem := VNull;
     isLoading := false;
     events := VArr [];
     narration := VStr "";
     warnings := VArr [];
     error := None |}.

(** What each effect does to the state of [App]. *)
Definition apply (st : AppState) (e : effect) : AppState :=
  match e with
  | SetEcosystem v =>
      {| ecosystem := v; isLoading := isLoading st; events := events st;
         narration := narration st; warnings := warnings st; error := error st |}
  | SetIsLoading b =>
      {| ecosystem := ecosystem st; isLoading := b; events := events st;
         narration := narration st; warnings := warnings st; error := error st |}
  | SetEvents v =>
      {| ecosystem := ecosystem st; isLoading := isLoading st; events := v;
         narration := narration st; warnings := warnings st; error := error st |}
  | SetNarration v =>
      {| ecosystem := ecosystem st; isLoading := isLoading st; events := events st;
         narration := v; warnings := warnings st; error := error st |}
  | SetWarnings v =>
      {| ecosystem := ecosystem st; isLoading := isLoading st; events := events st;
         narration := narration st; warnings := v; error := error st |}
  | SetError e =>
      {| ecosystem := ecosystem st; isLoading := isLoading st; events := events st;
         narration := narration st; warnings := warnings st; error := e |}
  | Fetch _ | ConsoleError _ _ | Download _ _ => st
  end.

(** The state after a handler has run. *)
Definition after {A} (m : action A) (st : AppState) : AppState :=
  fold_left apply (trace m) st.

(** A [File] picked by the user: what [file.text()] settles to. *)
Record File : Type := { file_text : completion text }.

Section Handlers.
Context {RT : Runtime}.
Variable VITE_API_URL : option string.
Variable server : Request -> completion Response.

Definition handleAdvanceTurn (st : AppState)
    (intervention : option InterventionRequest) : action unit :=
  if negb (truthy (ecosystem st)) then ret tt
  else
    perform (SetIsLoading true) ;;
    perform (SetError None) ;;
    try_finally
      (try_catch
         (result <- Api.advanceTurn VITE_API_URL server intervention ;;
          new_state <- lift (get result "new_state") ;;
          perform (SetEcosystem new_state) ;;
          result_events <- lift (get result "events") ;;
          perform (SetEvents result_events) ;;
          result_narration <- lift (get result "narration") ;;
          perform (SetNarration result_narration) ;;
          result_warnings <- lift (get result "warnings") ;;
          perform (SetWarnings result_warnings))
         (fun err =>
            perform (SetError (Some "Failed to advance simulation. Check the backend logs.")) ;;
            perform (ConsoleError "" err)))
      (perform (SetIsLoading false)).

(** The object literal [saveData] of [handleSave]. *)
Definition saveData (now : Date) (st : AppState) : value :=
  VObj [ ("version", VNum 1);
         ("savedAt", VStr (toISOString now));
         ("ecosystem", ecosystem st);
         ("events", events st);
         ("narration", narration st) ].

(** [now] is the value of [new Date()]. The blob, the object URL and the
    click on the anchor are the one effect [Download]; the indentation
    that [JSON.stringify(saveData, null, 2)] asks for does not change
    the document the text denotes. *)
Definition handleSave (now : Date) (st : AppState) : action unit :=
  if negb (truthy (ecosystem st)) then ret tt
  else
    let blob := as_text (JSON_stringify (saveData now st)) in
    turn <- lift (get (ecosystem st) "turn") ;;
    season <- lift (get (ecosystem st) "season") ;;
    perform (Download ("ecosim-turn" ++ ToString turn ++ "-" ++ ToString season ++ ".json") blob).

(** Lines 104 to 115 of [handleLoad]: the save format, a raw ecosystem
    state, or neither. *)
Definition ecosystemToLoad (saveData : value) : completion value :=
  (version <- get saveData "version" ;;
   wrapped <- (if truthy version then get saveData "ecosystem" else Normal version) ;;
   if truthy wrapped then get saveData "ecosystem"
   else
     species <- get saveData "species" ;;
     raw <- (if truthy species then get saveData "tiles" else Normal species) ;;
     if truthy raw then Normal saveData
     else Throw (ErrorInstance "Invalid save file format - missing required data"))%js.

Definition handleLoad (file : File) : action unit :=
  perform (SetIsLoading true) ;;
  perform (SetError None) ;;
  try_finally
    (try_catch
       (text <- lift (file_text file) ;;
        saveData <- match JSON_parse text with
                    | Some doc => ret doc
                    | None => throw (ErrorInstance "Invalid JSON file")
                    end ;;
        toLoad <- lift (ecosystemToLoad saveData) ;;
        loadedState <- Api.loadEcosystem VITE_API_URL server toLoad ;;
        perform (SetEcosystem loadedState) ;;
        saved_events <- lift (get saveData "events") ;;
        perform (SetEvents (or_else saved_events (VArr []))) ;;
        saved_narration <- lift (get saveData "narration") ;;
        perform (SetNarration (or_else saved_narration (VStr "Save file loaded successfully!"))) ;;
        perform (SetWarnings (VArr [])))
       (fun err =>
          let errorMessage := match err with
                              | ErrorInstance message => message
                              | OtherThrown _ => "Unknown error"
                              end in
          perform (SetError (Some ("Failed to load: " ++ errorMessage))) ;;
          perform (ConsoleError "Load error:" err)))
    (perform (SetIsLoading false)).

End Handlers.
End App.

(* ===================================================================== *)
(** ** ControlPanel (the component found as unnamed/part_003)            *)
(* ===================================================================== *)

Module ControlPanel.
Import JS Types.

(** The state hooks of [ControlPanel]. *)
Record PanelState : Type := {
  interventionType : string;
  selectedOption : string
}.

(** What [handleAdvance] calls: the prop [onAdvanceTurn] and its own
    state setters. *)
Inductive call : Type :=
| OnAdvanceTurn (intervention : option InterventionRequest)
| SetInterventionType (s : string)
| SetSelectedOption (s : string).

Section Panel.
Context {RT : Runtime}.

(** The prop [selectedTile]. *)
Variable selectedTile : option (Q * Q).

Definition handleAdvance (st : PanelState) : list call :=
  let advance :=
    (if String.eqb (interventionType st) "" || String.eqb (selectedOption st) ""
    then [OnAdvanceTurn None]
    else
      let at_tile (prefix : string) : string :=
        match selectedTile with
        | Some (tx, ty) =>
            prefix ++ " tile (" ++ Number_toString tx ++ ", " ++ Number_toString ty ++ ")"
        | None => ""
        end in
      let (action, details) :=
        if String.eqb (interventionType st) "introduce_species" then
          ("Introduce " ++ selectedOption st ++ " to the ecosystem", at_tile "at")
        else if String.eqb (interventionType st) "remove_species" then
          ("Remove all " ++ selectedOption st ++ " from the ecosystem", "")
        else if String.eqb (interventionType st) "natural_disaster" then
          ("Trigger a " ++ selectedOption st, at_tile "centered at")
        else if String.eqb (interventionType st) "change_climate" then
          (selectedOption st ++ " affects the ecosystem", "")
        else ("", "") in
      [OnAdvanceTurn (Some {| action := action; details := Some details |})]) in
  (advance ++ [SetInterventionType ""; SetSelectedOption ""])%list.

End Panel.
End ControlPanel.

(* ===================================================================== *)
(** ** SpeciesPanel (frontend/src/components/SpeciesPanel.tsx)           *)
(* ===================================================================== *)

Module SpeciesPanel.
Import JS Types.

(** [SPECIES_ICONS] of types.ts: the own properties of the object. *)
Definition SPECIES_ICONS : list (string * string) :=
  [ ("Grass", "🌿"); ("Oak Tree", "🌳"); ("Rabbit", "🐰"); ("Deer", "🦌");
    ("Fox", "🦊"); ("Wolf", "🐺"); ("Hawk", "🦅"); ("Frog", "🐸");
    ("Bear", "🐻"); ("default", "🔵") ].

(** The properties a plain object inherits from [Object.prototype]:
    all of them are functions, except [__proto__], which reads as the
    prototype object. *)
Definition Object_prototype : list string :=
  [ "constructor"; "hasOwnProperty"; "isPrototypeOf"; "propertyIsEnumerable";
    "toLocaleString"; "toString"; "valueOf"; "__proto__";
    "__defineGetter__"; "__defineSetter__"; "__lookupGetter__"; "__lookupSetter__" ].

(** What a read [SPECIES_ICONS[k]] gives: a string of the table, a
    member of [Object.prototype], or [undefined]. *)
Inductive member : Type :=
| Glyph (emoji : string)
| Inherited (property : string)
| Missing.

Fixpoint icon_of (table : list (string * string)) (k : string) : member :=
  match table with
  | [] => if existsb (String.eqb k) Object_prototype then Inherited k else Missing
  | (k', i) :: rest => if String.eqb k k' then Glyph i else icon_of rest k
  end.

(** ToBoolean of a [member]: functions and objects are truthy. *)
Definition member_truthy (m : member) : bool :=
  match m with
  | Glyph emoji => negb (String.eqb emoji "")
  | Inherited _ => true
  | Missing => false
  end.

Definition getPopulationColor (current : Z) (diet : DietType) : string :=
  match diet with
  | producer => "text-green-400"
  | _ =>
      if current <? 10 then "text-red-400"
      else if current <? 30 then "text-yellow-400"
      else "text-zinc-200"
  end.

Definition dietOrder (d : DietType) : Z :=
  match d with
  | producer => 0
  | herbivore => 1
  | omnivore => 2
  | carnivore => 3
  end.

(** The comparator given to [sort]. *)
Definition compareDiet (a b : Species) : Z := dietOrder (diet a) - dietOrder (diet b).

(** Array.prototype.sort is stable: elements that compare equal keep
    their order. Insertion from the right is one such sort. *)
Fixpoint insert {A} (cmp : A -> A -> Z) (a : A) (sorted : list A) : list A :=
  match sorted with
  | [] => [a]
  | b :: rest => if cmp a b <=? 0 then a :: b :: rest else b :: insert cmp a rest
  end.

Definition sort {A} (cmp : A -> A -> Z) (l : list A) : list A :=
  fold_right (insert cmp) [] l.

(** One entry of the rendered list. *)
Record Entry : Type := {
  key : string;
  rowClass : string;
  icon : member;
  nameClass : string;
  shownName : string;
  populationClass : string;
  populationText : string
}.

Section Panel.
Context {RT : Runtime}.

Definition formatPopulation (pop : Z) : string :=
  if 10000 <=? pop then Number_toFixed (inject_Z pop / 1000) 1 ++ "k"
  else if 1000 <=? pop then Number_toFixed (inject_Z pop / 1000) 1 ++ "k"
  else Number_toString (inject_Z pop).

(** The element the [map] callback returns for a species. The icon is
    [SPECIES_ICONS[s.name] || SPECIES_ICONS.default]: for a species
    named like a member of [Object.prototype] it is that member, not a
    string. *)
Definition entry (s : Species) : Entry :=
  let icon :=
    if member_truthy (icon_of SPECIES_ICONS (name s))
    then icon_of SPECIES_ICONS (name s)
    else icon_of SPECIES_ICONS "default" in
  let popColor := getPopulationColor (population s) (diet s) in
  let isExtinct := population s =? 0 in
  {| key := name s;
     rowClass := "flex items-center justify-between py-1.5 px-2 rounded "
                 ++ (if isExtinct then "bg-red-900/20 opacity-50" else "hover:bg-zinc-800");
     icon := icon;
     nameClass := "text-sm " ++ (if isExtinct then "line-through" else "");
     shownName := name s;
     populationClass := "font-mono text-sm " ++ popColor;
     populationText := if isExtinct then "EXTINCT" else formatPopulation (population s) |}.

Definition sortedSpecies (species : list Species) : list Species :=
  sort compareDiet species.

(** The entries of the species list, in display order. *)
Definition SpeciesPanel (species : list Species) : list Entry :=
  map entry (sortedSpecies species).

End Panel.
End SpeciesPanel.

(* ===================================================================== *)
(** ** EcosystemViewport (the component found as unnamed/part_002)       *)
(* ===================================================================== *)

Module EcosystemViewport.
Import Types.
Local Open Scope Q_scope.

Definition is_diet (d : DietType) (s : Species) : bool :=
  match d, diet s with
  | producer, producer | herbivore, herbivore
  | carnivore, carnivore | omnivore, omnivore => true
  | _, _ => false
  end.

(** [l.reduce((sum, s) => sum + s.population, 0)] *)
Definition totalPopulation (l : list Species) : Z :=
  fold_left (fun sum s => (sum + population s)%Z) l 0%Z.

(** The memoised [ecosystemHealth]; [None] is a species prop that is
    [undefined] or [null]. *)
Definition ecosystemHealth (species : option (list Species)) : Q :=
  match species with
  | None => 1.0
  | Some [] => 1.0
  | Some species =>
      let plants := filter (is_diet producer) species in
      let totalPlants := totalPopulation plants in
      let plantHealth := Qmin 1.0 (inject_Z totalPlants / 2000) in
      let aliveSpecies := List.length (filter (fun s => (population s >? 0)%Z) species) in
      let diversityHealth :=
        inject_Z (Z.of_nat aliveSpecies) / inject_Z (Z.of_nat (List.length species)) in
      let herbivores := filter (is_diet herbivore) species in
      let carnivores := filter (is_diet carnivore) species in
      let totalHerbivores := totalPopulation herbivores in
      let totalCarnivores := totalPopulation carnivores in
      let balanceHealth :=
        if (totalHerbivores >? 0)%Z && (totalCarnivores >? 0)%Z then 1.0 else 0.5 in
      plantHealth * 0.4 + diversityHealth * 0.4 + balanceHealth * 0.2
  end.

End EcosystemViewport.

(* ===================================================================== *)
(** ** SpeciesMarkers (the component in the second half of types.ts)     *)
(* ===================================================================== *)

Module SpeciesMarkers.
Import JS Types.
Local Open Scope Q_scope.

Definition DIET_COLORS : list (string * string) :=
  [ ("producer", "#00FF00"); ("herbivore", "#00BFFF");
    ("carnivore", "#FF0000"); ("omnivore", "#FF8C00") ].

Fixpoint color_of (table : list (string * string)) (k : string) : option string :=
  match table with
  | [] => None
  | (k', c) :: rest => if String.eqb k k' then Some c else color_of rest k
  end.

Record ImageSize : Type := { width : Z; height : Z }.

(** A number that may be NaN ([None]). *)
Definition number : Type := option Q.

Record Marker : Type := {
  position : Q * number * Q;
  color : string;
  size : Q
}.

Definition clipThreshold : Q := 0.15.

Section Markers.
Context {RT : Runtime}.

(** Props, with their defaults supplied by the caller. *)
Variable terrainSize : Q.
Variable terrainPosition : Q * Q * Q.

(** The state hooks: the pixels of the elevation image (four channels
    per pixel), once loaded, and the size of the image. *)
Variable elevationData : option (list Z).
Variable imageSize : ImageSize.

(** [random k] is the result of the [k]-th call of [Math.random()]. *)
Variable random : nat -> Q.

Definition getElevationAt (u v : Q) : number :=
  match elevationData with
  | None => Some 0
  | Some data =>
      if (width imageSize =? 0)%Z then Some 0
      else
        let clampedU := Qmax 0 (Qmin 1 u) in
        let clampedV := Qmax 0 (Qmin 1 v) in
        let px := Qfloor (clampedU * inject_Z (width imageSize - 1)) in
        let py := Qfloor (clampedV * inject_Z (height imageSize - 1)) in
        let idx := ((py * width imageSize + px) * 4)%Z in
        (* an index outside the array reads [undefined], and
           [undefined / 255] is NaN *)
        if (idx <? 0)%Z then None
        else match nth_error data (Z.to_nat idx) with
             | Some red => Some (inject_Z red / 255)
             | None => None
             end
  end.

Definition dotCount (s : Species) : Z :=
  Z.min 50 (Z.max 3 (Qfloor (Math_log10 (inject_Z (population s + 1)) * 10))).

Definition marker_color (s : Species) : string :=
  match color_of DIET_COLORS (DietType_literal (diet s)) with
  | Some c => c
  | None => "#FFFFFF"
  end.

Definition marker_size (s : Species) : Q :=
  0.15 + Math_log10 (inject_Z (population s + 1)) * 0.05.

(** The [while] loop for one species. [attemptsLeft] is
    [dotCount * 20 - attempts]; [calls] counts the calls of
    [Math.random()] made so far. *)
Fixpoint place (attemptsLeft : nat) (s : Species) (placed : Z)
    (calls : nat) (result : list Marker) : nat * list Marker :=
  match attemptsLeft with
  | O => (calls, result)
  | S attemptsLeft' =>
      if (placed <? dotCount s)%Z then
        let u := random calls in
        let v := random (S calls) in
        let elevation := getElevationAt u v in
        (* [elevation < clipThreshold]; false when the elevation is NaN *)
        let below := match elevation with
                     | Some e => negb (Qle_bool clipThreshold e)
                     | None => false
                     end in
        if below then place attemptsLeft' s placed (S (S calls)) result
        else
          let worldX := (u - 0.5) * terrainSize + fst (fst terrainPosition) in
          let worldZ := (v - 0.5) * terrainSize + snd terrainPosition in
          let worldY := match elevation with
                        | Some e => Some (snd (fst terrainPosition) + e * 1.0 + 0.1)
                        | None => None
                        end in
          place attemptsLeft' s (placed + 1)%Z (S (S calls))
            (result ++ [ {| position := (worldX, worldY, worldZ);
                            color := marker_color s;
                            size := marker_size s |} ])
      else (calls, result)
  end.

Definition activeSpecies (species : list Species) : list Species :=
  filter (fun s => (population s >? 0)%Z) species.

(** The body of the [for] loop, as a step on (calls of random, result). *)
Definition placeSpecies (acc : nat * list Marker) (s : Species) : nat * list Marker :=
  place (Z.to_nat (dotCount s * 20)) s 0%Z (fst acc) (snd acc).

(** The memoised [markers]. *)
Definition markers (species : list Species) : list Marker :=
  match elevationData with
  | None => []
  | Some _ =>
      if (width imageSize =? 0)%Z then []
      else snd (fold_left placeSpecies (activeSpecies species) (O, []))
  end.

End Markers.
End SpeciesMarkers.

(* ===================================================================== *)
(** ** The server's load operation                                       *)
(* ===================================================================== *)

Module Backend.
Import JS Types Eff.

Definition obind {A B} (o : option A) (k : A -> option B) : option B :=
  match o with
  | Some a => k a
  | None => None
  end.

Declare Scope opt_scope.
Delimit Scope opt_scope with opt.
Notation "x <- o ;; k" := (obind o (fun x => k))
  (at level 61, o at next level, right associativity) : opt_scope.

Fixpoint traverse {A B} (f : A -> option B) (l : list A) : option (list B) :=
  match l with
  | [] => Some []
  | a :: rest =>
      match f a, traverse f rest with
      | Some b, Some bs => Some (b :: bs)
      | _, _ => None
      end
  end.

(** Readers of the fields of a document; a field that is missing or has
    the wrong type gives [None]. *)
Definition as_string (v : value) : option string :=
  match v with VStr s => Some s | _ => None end.

Definition as_number (v : value) : option Q :=
  match v with VNum n => Some n | _ => None end.

Definition as_integer (v : value) : option Z :=
  match v with VNum (Qmake n 1) => Some n | _ => None end.

Definition as_array {A} (f : value -> option A) (v : value) : option (list A) :=
  match v with VArr items => traverse f items | _ => None end.

Definition as_biome (v : value) : option BiomeType :=
  match v with
  | VStr s =>
      find (fun b => String.eqb s (BiomeType_literal b))
        [grassland; forest; desert; tundra; wetland; mountain]
  | _ => None
  end.

Definition as_diet (v : value) : option DietType :=
  match v with
  | VStr s =>
      find (fun d => String.eqb s (DietType_literal d))
        [herbivore; carnivore; omnivore; producer]
  | _ => None
  end.

Definition as_Species (v : value) : option Species :=
  (name <- as_string (field v "name") ;;
   population <- as_integer (field v "population") ;;
   diet <- as_diet (field v "diet") ;;
   prey <- as_array as_string (field v "prey") ;;
   predators <- as_array as_string (field v "predators") ;;
   preferred_biome <- as_biome (field v "preferred_biome") ;;
   reproduction_rate <- as_number (field v "reproduction_rate") ;;
   territory_size <- as_number (field v "territory_size") ;;
   Some {| name := name; population := population; diet := diet; prey := prey;
           predators := predators; preferred_biome := preferred_biome;
           reproduction_rate := reproduction_rate;
           territory_size := territory_size |})%opt.

Definition as_Tile (v : value) : option Tile :=
  (x <- as_integer (field v "x") ;;
   y <- as_integer (field v "y") ;;
   biome <- as_biome (field v "biome") ;;
   elevation <- as_number (field v "elevation") ;;
   water_level <- as_number (field v "water_level") ;;
   vegetation <- as_number (field v "vegetation") ;;
   species_present <- as_array as_string (field v "species_present") ;;
   Some {| x := x; y := y; biome := biome; elevation := elevation;
           water_level := water_level; vegetation := vegetation;
           species_present := species_present |})%opt.

(** Modelled from the spec: the schema check of the server's load
    operation (section 3, data model), which is not among the sources.
    A document is read back into the typed data model, field by field;
    a field that is missing or has the wrong type rejects the
    document. *)
Definition as_EcosystemState (v : value) : option EcosystemState :=
  (turn <- as_integer (field v "turn") ;;
   grid_size <- as_integer (field v "grid_size") ;;
   tiles <- as_array as_Tile (field v "tiles") ;;
   species <- as_array as_Species (field v "species") ;;
   season <- as_string (field v "season") ;;
   temperature <- as_number (field v "temperature") ;;
   events_log <- as_array as_string (field v "events_log") ;;
   Some {| turn := turn; grid_size := grid_size; tiles := tiles; species := species;
           season := season; temperature := temperature;
           events_log := events_log |})%opt.

Definition mem (a : string) (l : list string) : bool := existsb (String.eqb a) l.

Fixpoint unique {A} (eqb : A -> A -> bool) (l : list A) : bool :=
  match l with
  | [] => true
  | a :: rest => negb (existsb (eqb a) rest) && unique eqb rest
  end.

Definition positive (q : Q) : bool := negb (Qle_bool q 0).
Definition within (lo hi q : Q) : bool := Qle_bool lo q && Qle_bool q hi.

Definition find_species (n : string) (l : list Species) : option Species :=
  find (fun s => String.eqb (name s) n) l.

(** The checks of the validator, one by one. *)
Definition unique_names (s : EcosystemState) : bool :=
  unique String.eqb (map name (species s)).

Definition tiles_cover_grid (s : EcosystemState) : bool :=
  unique (fun a b => (fst a =? fst b) && (snd a =? snd b))
         (map (fun t => (x t, y t)) (tiles s))
  && forallb (fun t => (0 <=? x t) && (x t <? grid_size s)
                       && (0 <=? y t) && (y t <? grid_size s)) (tiles s)
  && (Z.of_nat (List.length (tiles s)) =? grid_size s * grid_size s).

Definition references_resolve (s : EcosystemState) : bool :=
  let known := map name (species s) in
  forallb (fun a => forallb (fun n => mem n known) (prey a)
                    && forallb (fun n => mem n known) (predators a)) (species s).

Definition links_mirrored (s : EcosystemState) : bool :=
  forallb (fun a =>
             forallb (fun n => match find_species n (species s) with
                               | Some b => mem (name a) (predators b)
                               | None => false
                               end) (prey a)
             && forallb (fun n => match find_species n (species s) with
                                  | Some b => mem (name a) (prey b)
                                  | None => false
                                  end) (predators a)) (species s).

Definition producers_have_no_prey (s : EcosystemState) : bool :=
  forallb (fun a => match diet a, prey a with
                    | producer, _ :: _ => false
                    | _, _ => true
                    end) (species s).

Definition numeric_domains (s : EcosystemState) : bool :=
  (0 <=? turn s) && (0 <? grid_size s)
  && forallb (fun a => (0 <=? population a)
                       && positive (reproduction_rate a)
                       && positive (territory_size a)) (species s)
  && forallb (fun t => within 0 100 (elevation t)
                       && Qle_bool 0 (water_level t)
                       && within 0 100 (vegetation t)) (tiles s).

(** Modelled from the spec: the Trophic Graph Validator (section 4.2),
    which is not among the sources. It checks: unique species names;
    unique tile coordinates covering the full grid; every prey and
    predator reference resolves to a species of the state; prey and
    predator sets mirror each other; producers have no prey; numeric
    fields lie in their documented domains. *)
Definition validate (s : EcosystemState) : bool :=
  unique_names s && tiles_cover_grid s && references_resolve s
  && links_mirrored s && producers_have_no_prey s && numeric_domains s.

(** Modelled from the spec: [load(document: EcosystemState | SaveFile)]
    (sections 4.7, 6 and 7), which is not among the sources. A document
    with a [version] wrapper carries the state in [ecosystem]; a
    document with [species] and [tiles] is the state itself. The state
    is validated before it is installed and returned; otherwise the
    document is rejected with a message. *)
Definition load (document : value) : string + EcosystemState :=
  let candidate :=
    if has_field document "version" then Some (field document "ecosystem")
    else if has_field document "species" && has_field document "tiles" then Some document
    else None in
  match candidate with
  | None => inl "ParseError: malformed save document"
  | Some c =>
      match as_EcosystemState c with
      | None => inl "ParseError: malformed save document"
      | Some s => if validate s then inr s else inl "GraphError: invalid trophic graph"
      end
  end.

(** Modelled from the spec: the transport of the load operation, which
    is not among the sources: the state comes back as the body of a
    200 response, a rejection as a [detail] message of a 400 response;
    any other request is not found. *)
Definition server (base : string) (req : Request) : completion Response :=
  if String.eqb (url req) (base ++ "/ecosystem/load") && String.eqb (method req) "POST"
  then
    match body req with
    | Some (JSONText document) =>
        match load document with
        | inr s => Normal {| status := 200; json := Normal (EcosystemState_object s) |}
        | inl reason => Normal {| status := 400; json := Normal (VObj [("detail", VStr reason)]) |}
        end
    | _ => Normal {| status := 400;
                     json := Normal (VObj [("detail", VStr "ParseError: malformed save document")]) |}
    end
  else Normal {| status := 404; json := Normal (VObj [("detail", VStr "Not Found")]) |}.

End Backend.

(* ===================================================================== *)
(** ** A concrete runtime and a small ecosystem, for worked examples     *)
(* ===================================================================== *)

Module Sample.
Import JS Types.

(** A runtime in exact arithmetic. An integer prints as its decimal
    numeral (other numbers as that of their integer part); [toFixed]
    rounds half up; the logarithm is rounded down to a multiple of
    1/10, read off the number of digits of the tenth power. *)
Definition numeral (z : Z) : string :=
  DecimalString.NilZero.string_of_int (Z.to_int z).

Definition decimal (q : Q) : string := numeral (Qfloor q).

Definition fixed (q : Q) (digits : nat) : string :=
  let scale := 10 ^ Z.of_nat digits in
  let scaled := Qfloor (Qabs q * inject_Z scale + 0.5) in
  (if Qle_bool 0 q then EmptyString else "-")
  ++ numeral (scaled / scale)
  ++ match digits with
     | O => EmptyString
     | S _ => "." ++ pad digits (scaled mod scale)
     end.

Definition log10_tenths (q : Q) : Q :=
  let n := Qfloor q in
  if n <=? 0 then 0
  else inject_Z (Z.of_nat (String.length (numeral (n ^ 10))) - 1) / 10.

Definition runtime : Runtime :=
  {| Number_toString := decimal;
     Number_toFixed := fixed;
     Math_log10 := log10_tenths;
     TypeError_message := fun _ k => "Cannot read properties of null (reading '" ++ k ++ "')" |}.

Definition grass : Species :=
  {| name := "Grass"; population := 1000; diet := producer; prey := [];
     predators := ["Rabbit"]; preferred_biome := grassland;
     reproduction_rate := 0.3; territory_size := 0.01 |}.

Definition rabbit : Species :=
  {| name := "Rabbit"; population := 50; diet := herbivore; prey := ["Grass"];
     predators := ["Fox"]; preferred_biome := grassland;
     reproduction_rate := 0.5; territory_size := 0.1 |}.

Definition fox : Species :=
  {| name := "Fox"; population := 5; diet := carnivore; prey := ["Rabbit"];
     predators := []; preferred_biome := forest;
     reproduction_rate := 0.2; territory_size := 2 |}.

Definition dodo : Species :=
  {| name := "Dodo"; population := 0; diet := herbivore; prey := ["Grass"];
     predators := []; preferred_biome := forest;
     reproduction_rate := 0.1; territory_size := 1 |}.

Definition meadow : Tile :=
  {| x := 0; y := 0; biome := grassland; elevation := 12; water_level := 0.5;
     vegetation := 80; species_present := ["Grass"; "Rabbit"; "Fox"] |}.

Definition state : EcosystemState :=
  {| turn := 3; grid_size := 1; tiles := [meadow]; species := [grass; rabbit; fox];
     season := "spring"; temperature := 18.5; events_log := ["created"] |}.

Definition now : Date :=
  {| utcFullYear := 2025; utcMonth := 0; utcDate := 15; utcHours := 9;
     utcMinutes := 30; utcSeconds := 5; utcMilliseconds := 42 |}.

(** The client with [state] on screen. *)
Definition app : App.AppState :=
  {| App.ecosystem := EcosystemState_object state;
     App.isLoading := false;
     App.events := VArr [];
     App.narration := VStr "Spring arrives.";
     App.warnings := VArr [];
     App.error := None |}.

(** A save file whose version is 0. *)
Definition version_zero : value :=
  VObj [ ("version", VNum 0); ("ecosystem", EcosystemState_object state) ].

(** A document with the fields of a raw state that is not one. *)
Definition hollow : value := VObj [ ("species", VArr []); ("tiles", VArr []) ].

(** The panel with Remove Species and Fox selected. *)
Definition remove_fox : ControlPanel.PanelState :=
  {| ControlPanel.interventionType := "remove_species";
     ControlPanel.selectedOption := "Fox" |}.

Definition localhost : string := "http://localhost:8000".

End Sample.

(* ===================================================================== *)
(** ** Vocabulary of the properties                                      *)
(* ===================================================================== *)

Module Props.
Import JS Types Eff App.

(** The setters of the four pieces of simulation data. *)
Definition data_setter (e : effect) : bool :=
  match e with
  | SetEcosystem _ | SetEvents _ | SetNarration _ | SetWarnings _ => true
  | _ => false
  end.

(** The requests made, in order. *)
Definition requests (tr : list effect) : list Request :=
  flat_map (fun e => match e with Fetch r => [r] | _ => [] end) tr.

(** Two states of [App] hold the same simulation data. *)
Definition same_data (a b : AppState) : Prop :=
  ecosystem a = ecosystem b /\ events a = events b
  /\ narration a = narration b /\ warnings a = warnings b.

Definition nullish (v : value) : bool :=
  match v with
  | VUndefined | VNull => true
  | _ => false
  end.

(** The message [handleLoad] reads off what it caught. *)
Definition message_of (e : thrown) : string :=
  match e with
  | ErrorInstance message => message
  | OtherThrown _ => "Unknown error"
  end.

(** The two accepted shapes of a parsed save document, as [handleLoad]
    tells them apart. *)
Inductive format : Type := SaveFormat | RawState | Neither.

Definition format_of (document : value) : format :=
  if truthy (field document "version") && truthy (field document "ecosystem")
  then SaveFormat
  else if truthy (field document "species") && truthy (field document "tiles")
  then RawState
  else Neither.


(** The load request did not produce a state: [fetch] rejected, the
    response is not ok, or its body is not JSON. *)
Definition load_fails (r : completion Response) : Prop :=
  match r with
  | Throw _ => True
  | Normal response => ok response = false \/ exists e, json response = Throw e
  end.

(** The two shapes as told apart by the presence of the fields. *)
Definition format_by_presence (document : value) : format :=
  if has_field document "version" && has_field document "ecosystem"
  then SaveFormat
  else if has_field document "species" && has_field document "tiles"
  then RawState
  else Neither.

(** The message [handleLoad] shows for a text it does not accept. *)
Definition rejection_message {RT : Runtime} (t : text) : string :=
  match JSON_parse t with
  | None => "Invalid JSON file"
  | Some document =>
      if nullish document then TypeError_message document "version"
      else "Invalid save file format - missing required data"
  end.

(** The advance request that carries the document [intervention]. *)
Definition advance_with (base : string) (intervention : value) : Request :=
  {| url := base ++ "/ecosystem/advance";
     method := "POST";
     headers := [("Content-Type", "application/json")];
     body := Some (JSONText intervention) |}.

(** The effects of a load that fails with [err] after the requests
    [sent]. *)
Definition failed_load (sent : list effect) (err : thrown) : list effect :=
  let shown := "Failed to load: " ++ message_of err in
  ([SetIsLoading true; SetError None] ++ sent
   ++ [SetError (Some shown); ConsoleError "Load error:" err; SetIsLoading false])%list.

(** What [loadEcosystem] throws when the request fails: what [fetch] or
    [response.json()] rejected with, or an [Error] made from the
    [detail] of the response body or, without one, from the status. *)
Definition load_error {RT : Runtime} (r : completion Response) : thrown :=
  match r with
  | Throw e => e
  | Normal response =>
      if ok response then
        match json response with
        | Throw e => e
        | Normal _ => ErrorInstance ""
        end
      else
        let errorData := match json response with
                         | Normal data => data
                         | Throw _ => VObj []
                         end in
        if nullish errorData
        then ErrorInstance (TypeError_message errorData "detail")
        else new_Error (or_else (field errorData "detail")
                          (VStr ("Server error: " ++ ToString (integer (status response)))))
  end.

(** The populations of a species list of the data model: none is
    negative. [None] is a missing list. *)
Definition populations_nonnegative (species : option (list Species)) : Prop :=
  match species with
  | Some l => Forall (fun s => 0 <= population s) l
  | None => True
  end.

Definition empty_or_missing (species : option (list Species)) : Prop :=
  species = None \/ species = Some [].

(** The markers of one species: how many there may be and what they
    look like. *)
Definition dots_of {RT : Runtime} (s : Species) (dots : list SpeciesMarkers.Marker) : Prop :=
  Z.of_nat (List.length dots) <= SpeciesMarkers.dotCount s
  /\ Forall (fun m => SpeciesMarkers.color m = SpeciesMarkers.marker_color s
                      /\ SpeciesMarkers.size m = SpeciesMarkers.marker_size s) dots.

End Props.

(* ===================================================================== *)
(** ** api.ts: the other requests                                        *)
(* ===================================================================== *)

Module ApiRest.
Import JS Types Eff.
Local Open Scope action_scope.

Section Client.
Context {RT : Runtime}.
Variable VITE_API_URL : option string.
Variable server : Request -> completion Response.

(** [gridSize] is the argument after its default of 8 has been applied. *)
Definition createRequest (gridSize : Q) : Request :=
  {| url := Api.API_BASE VITE_API_URL ++ "/ecosystem/new?grid_size="
            ++ Number_toString gridSize;
     method := "POST";
     headers := [];
     body := None |}.

Definition createEcosystem (gridSize : option Q) : action value :=
  let gridSize := match gridSize with Some g => g | None => 8%Q end in
  response <- Api.fetch server (createRequest gridSize) ;;
  if negb (ok response) then throw (ErrorInstance "Failed to create ecosystem")
  else lift (json response).

Definition getRequest : Request :=
  {| url := Api.API_BASE VITE_API_URL ++ "/ecosystem";
     method := "GET";
     headers := [];
     body := None |}.

Definition getEcosystem : action value :=
  response <- Api.fetch server getRequest ;;
  if negb (ok response) then throw (ErrorInstance "Failed to get ecosystem")
  else lift (json response).

Definition chatRequest (message : string) : Request :=
  {| url := Api.API_BASE VITE_API_URL ++ "/ecosystem/chat";
     method := "POST";
     headers := [("Content-Type", "application/json")];
     body := JSON_stringify (VObj [("message", VStr message)]) |}.

Definition chatAboutEcosystem (message : string) : action value :=
  response <- Api.fetch server (chatRequest message) ;;
  if negb (ok response) then throw (ErrorInstance "Failed to chat")
  else
    data <- lift (json response) ;;
    lift (get data "response").

End Client.
End ApiRest.

(* ===================================================================== *)
(** ** App.tsx: start-up and what is on screen                           *)
(* ===================================================================== *)

Module AppShell.
Import JS Types Eff App.
Local Open Scope action_scope.

Section Handlers.
Context {RT : Runtime}.
Variable VITE_API_URL : option string.
Variable server : Request -> completion Response.

Definition welcome : string :=
  "A new ecosystem has been created. Click " ++ String (ascii_of_nat 34) "Advance Turn"
  ++ String (ascii_of_nat 34) " to begin the simulation.".

Definition initializeEcosystem : action unit :=
  perform (SetIsLoading true) ;;
  perform (SetError None) ;;
  try_finally
    (try_catch
       (state <- ApiRest.createEcosystem VITE_API_URL server (Some 8%Q) ;;
        perform (SetEcosystem state) ;;
        perform (SetNarration (VStr welcome)))
       (fun err =>
          perform (SetError
                     (Some "Failed to connect to backend. Make sure the server is running on localhost:8000")) ;;
          perform (ConsoleError EmptyString err)))
    (perform (SetIsLoading false)).

End Handlers.

(** What [App] returns. The main view is given by the props it hands to
    its children; [banner] is the error bar under the header. *)
Record MainProps : Type := {
  header_turn : value;
  header_season : value;
  banner : option string;
  viewport_species : value;
  viewport_season : value;
  control_temperature : value;
  control_season : value;
  control_selectedTile : option (Q * Q);
  control_isLoading : bool;
  panel_species : value;
  log_events : value;
  log_narration : value;
  log_warnings : value
}.

Inductive screen : Type :=
| LoadingScreen
| ErrorScreen (message : string)
| Blank
| MainView (props : MainProps).

(** The [error] of the state as a condition: [null] and the empty
    string are falsy. *)
Definition shown_error (e : option string) : option string :=
  match e with
  | Some message => if String.eqb message EmptyString then None else Some message
  | None => None
  end.

Definition render (st : AppState) : screen :=
  if negb (truthy (ecosystem st)) && isLoading st then LoadingScreen
  else
    match shown_error (error st), truthy (ecosystem st) with
    | Some message, false => ErrorScreen message
    | _, false => Blank
    | e, true =>
        MainView
          {| header_turn := field (ecosystem st) "turn";
             header_season := field (ecosystem st) "season";
             banner := e;
             viewport_species := field (ecosystem st) "species";
             viewport_season := field (ecosystem st) "season";
             control_temperature := field (ecosystem st) "temperature";
             control_season := field (ecosystem st) "season";
             control_selectedTile := None;
             control_isLoading := isLoading st;
             panel_species := field (ecosystem st) "species";
             log_events := events st;
             log_narration := narration st;
             log_warnings := warnings st |}
    end.

End AppShell.

(* ===================================================================== *)
(** ** ControlPanel: the two selects                                     *)
(* ===================================================================== *)

Module ControlPanelUI.
Import JS Types ControlPanel.

(** The values of [INTERVENTION_TYPES]. *)
Definition INTERVENTION_TYPES : list (string * string) :=
  [ (EmptyString, "No intervention");
    ("introduce_species", "Introduce Species");
    ("remove_species", "Remove Species");
    ("natural_disaster", "Trigger Disaster");
    ("change_climate", "Climate Event") ].

Definition SPECIES_OPTIONS : list string :=
  ["Wolf"; "Bear"; "Deer"; "Rabbit"; "Fox"; "Hawk"; "Eagle"; "Salmon"; "Beaver"].

Definition DISASTER_OPTIONS : list string :=
  ["Wildfire"; "Flood"; "Drought"; "Disease Outbreak"; "Harsh Winter"].

Definition CLIMATE_OPTIONS : list string :=
  ["Temperature Rise"; "Temperature Drop"; "Heavy Rainfall"; "Extended Dry Season"].

Definition getSecondaryOptions (st : PanelState) : list string :=
  if String.eqb (interventionType st) "introduce_species" then SPECIES_OPTIONS
  else if String.eqb (interventionType st) "remove_species" then SPECIES_OPTIONS
  else if String.eqb (interventionType st) "natural_disaster" then DISASTER_OPTIONS
  else if String.eqb (interventionType st) "change_climate" then CLIMATE_OPTIONS
  else [].

(** What a state setter of the panel does. *)
Definition apply (st : PanelState) (c : call) : PanelState :=
  match c with
  | OnAdvanceTurn _ => st
  | SetInterventionType s =>
      {| interventionType := s; selectedOption := selectedOption st |}
  | SetSelectedOption s =>
      {| interventionType := interventionType st; selectedOption := s |}
  end.

Definition after (calls : list call) (st : PanelState) : PanelState :=
  fold_left apply calls st.

(** [onChange] of the first select: the type is set and the option is
    cleared. *)
Definition changeType (value : string) : list call :=
  [SetInterventionType value; SetSelectedOption EmptyString].

(** [onChange] of the second select. *)
Definition changeOption (value : string) : list call :=
  [SetSelectedOption value].

(** The second select is rendered when there are secondary options;
    its values are the placeholder and the options. *)
Definition offeredOptions (st : PanelState) : list string :=
  match getSecondaryOptions st with
  | [] => []
  | options => EmptyString :: options
  end.

(** The interventions an [onAdvanceTurn] call list carries. *)
Definition interventions (calls : list call) : list (option InterventionRequest) :=
  flat_map (fun c => match c with OnAdvanceTurn i => [i] | _ => [] end) calls.

End ControlPanelUI.

(* ===================================================================== *)
(** ** Scene (in the component found as unnamed/part_002)                *)
(* ===================================================================== *)

Module Scene.
Local Open Scope Q_scope.

(** The sky, the lights and the haze as functions of the prop
    [ecosystemHealth]. The arithmetic is exact here; in binary64 a value
    can differ from it in the last place (0.2 + 1.0 * 0.4 is
    0.6000000000000001), so what is stated about these functions
    compares their values with each other, not with decimal
    constants. *)
Definition sunPosition (ecosystemHealth : Q) : Q * Q * Q :=
  let sunHeight := 3 + ecosystemHealth * 4 in
  (7, sunHeight, 1).

Definition turbidity (ecosystemHealth : Q) : Q := 2 + (1 - ecosystemHealth) * 18.

Definition rayleigh (ecosystemHealth : Q) : Q := 0.5 + (1 - ecosystemHealth) * 3.

Definition ambientIntensity (ecosystemHealth : Q) : Q := 0.2 + ecosystemHealth * 0.4.

Definition pointLightIntensity (ecosystemHealth : Q) : Q := 1.5 + ecosystemHealth * 0.5.

Definition mieCoefficient (ecosystemHealth : Q) : Q := 0.005 + (1 - ecosystemHealth) * 0.05.

(** The scene at health [better] is at least as bright and as clear as
    at health [worse]: the sun is no lower, the lights are no dimmer,
    the sky is no hazier. *)
Definition no_worse (worse better : Q) : Prop :=
  snd (fst (sunPosition worse)) <= snd (fst (sunPosition better))
  /\ ambientIntensity worse <= ambientIntensity better
  /\ pointLightIntensity worse <= pointLightIntensity better
  /\ turbidity better <= turbidity worse
  /\ rayleigh better <= rayleigh worse
  /\ mieCoefficient better <= mieCoefficient worse.

End Scene.

(* ===================================================================== *)
(** ** EventLog (the component found as unnamed/part_004)                *)
(* ===================================================================== *)

Module EventLog.
Import JS.

(** [SimulationEvent] of types.ts *)
Inductive Severity : Type := low | medium | high.

Definition Severity_literal (s : Severity) : string :=
  match s with
  | low => "low"
  | medium => "medium"
  | high => "high"
  end.

Record SimulationEvent : Type := {
  description : string;
  affected_species : list string;
  affected_tiles : list (Z * Z);
  severity : Severity
}.


Definition getSeverityColor (severity : string) : string :=
  if String.eqb severity "high" then "border-l-red-500 bg-red-900/20"
  else if String.eqb severity "medium" then "border-l-yellow-500 bg-yellow-900/20"
  else "border-l-blue-500 bg-blue-900/20".

(** One rendered event. *)
Record EventRow : Type := {
  rowClass : string;
  rowDescription : string;
  affectedLine : option string
}.

(** The blocks of the log, top to bottom. *)
Inductive block : Type :=
| NarrationBlock (text : string)
| WarningsBlock (rows : list string)
| EventsBlock (rows : list EventRow)
| EmptyState (hint : string).

Definition eventRow (event : SimulationEvent) : EventRow :=
  {| rowClass := "text-sm border-l-2 pl-3 py-2 rounded-r "
                 ++ getSeverityColor (Severity_literal (severity event));
     rowDescription := description event;
     affectedLine :=
       if (0 <? Z.of_nat (List.length (affected_species event)))
       then Some ("Affected: " ++ String.concat ", " (affected_species event))
       else None |}.

Definition EventLog (events : list SimulationEvent) (narration : string)
    (warnings : list string) : list block :=
  ((if negb (String.eqb narration EmptyString) then [NarrationBlock narration] else [])
   ++ (if 0 <? Z.of_nat (List.length warnings)
       then [WarningsBlock (map (fun warning => String.append "⚠️ " warning) warnings)]
       else [])
   ++ (if 0 <? Z.of_nat (List.length events)
       then [EventsBlock (map eventRow events)]
       else [])
   ++ (if (Z.of_nat (List.length events) =? 0) && String.eqb narration EmptyString
       then [EmptyState "Advance the simulation to see what happens..."]
       else []))%list.

End EventLog.

(* ===================================================================== *)
(** ** Further vocabulary                                                *)
(* ===================================================================== *)

Module Terms.
Import JS Types SpeciesMarkers.
Local Open Scope Q_scope.

(** The pixels and the size of an image as [getImageData] delivers
    them: four channels per pixel, each a byte. *)
Definition image_consistent (data : list Z) (size : ImageSize) : Prop :=
  (1 <= width size)%Z /\ (1 <= height size)%Z
  /\ Z.of_nat (List.length data) = (4 * width size * height size)%Z
  /\ Forall (fun channel => (0 <= channel <= 255)%Z) data.

(** [elevation < clipThreshold], which is false for NaN. *)
Definition below_threshold (elevation : number) : bool :=
  match elevation with
  | Some e => negb (Qle_bool clipThreshold e)
  | None => false
  end.

(** The marker pushed for a sample [(u, v)] of elevation [elevation]. *)
Definition marker_at {RT : Runtime} (terrainSize : Q) (terrainPosition : Q * Q * Q)
    (s : Species) (u v : Q) (elevation : number) : Marker :=
  {| position := ((u - 0.5) * terrainSize + fst (fst terrainPosition),
                  match elevation with
                  | Some e => Some (snd (fst terrainPosition) + e * 1.0 + 0.1)
                  | None => None
                  end,
                  (v - 0.5) * terrainSize + snd terrainPosition);
     color := marker_color s;
     size := marker_size s |}.

(** A marker lies on the terrain square and above its base. *)
Definition on_terrain (terrainSize : Q) (terrainPosition : Q * Q * Q) (m : Marker) : Prop :=
  let '(x, y, z) := position m in
  let '(tx, ty, tz) := terrainPosition in
  tx - terrainSize / 2 <= x <= tx + terrainSize / 2
  /\ tz - terrainSize / 2 <= z <= tz + terrainSize / 2
  /\ exists height, y = Some height /\ ty + 0.25 <= height <= ty + 1.1.

(** The sum of the dot counts of a list of species. *)
Definition dotTotal {RT : Runtime} (l : list Species) : Z :=
  fold_right (fun s total => (dotCount s + total)%Z) 0%Z l.

End Terms.

(* ===================================================================== *)
(** ** More concrete data for worked examples                            *)
(* ===================================================================== *)

Module SampleMore.
Import JS Types Eff.

(** A server that answers every request with status 500 and a body that
    is not JSON. *)
Definition broken_server (req : Request) : completion Response :=
  Normal {| status := 500; json := Throw (ErrorInstance "Unexpected token < in JSON") |}.

(** A server that answers every request with status 200 and an empty
    object. *)
Definition hollow_server (req : Request) : completion Response :=
  Normal {| status := 200; json := Normal (VObj []) |}.

(** An image of one pixel, on land, and one of one pixel, under water. *)
Definition land_pixel : list Z := [255; 0; 0; 255]%Z.
Definition water_pixel : list Z := [0; 0; 200; 255]%Z.
Definition one_by_one : SpeciesMarkers.ImageSize :=
  {| SpeciesMarkers.width := 1; SpeciesMarkers.height := 1 |}.

(** A random source that always answers one half. *)
Definition half (k : nat) : Q := 0.5%Q.

(** The panel with Introduce Species and Wolf selected. *)
Definition introduce_wolf : ControlPanel.PanelState :=
  {| ControlPanel.interventionType := "introduce_species";
     ControlPanel.selectedOption := "Wolf" |}.

End SampleMore.

(* ===================================================================== *)
(** ** The tile view (frontend/src/components/EcosystemViewport.tsx)      *)
(* ===================================================================== *)

Module TileViewport.
Import JS Types.
Local Open Scope Q_scope.

(** [BIOME_COLORS] of types.ts *)
Definition BIOME_COLORS (b : BiomeType) : string :=
  match b with
  | grassland => "#8b7355"
  | forest => "#2d5a3d"
  | desert => "#c4a35a"
  | tundra => "#a8b5c4"
  | wetland => "#4a6670"
  | mountain => "#5a5a6e"
  end.

(** A mesh: the position of its centre, the size of its box and its
    colour. *)
Record Mesh : Type := {
  position : Q * Q * Q;
  boxSize : Q * Q * Q;
  meshColor : string
}.

Definition offset (gridSize : Q) : Q := gridSize / 2 - 0.5.

Definition height (tile : Tile) : Q := 0.1 + (elevation tile / 100) * 0.8.

Definition TileMesh (tile : Tile) (gridSize : Q) (isSelected : bool) : Mesh :=
  {| position := (inject_Z (x tile) - offset gridSize,
                  height tile / 2,
                  inject_Z (y tile) - offset gridSize);
     boxSize := (0.9, height tile, 0.9);
     meshColor := if isSelected then "#ffffff" else BIOME_COLORS (biome tile) |}.

(** [selectedTile?.[0] === tile.x && selectedTile?.[1] === tile.y] *)
Definition isSelected (selectedTile : option (Z * Z)) (tile : Tile) : bool :=
  match selectedTile with
  | Some (sx, sy) => (sx =? x tile)%Z && (sy =? y tile)%Z
  | None => false
  end.





(** The three groups of children of the viewport: the tiles, the trees
    on the forest tiles, the peaks on the mountain tiles. *)
Definition tileMeshes (tiles : list Tile) (gridSize : Q) (selectedTile : option (Z * Z))
  : list Mesh :=
  map (fun tile => TileMesh tile gridSize (isSelected selectedTile tile)) tiles.



(** The horizontal extent of a mesh along the first and third axis. *)
Definition west (m : Mesh) : Q := fst (fst (position m)) - fst (fst (boxSize m)) / 2.
Definition east (m : Mesh) : Q := fst (fst (position m)) + fst (fst (boxSize m)) / 2.
Definition north (m : Mesh) : Q := snd (position m) - snd (boxSize m) / 2.
Definition south (m : Mesh) : Q := snd (position m) + snd (boxSize m) / 2.
Definition bottom (m : Mesh) : Q := snd (fst (position m)) - snd (fst (boxSize m)) / 2.
Definition top (m : Mesh) : Q := snd (fst (position m)) + snd (fst (boxSize m)) / 2.

(** Two boxes share no point of the ground plane. *)
Definition apart (a b : Mesh) : Prop :=
  east a < west b \/ east b < west a \/ south a < north b \/ south b < north a.


End TileViewport.

(* ===================================================================== *)
(** * Properties                                                         *)
(* ===================================================================== *)

(** ** Running handlers *)

(** Evaluates the monad operations and the effects on the state, and
    nothing else. *)
Ltac run_action :=
  cbn [Eff.bind Eff.try_catch Eff.try_finally Eff.perform Eff.lift Eff.ret Eff.throw
       Eff.trace Eff.outcome JS.bind JS.try_catch JS.get
       fst snd app fold_left negb
       App.apply App.ecosystem App.events App.narration App.warnings App.error
       App.isLoading].

(** ** Ecosystem health *)

Section HealthFacts.
Import Types EcosystemViewport Props.
Local Open Scope Q_scope.

Lemma totalPopulation_from (l : list Species) (start : Z) :
  fold_left (fun sum s => (sum + population s)%Z) l start
  = (start + totalPopulation l)%Z.
Proof.
  unfold totalPopulation.
  revert start.
  induction l as [| s l IH]; intro start; simpl.
  - lia.
  - rewrite IH. rewrite (IH (population s)). lia.
Qed.

Lemma totalPopulation_nonneg (l : list Species) :
  Forall (fun s => (0 <= population s)%Z) l -> (0 <= totalPopulation l)%Z.
Proof.
  induction 1 as [| s l Hs _ IH].
  - unfold totalPopulation. simpl. lia.
  - unfold totalPopulation. simpl. rewrite totalPopulation_from. lia.
Qed.

Lemma Forall_filter_keeps {A} (P : A -> Prop) (f : A -> bool) (l : list A) :
  Forall P l -> Forall P (filter f l).
Proof.
  induction 1 as [| a l Ha _ IH]; simpl.
  - constructor.
  - destruct (f a); auto.
Qed.

Lemma ratio_in_unit (a b : nat) :
  (a <= b)%nat -> (0 < b)%nat ->
  0 <= inject_Z (Z.of_nat a) / inject_Z (Z.of_nat b) <= 1.
Proof.
  intros Hab Hb.
  assert (Hb' : 0 < inject_Z (Z.of_nat b)).
  { replace 0 with (inject_Z 0) by reflexivity. rewrite <- Zlt_Qlt. lia. }
  assert (Ha' : 0 <= inject_Z (Z.of_nat a)).
  { replace 0 with (inject_Z 0) by reflexivity. rewrite <- Zle_Qle. lia. }
  assert (Hab' : inject_Z (Z.of_nat a) <= inject_Z (Z.of_nat b)).
  { rewrite <- Zle_Qle. lia. }
  split.
  - apply Qle_shift_div_l; [assumption | lra].
  - apply Qle_shift_div_r; [assumption | lra].
Qed.

Lemma plantHealth_upper (t : Z) : Qmin 1.0 (inject_Z t / 2000) <= 1.
Proof.
  eapply Qle_trans; [apply Q.le_min_l | lra].
Qed.

Lemma plantHealth_lower (t : Z) : (0 <= t)%Z -> 0 <= Qmin 1.0 (inject_Z t / 2000).
Proof.
  intro Ht.
  apply Q.min_glb; [lra |].
  apply Qle_shift_div_l; [lra |].
  replace (0 * 2000) with (inject_Z 0) by reflexivity.
  rewrite <- Zle_Qle. assumption.
Qed.

(** The health metric never exceeds 1, whatever the populations are. *)
Lemma ecosystemHealth_at_most_one (species : option (list Species)) :
  ecosystemHealth species <= 1.
Proof.
  destruct species as [[| s l] |]; cbn [ecosystemHealth]; try lra.
  set (sp := s :: l).
  pose proof (plantHealth_upper (totalPopulation (filter (is_diet producer) sp))) as HP.
  pose proof (ratio_in_unit
                (List.length (filter (fun s0 => (population s0 >? 0)%Z) sp))
                (List.length sp) (filter_length_le _ _)) as HD.
  assert (Hlen : (0 < List.length sp)%nat) by (simpl; lia).
  specialize (HD Hlen).
  destruct ((totalPopulation (filter (is_diet herbivore) sp) >? 0)%Z
            && (totalPopulation (filter (is_diet carnivore) sp) >? 0)%Z)%bool;
    lra.
Qed.

(** C9 as stated does not hold: a species list is any list of species,
    and a population is a number. With one producer of population
    -5000 the plant term is -2.5, and the metric is -0.9, outside
    [0, 1]. *)
Lemma ecosystemHealth_negative_population :
  let species :=
    Some [ {| name := "Grass"; population := -5000; diet := producer; prey := [];
              predators := []; preferred_biome := grassland;
              reproduction_rate := 0.3; territory_size := 0.01 |} ] in
  ecosystemHealth species == - 0.9
  /\ ~ (0 <= ecosystemHealth species <= 1).
Proof.
  cbv zeta. split; [reflexivity |].
  intros [H _]. revert H. apply Qlt_not_le. reflexivity.
Qed.

(** C9, as the code has it. The derived ecosystem health never exceeds
    1, whatever the species list. It is at least 0 for every species
    list in which no population is negative, and for a missing list.
    For an empty or missing species list it is exactly 1.0. *)
Theorem ecosystemHealth_in_unit_interval (species : option (list Species)) :
  ecosystemHealth species <= 1
  /\ (populations_nonnegative species -> 0 <= ecosystemHealth species <= 1)
  /\ (empty_or_missing species -> ecosystemHealth species = 1.0).
Proof.
  split; [apply ecosystemHealth_at_most_one |].
  split.
  - intro Hpop. split; [| apply ecosystemHealth_at_most_one].
    destruct species as [[| s l] |]; cbn [ecosystemHealth]; try lra.
    simpl in Hpop.
    set (sp := s :: l) in *.
    pose proof (plantHealth_lower _
                  (totalPopulation_nonneg _
                     (Forall_filter_keeps _ (is_diet producer) _ Hpop))) as HP.
    pose proof (ratio_in_unit
                  (List.length (filter (fun s0 => (population s0 >? 0)%Z) sp))
                  (List.length sp) (filter_length_le _ _)) as HD.
    assert (Hlen : (0 < List.length sp)%nat) by (simpl; lia).
    specialize (HD Hlen).
    destruct ((totalPopulation (filter (is_diet herbivore) sp) >? 0)%Z
              && (totalPopulation (filter (is_diet carnivore) sp) >? 0)%Z)%bool;
      lra.
  - intros [-> | ->]; reflexivity.
Qed.

Lemma ecosystemHealth_in_unit_interval_witness :
  populations_nonnegative (Some [Sample.grass; Sample.rabbit; Sample.fox])
  /\ 0 <= ecosystemHealth (Some [Sample.grass; Sample.rabbit; Sample.fox]) <= 1.
Proof.
  assert (H : populations_nonnegative (Some [Sample.grass; Sample.rabbit; Sample.fox])).
  { simpl. repeat constructor; simpl; lia. }
  split; [exact H |].
  destruct (ecosystemHealth_in_unit_interval (Some [Sample.grass; Sample.rabbit; Sample.fox]))
    as (_ & Hunit & _).
  exact (Hunit H).
Defined.

End HealthFacts.

(** ** The species list *)

Section SpeciesPanelFacts.
Import JS Types SpeciesPanel.
Context {RT : Runtime}.

Lemma insert_permutation {A} (cmp : A -> A -> Z) (a : A) (l : list A) :
  Permutation (insert cmp a l) (a :: l).
Proof.
  induction l as [| b l IH]; simpl.
  - apply Permutation_refl.
  - destruct (cmp a b <=? 0).
    + apply Permutation_refl.
    + eapply perm_trans; [apply perm_skip, IH | apply perm_swap].
Qed.

Lemma sort_permutation {A} (cmp : A -> A -> Z) (l : list A) :
  Permutation (sort cmp l) l.
Proof.
  induction l as [| a l IH]; simpl.
  - constructor.
  - eapply perm_trans; [apply insert_permutation | apply perm_skip, IH].
Qed.

(** The display order: no entry is followed by one of an earlier diet. *)
Lemma insert_sorted (a : Species) (l : list Species) :
  StronglySorted (fun s1 s2 => compareDiet s1 s2 <= 0) l ->
  StronglySorted (fun s1 s2 => compareDiet s1 s2 <= 0) (insert compareDiet a l).
Proof.
  induction 1 as [| b l Hsorted IH Hall]; simpl.
  - repeat constructor.
  - destruct (compareDiet a b <=? 0) eqn:Hab.
    + apply Z.leb_le in Hab.
      constructor; [constructor; assumption |].
      constructor; [assumption |].
      eapply Forall_impl; [| exact Hall].
      unfold compareDiet in *. intros c Hc. lia.
    + apply Z.leb_gt in Hab.
      constructor; [assumption |].
      apply (Permutation_Forall (Permutation_sym (insert_permutation compareDiet a l))).
      constructor; [unfold compareDiet in *; lia | assumption].
Qed.

Lemma sortedSpecies_sorted (species : list Species) :
  StronglySorted (fun s1 s2 => compareDiet s1 s2 <= 0) (sortedSpecies species).
Proof.
  unfold sortedSpecies, sort.
  induction species as [| a l IH]; simpl.
  - constructor.
  - apply insert_sorted. assumption.
Qed.

Lemma entry_of_extinct (s : Species) :
  population s = 0 -> populationText (entry s) = "EXTINCT" /\ shownName (entry s) = name s.
Proof.
  intro H. unfold entry. simpl. rewrite H. simpl. split; reflexivity.
Qed.

(** C8. Every species of the list given to the panel gets exactly one
    entry: the entries are, up to order, the entries of the species one
    by one. A species whose population is 0 is among them, under its
    name and labelled EXTINCT. *)
Theorem SpeciesPanel_keeps_every_species (species : list Species) :
  Permutation (SpeciesPanel species) (map entry species)
  /\ List.length (SpeciesPanel species) = List.length species
  /\ (forall s, In s species -> population s = 0 ->
        In (entry s) (SpeciesPanel species)
        /\ shownName (entry s) = name s
        /\ populationText (entry s) = "EXTINCT").
Proof.
  assert (HP : Permutation (SpeciesPanel species) (map entry species)).
  { unfold SpeciesPanel, sortedSpecies.
    apply Permutation_map, sort_permutation. }
  split; [exact HP |]. split.
  - rewrite (Permutation_length HP). apply length_map.
  - intros s Hin Hzero.
    destruct (entry_of_extinct s Hzero) as [Htext Hname].
    split; [| split; assumption].
    apply (Permutation_in _ (Permutation_sym HP)).
    apply in_map. assumption.
Qed.

End SpeciesPanelFacts.

Lemma SpeciesPanel_keeps_every_species_witness :
  In Sample.dodo [Sample.grass; Sample.dodo; Sample.fox]
  /\ Types.population Sample.dodo = 0
  /\ In (SpeciesPanel.entry (RT := Sample.runtime) Sample.dodo)
        (SpeciesPanel.SpeciesPanel (RT := Sample.runtime)
           [Sample.grass; Sample.dodo; Sample.fox])
  /\ SpeciesPanel.populationText (SpeciesPanel.entry (RT := Sample.runtime) Sample.dodo)
     = "EXTINCT".
Proof.
  assert (Hin : In Sample.dodo [Sample.grass; Sample.dodo; Sample.fox])
    by (right; left; reflexivity).
  assert (Hzero : Types.population Sample.dodo = 0) by reflexivity.
  destruct (SpeciesPanel_keeps_every_species (RT := Sample.runtime)
              [Sample.grass; Sample.dodo; Sample.fox]) as [_ [_ H]].
  destruct (H Sample.dodo Hin Hzero) as [H1 [_ H3]].
  repeat split; assumption.
Defined.

(** ** Species markers *)

Section SpeciesMarkersFacts.
Import JS Types SpeciesMarkers Props.
Context {RT : Runtime}.
Variable terrainSize : Q.
Variable terrainPosition : Q * Q * Q.
Variable elevationData : option (list Z).
Variable imageSize : ImageSize.
Variable random : nat -> Q.

#[local] Abbreviation place :=
  (SpeciesMarkers.place terrainSize terrainPosition elevationData imageSize random).
#[local] Abbreviation placeSpecies :=
  (SpeciesMarkers.placeSpecies terrainSize terrainPosition elevationData imageSize random).
#[local] Abbreviation markers :=
  (SpeciesMarkers.markers terrainSize terrainPosition elevationData imageSize random).

Lemma dotCount_range (s : Species) : (3 <= dotCount s <= 50)%Z.
Proof. unfold dotCount. lia. Qed.

Lemma place_appends (attemptsLeft : nat) (s : Species) :
  forall (placed : Z) (calls : nat) (result : list Marker),
    (placed <= dotCount s)%Z ->
    exists dots,
      snd (place attemptsLeft s placed calls result) = (result ++ dots)%list
      /\ (placed + Z.of_nat (List.length dots) <= dotCount s)%Z
      /\ Forall (fun m => color m = marker_color s /\ size m = marker_size s) dots.
Proof.
  induction attemptsLeft as [| n IH]; intros placed calls result Hle.
  - exists []. simpl. rewrite app_nil_r. repeat split; [lia | constructor].
  - cbn [SpeciesMarkers.place].
    destruct (placed <? dotCount s)%Z eqn:Hlt.
    + destruct (match getElevationAt elevationData imageSize (random calls) (random (S calls)) with
                | Some e => negb (Qle_bool clipThreshold e)
                | None => false
                end).
      * apply IH. assumption.
      * apply Z.ltb_lt in Hlt.
        match goal with
        | |- context [SpeciesMarkers.place _ _ _ _ _ n s (placed + 1)%Z ?c (result ++ [?m])%list] =>
            destruct (IH (placed + 1)%Z c (result ++ [m])%list ltac:(lia))
              as [dots [Heq [Hlen Hall]]];
            exists (m :: dots)
        end.
        rewrite Heq. rewrite <- app_assoc. simpl.
        repeat split.
        -- lia.
        -- constructor; [split; reflexivity | assumption].
    + exists []. simpl. rewrite app_nil_r. repeat split; [lia | constructor].
Qed.

Lemma placeSpecies_appends (acc : nat * list Marker) (s : Species) :
  exists dots, snd (placeSpecies acc s) = (snd acc ++ dots)%list /\ dots_of s dots.
Proof.
  unfold SpeciesMarkers.placeSpecies.
  destruct (place_appends (Z.to_nat (dotCount s * 20)) s 0%Z (fst acc) (snd acc))
    as [dots [Heq [Hlen Hall]]].
  - pose proof (dotCount_range s). lia.
  - exists dots. split; [assumption | split; [lia | assumption]].
Qed.

Lemma fold_placeSpecies_groups (l : list Species) :
  forall acc : nat * list Marker,
    exists groups,
      snd (fold_left placeSpecies l acc) = (snd acc ++ concat groups)%list
      /\ Forall2 dots_of l groups.
Proof.
  induction l as [| s l IH]; intro acc; simpl.
  - exists []. simpl. rewrite app_nil_r. split; [reflexivity | constructor].
  - destruct (placeSpecies_appends acc s) as [dots [Hs Hdots]].
    destruct (IH (placeSpecies acc s)) as [groups [Hg Hall]].
    exists (dots :: groups). split.
    + rewrite Hg, Hs. simpl. rewrite app_assoc. reflexivity.
    + constructor; assumption.
Qed.

Lemma no_dots_groups (l : list Species) :
  Forall2 dots_of l (map (fun _ => []) l) /\ concat (map (fun _ : Species => @nil Marker) l) = [].
Proof.
  induction l as [| s l [IH1 IH2]]; simpl.
  - split; [constructor | reflexivity].
  - split; [| assumption].
    constructor; [| assumption].
    split; [pose proof (dotCount_range s); simpl; lia | constructor].
Qed.

(** C10. The markers are the concatenation of one group of dots per
    species with a positive population, in list order; a species
    without population gets none. A group has at most [dotCount]
    markers, and [dotCount], which is
    min(50, max(3, floor(log10(population + 1) * 10))), is at most 50. *)
Theorem markers_per_species_bounded (species : list Species) :
  exists groups : list (list Marker),
    markers species = concat groups
    /\ Forall (fun s => In s species /\ (population s > 0)%Z) (activeSpecies species)
    /\ Forall2 (fun s dots =>
                  (Z.of_nat (List.length dots) <= dotCount s)%Z
                  /\ dotCount s
                     = Z.min 50 (Z.max 3 (Qfloor (Math_log10 (inject_Z (population s + 1)) * 10)))
                  /\ (dotCount s <= 50)%Z
                  /\ Forall (fun m => color m = marker_color s /\ size m = marker_size s) dots)
               (activeSpecies species) groups.
Proof.
  assert (Hactive : Forall (fun s => In s species /\ (population s > 0)%Z)
                      (activeSpecies species)).
  { apply Forall_forall. intros s Hs.
    apply filter_In in Hs. destruct Hs as [Hin Hpos].
    split; [assumption | lia]. }
  assert (Hwiden : forall l groups, Forall2 dots_of l groups ->
            Forall2 (fun s dots =>
                  (Z.of_nat (List.length dots) <= dotCount s)%Z
                  /\ dotCount s
                     = Z.min 50 (Z.max 3 (Qfloor (Math_log10 (inject_Z (population s + 1)) * 10)))
                  /\ (dotCount s <= 50)%Z
                  /\ Forall (fun m => color m = marker_color s /\ size m = marker_size s) dots)
               l groups).
  { intros l0 groups H. induction H as [| s dots l gs [Hlen Hall] _ IH]; constructor.
    - split; [exact Hlen |].
      split; [reflexivity |].
      split; [apply dotCount_range | exact Hall].
    - assumption. }
  unfold SpeciesMarkers.markers.
  destruct elevationData as [data |] eqn:Hdata.
  - destruct (width imageSize =? 0)%Z.
    + exists (map (fun _ => []) (activeSpecies species)).
      destruct (no_dots_groups (activeSpecies species)) as [H1 H2].
      rewrite H2. repeat split; auto.
    + destruct (fold_placeSpecies_groups (activeSpecies species) (O, [])) as [groups [Heq Hall]].
      exists groups. rewrite <- Hdata. rewrite Heq. simpl. repeat split; auto.
  - exists (map (fun _ => []) (activeSpecies species)).
    destruct (no_dots_groups (activeSpecies species)) as [H1 H2].
    rewrite H2. repeat split; auto.
Qed.

End SpeciesMarkersFacts.

(** ** Timestamps *)

Section TimestampFacts.
Import JS ISO8601.

Lemma digit_facts (n : Z) :
  digit_value (digit n) = Some (n mod 10)
  /\ Ascii.eqb (digit n) "+" = false
  /\ Ascii.eqb (digit n) "-" = false.
Proof.
  unfold digit.
  pose proof (Z.mod_pos_bound n 10 ltac:(lia)) as Hk.
  set (k := n mod 10) in *.
  assert (Hcases : k = 0 \/ k = 1 \/ k = 2 \/ k = 3 \/ k = 4
                   \/ k = 5 \/ k = 6 \/ k = 7 \/ k = 8 \/ k = 9) by lia.
  clearbody k.
  repeat (destruct Hcases as [-> | Hcases]); try subst k;
    (split; [| split]); reflexivity.
Qed.

Lemma read_digits_pad (width : nat) :
  forall (n acc : Z) (rest : string),
    0 <= n ->
    read_digits width acc (pad width n ++ rest)
    = Some (acc * 10 ^ Z.of_nat width + n mod 10 ^ Z.of_nat width, rest).
Proof.
  induction width as [| w IH]; intros n acc rest Hn.
  - simpl. rewrite Z.mod_1_r. f_equal. f_equal. lia.
  - cbn [pad read_digits append].
    destruct (digit_facts (n / 10 ^ Z.of_nat w)) as [-> _].
    rewrite IH by assumption.
    f_equal. f_equal.
    rewrite Nat2Z.inj_succ, Z.pow_succ_r by lia.
    assert (Hpow : 0 < 10 ^ Z.of_nat w) by (apply Z.pow_pos_nonneg; lia).
    rewrite (Z.mul_comm 10 (10 ^ Z.of_nat w)).
    rewrite (Z.rem_mul_r n (10 ^ Z.of_nat w) 10) by lia.
    lia.
Qed.

Lemma read_field_pad (width : nat) (sep : ascii) (n : Z) (rest : string) :
  0 <= n < 10 ^ Z.of_nat width ->
  read_field width sep (pad width n ++ String sep rest) = Some (n, rest).
Proof.
  intros Hn. unfold read_field.
  rewrite read_digits_pad by lia.
  rewrite Ascii.eqb_refl.
  rewrite Z.mod_small by lia. reflexivity.
Qed.

Lemma read_year_toISOString (y : Z) (rest : string) :
  -271821 <= y <= 275760 ->
  read_year ((if (0 <=? y) && (y <=? 9999) then pad 4 y
              else (if y <? 0 then "-" else "+") ++ pad 6 (Z.abs y))
             ++ String "-" rest)
  = Some (y, rest).
Proof.
  intro Hy.
  destruct ((0 <=? y) && (y <=? 9999)) eqn:Hsmall.
  - apply andb_prop in Hsmall. destruct Hsmall as [H0 H1].
    apply Z.leb_le in H0. apply Z.leb_le in H1.
    pose proof (read_field_pad 4 "-" y rest ltac:(simpl; lia)) as Hread.
    cbn [pad append] in *.
    unfold read_year.
    destruct (digit_facts (y / 10 ^ Z.of_nat 3)) as [_ [-> ->]].
    exact Hread.
  - destruct (y <? 0) eqn:Hneg.
    + apply Z.ltb_lt in Hneg.
      change (("-" ++ pad 6 (Z.abs y)) ++ String "-" rest)
        with (String "-" (pad 6 (Z.abs y) ++ String "-" rest)).
      unfold read_year.
      change (Ascii.eqb "-" "+") with false. change (Ascii.eqb "-" "-") with true.
      cbv iota.
      rewrite read_field_pad by (simpl; lia).
      replace (Z.abs y =? 0) with false by (symmetry; apply Z.eqb_neq; lia).
      f_equal. f_equal. lia.
    + apply Z.ltb_ge in Hneg.
      change (("+" ++ pad 6 (Z.abs y)) ++ String "-" rest)
        with (String "+" (pad 6 (Z.abs y) ++ String "-" rest)).
      unfold read_year.
      change (Ascii.eqb "+" "+") with true.
      cbv iota.
      rewrite read_field_pad by (simpl; lia).
      f_equal. f_equal. lia.
Qed.

Lemma in_range_bounds (lo hi n : Z) : in_range lo hi n = true -> lo <= n <= hi.
Proof.
  unfold in_range. intro H. apply andb_prop in H. destruct H as [H1 H2].
  apply Z.leb_le in H1. apply Z.leb_le in H2. lia.
Qed.

Lemma daysInMonth_at_most_31 (y m : Z) : daysInMonth y m <= 31.
Proof.
  unfold daysInMonth.
  destruct (m =? 1); [destruct (isLeapYear y); lia |].
  destruct ((m =? 3) || (m =? 5) || (m =? 8) || (m =? 10)); lia.
Qed.

Lemma daysBefore_bounds (y m : Z) :
  0 <= m <= 11 ->
  0 <= fold_right Z.add 0 (map (fun k => daysInMonth y (Z.of_nat k)) (seq 0 (Z.to_nat m)))
    <= 335.
Proof.
  intros H.
  assert (Hc : m = 0 \/ m = 1 \/ m = 2 \/ m = 3 \/ m = 4 \/ m = 5 \/ m = 6
               \/ m = 7 \/ m = 8 \/ m = 9 \/ m = 10 \/ m = 11) by lia.
  destruct (isLeapYear y) eqn:Hleap;
    repeat (destruct Hc as [Hc | Hc];
            [subst m; unfold daysInMonth; rewrite ?Hleap; vm_compute; split; discriminate |]);
    subst m; unfold daysInMonth; rewrite ?Hleap; vm_compute; split; discriminate.
Qed.

(** The range of the time value keeps the year between -271821 and
    275760. *)
Lemma timeValue_year_range (y m dt time : Z) :
  0 <= m <= 11 -> 1 <= dt <= 31 -> 0 <= time < 86400000 ->
  -8640000000000000 <= MakeDay y m dt * 86400000 + time <= 8640000000000000 ->
  -271821 <= y <= 275760.
Proof.
  intros Hm Hd Ht H. unfold MakeDay in H.
  pose proof (daysBefore_bounds y m Hm) as Hb.
  set (b := fold_right _ _ _) in *. clearbody b.
  unfold DayFromYear in H.
  Z.to_euclidean_division_equations. lia.
Qed.

(** The ranges of the components of a valid date. *)
Lemma Date_valid_ranges (d : Date) :
  Date_valid d ->
  -271821 <= utcFullYear d <= 275760
  /\ 0 <= utcMonth d <= 11
  /\ 1 <= utcDate d <= daysInMonth (utcFullYear d) (utcMonth d)
  /\ 0 <= utcHours d <= 23
  /\ 0 <= utcMinutes d <= 59
  /\ 0 <= utcSeconds d <= 59
  /\ 0 <= utcMilliseconds d <= 999.
Proof.
  unfold Date_valid, Date_ok. intro H.
  repeat (apply andb_prop in H; destruct H as [H ?]).
  repeat match goal with
         | Hr : in_range _ _ _ = true |- _ => apply in_range_bounds in Hr
         end.
  pose proof (daysInMonth_at_most_31 (utcFullYear d) (utcMonth d)) as H31.
  assert (Hyear : -271821 <= utcFullYear d <= 275760).
  { apply (timeValue_year_range (utcFullYear d) (utcMonth d) (utcDate d)
             (MakeTime (utcHours d) (utcMinutes d) (utcSeconds d) (utcMilliseconds d)));
      [lia | lia | unfold MakeTime; lia |].
    unfold timeValue in *. lia. }
  repeat split; lia.
Qed.

(** What [toISOString] writes reads back as the same date and time. *)
Lemma parse_toISOString (d : Date) :
  Date_valid d -> parse (toISOString d) = Some d.
Proof.
  intros Hvalid.
  destruct (Date_valid_ranges d Hvalid) as (Hy & Hmo & Hd & Hh & Hmi & Hs & Hms).
  pose proof (daysInMonth_at_most_31 (utcFullYear d) (utcMonth d)) as H31.
  unfold parse, toISOString.
  cbn [append].
  rewrite read_year_toISOString by lia.
  rewrite (read_field_pad 2 "-") by (simpl; lia).
  rewrite (read_field_pad 2 "T") by (simpl; lia).
  rewrite (read_field_pad 2 ":") by (simpl; lia).
  rewrite (read_field_pad 2 ":") by (simpl; lia).
  rewrite (read_field_pad 2 ".") by (simpl; lia).
  pose proof (read_field_pad 3 "Z" (utcMilliseconds d) "" ltac:(simpl; lia)) as Hms'.
  change (String "Z" "") with "Z" in Hms'.
  rewrite Hms'.
  cbv zeta.
  replace (utcMonth d + 1 - 1) with (utcMonth d) by lia.
  replace {| utcFullYear := utcFullYear d; utcMonth := utcMonth d; utcDate := utcDate d;
             utcHours := utcHours d; utcMinutes := utcMinutes d;
             utcSeconds := utcSeconds d; utcMilliseconds := utcMilliseconds d |}
    with d by (destruct d; reflexivity).
  unfold Date_valid in Hvalid. rewrite Hvalid. reflexivity.
Qed.

(** What [parse] reads is a valid date: a 30th of February, a month 13
    or a date outside the range of [Date] is not read. *)
Lemma parse_valid (s : string) (d : Date) : parse s = Some d -> Date_valid d.
Proof.
  unfold parse. intro H. cbv zeta in H.
  repeat match type of H with
         | match ?x with _ => _ end = _ =>
             let E := fresh "E" in destruct x eqn:E; try discriminate H
         end.
  injection H as <-. assumption.
Qed.

(** The 29th of February is read in a leap year only, and the year 0
    is not read with a minus sign. *)
Remark parse_calendar_examples :
  parse "2025-02-30T00:00:00.000Z" = None
  /\ parse "2025-02-29T00:00:00.000Z" = None
  /\ is_timestamp "2024-02-29T00:00:00.000Z" = true
  /\ parse "2025-13-01T00:00:00.000Z" = None
  /\ parse "2025-01-15T24:00:00.000Z" = None
  /\ parse "-000000-01-01T00:00:00.000Z" = None
  /\ parse "+275760-09-13T00:00:00.001Z" = None
  /\ is_timestamp "+275760-09-13T00:00:00.000Z" = true.
Proof. vm_compute. repeat split. Qed.

Lemma toISOString_is_timestamp (d : Date) :
  Date_valid d -> is_timestamp (toISOString d) = true.
Proof.
  intro H. unfold is_timestamp. rewrite parse_toISOString by assumption. reflexivity.
Qed.

End TimestampFacts.

(** ** Save *)

Section SaveFacts.
Import JS Types Eff App Props.
Context {RT : Runtime}.

Lemma get_truthy (v : value) (k : string) :
  truthy v = true -> get v k = Normal (field v k).
Proof.
  destruct v; simpl; intro H; try discriminate; reflexivity.
Qed.

Lemma handleSave_downloads (now : Date) (st : AppState) :
  truthy (ecosystem st) = true ->
  handleSave now st
  = ([Download ("ecosim-turn" ++ ToString (field (ecosystem st) "turn") ++ "-"
                ++ ToString (field (ecosystem st) "season") ++ ".json")
               (as_text (JSON_stringify (saveData now st)))],
     Normal tt).
Proof.
  intro H. unfold handleSave. rewrite H. cbn [negb].
  rewrite !(get_truthy _ _ H). reflexivity.
Qed.

Lemma serialized_items {A} (f : A -> value) (l : list A) :
  (forall a, f a <> VUndefined) ->
  (forall a, serialized (f a) = f a) ->
  map (fun x => match x with VUndefined => VNull | _ => serialized x end) (map f l)
  = map f l.
Proof.
  intros Hdef Hser. induction l as [| a l IH]; simpl.
  - reflexivity.
  - rewrite IH. f_equal.
    specialize (Hdef a). specialize (Hser a).
    destruct (f a); try congruence.
Qed.

Lemma serialized_strings (l : list string) :
  map (fun x => match x with VUndefined => VNull | _ => serialized x end) (map VStr l)
  = map VStr l.
Proof. apply serialized_items; [discriminate | reflexivity]. Qed.

Lemma serialized_Species (s : Species) : serialized (Species_object s) = Species_object s.
Proof.
  unfold Species_object. cbn [serialized flat_map app integer strings].
  rewrite !serialized_strings. reflexivity.
Qed.

Lemma serialized_Tile (t : Tile) : serialized (Tile_object t) = Tile_object t.
Proof.
  unfold Tile_object. cbn [serialized flat_map app integer strings].
  rewrite !serialized_strings. reflexivity.
Qed.

(** The object of a state is written to JSON as it is. *)
Lemma serialized_EcosystemState (s : EcosystemState) :
  serialized (EcosystemState_object s) = EcosystemState_object s.
Proof.
  unfold EcosystemState_object. cbn [serialized flat_map app integer strings].
  rewrite (serialized_items Tile_object (tiles s)) by (discriminate || apply serialized_Tile).
  rewrite (serialized_items Species_object (species s))
    by (discriminate || apply serialized_Species).
  rewrite !serialized_strings. reflexivity.
Qed.





End SaveFacts.

(** ** Advance *)

Section AdvanceFacts.
Import JS Types Eff App Props.
Context {RT : Runtime}.
Variable VITE_API_URL : option string.
Variable server : Request -> completion Response.

(** With an ecosystem in place, [handleAdvanceTurn] sends exactly one
    request, the advance request for its argument. *)
Lemma handleAdvanceTurn_requests
    (st : AppState) (intervention : option InterventionRequest) :
  truthy (ecosystem st) = true ->
  requests (trace (handleAdvanceTurn VITE_API_URL server st intervention))
  = [Api.advanceRequest VITE_API_URL intervention].
Proof.
  intro Heco. unfold handleAdvanceTurn. rewrite Heco. cbn [negb].
  unfold Api.advanceTurn, Api.fetch.
  destruct (server (Api.advanceRequest VITE_API_URL intervention)) as [response | e];
    run_action; [| reflexivity].
  destruct (ok response); run_action; [| reflexivity].
  destruct (json response) as [result | e]; run_action; [| reflexivity].
  destruct result; reflexivity.
Qed.


End AdvanceFacts.

(** ** Load *)

Section LoadFacts.
Import JS Types Eff App Props.
Context {RT : Runtime}.
Variable VITE_API_URL : option string.
Variable server : Request -> completion Response.

#[local] Abbreviation handleLoad := (App.handleLoad VITE_API_URL server).
#[local] Abbreviation loadEcosystem := (Api.loadEcosystem VITE_API_URL server).
#[local] Abbreviation loadRequest := (Api.loadRequest VITE_API_URL).

Lemma get_not_nullish (v : value) (k : string) :
  nullish v = false -> get v k = Normal (field v k).
Proof.
  destruct v; simpl; intro H; try discriminate; reflexivity.
Qed.

Lemma ecosystemToLoad_nullish (document : value) :
  nullish document = true ->
  ecosystemToLoad document = Throw (ErrorInstance (TypeError_message document "version")).
Proof.
  destruct document; simpl; intro H; try discriminate; reflexivity.
Qed.

Lemma ecosystemToLoad_format (document : value) :
  nullish document = false ->
  ecosystemToLoad document
  = match format_of document with
    | SaveFormat => Normal (field document "ecosystem")
    | RawState => Normal document
    | Neither => Throw (ErrorInstance "Invalid save file format - missing required data")
    end.
Proof.
  intro H. unfold ecosystemToLoad, format_of.
  rewrite !(get_not_nullish _ _ H). cbn [JS.bind].
  destruct (truthy (field document "version")) eqn:Hv; cbn [JS.bind andb];
    [destruct (truthy (field document "ecosystem")) eqn:He; cbn [JS.bind andb];
       [reflexivity |]
    | rewrite Hv ];
    (destruct (truthy (field document "species")) eqn:Hs; cbn [JS.bind andb];
       [destruct (truthy (field document "tiles")) eqn:Ht; reflexivity
       | rewrite Hs; reflexivity ]).
Qed.

Lemma ecosystemToLoad_not_nullish (document toLoad : value) :
  ecosystemToLoad document = Normal toLoad -> nullish document = false.
Proof.
  destruct document; simpl; intro H; try discriminate; reflexivity.
Qed.

Lemma loadEcosystem_trace (state : value) :
  trace (loadEcosystem state) = [Fetch (loadRequest state)].
Proof.
  unfold Api.loadEcosystem, Api.fetch.
  destruct (server (loadRequest state)) as [response | e]; run_action; [| reflexivity].
  destruct (ok response); run_action.
  - destruct (json response); reflexivity.
  - destruct (json response) as [errorData | e]; run_action.
    + destruct errorData; reflexivity.
    + reflexivity.
Qed.

Lemma loadEcosystem_fails (state : value) :
  load_fails (server (loadRequest state)) ->
  outcome (loadEcosystem state) = Throw (load_error (server (loadRequest state))).
Proof.
  unfold Api.loadEcosystem, Api.fetch, load_fails, load_error.
  destruct (server (loadRequest state)) as [response | e]; run_action; [| reflexivity].
  intros [Hok | [e He]].
  - rewrite Hok. run_action.
    destruct (json response) as [errorData | e]; run_action.
    + destruct errorData; reflexivity.
    + reflexivity.
  - rewrite He.
    destruct (ok response); run_action; reflexivity.
Qed.

Lemma loadEcosystem_succeeds (state : value) (response : Response) (loaded : value) :
  server (loadRequest state) = Normal response ->
  ok response = true ->
  json response = Normal loaded ->
  loadEcosystem state = ([Fetch (loadRequest state)], Normal loaded).
Proof.
  intros Hs Hok Hj.
  unfold Api.loadEcosystem, Api.fetch.
  rewrite Hs. run_action. rewrite Hok. run_action. rewrite Hj. reflexivity.
Qed.

Lemma handleLoad_unreadable (file : File) (err : thrown) :
  file_text file = Throw err ->
  trace (handleLoad file) = failed_load [] err.
Proof.
  intro H. unfold App.handleLoad. rewrite H. reflexivity.
Qed.

Lemma handleLoad_not_JSON (file : File) (t : text) :
  file_text file = Normal t ->
  JSON_parse t = None ->
  trace (handleLoad file) = failed_load [] (ErrorInstance "Invalid JSON file").
Proof.
  intros H Hp. unfold App.handleLoad. rewrite H. run_action. rewrite Hp. reflexivity.
Qed.

Lemma handleLoad_not_a_save (file : File) (t : text) (document : value) (err : thrown) :
  file_text file = Normal t ->
  JSON_parse t = Some document ->
  ecosystemToLoad document = Throw err ->
  trace (handleLoad file) = failed_load [] err.
Proof.
  intros H Hp He. unfold App.handleLoad.
  rewrite H. run_action. rewrite Hp. run_action. rewrite He. reflexivity.
Qed.

Lemma handleLoad_request_fails
    (file : File) (t : text) (document toLoad : value) (err : thrown) :
  file_text file = Normal t ->
  JSON_parse t = Some document ->
  ecosystemToLoad document = Normal toLoad ->
  outcome (loadEcosystem toLoad) = Throw err ->
  trace (handleLoad file) = failed_load [Fetch (loadRequest toLoad)] err.
Proof.
  intros H Hp He Hl. unfold App.handleLoad.
  rewrite H. run_action. rewrite Hp. run_action. rewrite He. run_action.
  pose proof (loadEcosystem_trace toLoad) as Htr.
  destruct (loadEcosystem toLoad) as [tr r].
  cbn [trace outcome fst snd] in *. subst tr r.
  reflexivity.
Qed.

Lemma handleLoad_installs
    (file : File) (t : text) (document toLoad loaded : value) :
  file_text file = Normal t ->
  JSON_parse t = Some document ->
  ecosystemToLoad document = Normal toLoad ->
  outcome (loadEcosystem toLoad) = Normal loaded ->
  trace (handleLoad file)
  = [ SetIsLoading true; SetError None; Fetch (loadRequest toLoad);
      SetEcosystem loaded;
      SetEvents (or_else (field document "events") (VArr []));
      SetNarration (or_else (field document "narration")
                      (VStr "Save file loaded successfully!"));
      SetWarnings (VArr []);
      SetIsLoading false ].
Proof.
  intros H Hp He Hl. unfold App.handleLoad.
  rewrite H. run_action. rewrite Hp. run_action. rewrite He. run_action.
  pose proof (loadEcosystem_trace toLoad) as Htr.
  destruct (loadEcosystem toLoad) as [tr r].
  cbn [trace outcome fst snd] in *. subst tr r.
  rewrite !(get_not_nullish _ _ (ecosystemToLoad_not_nullish _ _ He)).
  reflexivity.
Qed.

Lemma failed_load_state (sent : list effect) (err : thrown) (st : AppState) :
  Forall (fun e => data_setter e = false) sent ->
  same_data (fold_left App.apply (failed_load sent err) st) st
  /\ error (fold_left App.apply (failed_load sent err) st)
     = Some ("Failed to load: " ++ message_of err)
  /\ Forall (fun e => data_setter e = false) (failed_load sent err).
Proof.
  intro Hsent.
  assert (Hkeep : forall s, same_data (fold_left App.apply sent s) s).
  { induction Hsent as [| e l He _ IH]; intro s; simpl.
    - repeat split.
    - destruct (IH (App.apply s e)) as (H1 & H2 & H3 & H4).
      destruct e; try discriminate He; simpl in *; repeat split; assumption. }
  unfold failed_load.
  rewrite !fold_left_app.
  match goal with
  | |- context [fold_left App.apply sent ?s] =>
      destruct (Hkeep s) as (H1 & H2 & H3 & H4);
      destruct (fold_left App.apply sent s) as [e0 l0 ev0 n0 w0 er0]
  end.
  simpl in *. subst.
  split; [repeat split |]. split; [reflexivity |].
  repeat (apply Forall_cons; [reflexivity |]).
  apply Forall_app. split; [assumption | repeat constructor].
Qed.

Lemma requests_failed_load (sent : list effect) (err : thrown) :
  requests (failed_load sent err) = requests sent.
Proof.
  unfold failed_load, requests. cbn [app flat_map].
  rewrite flat_map_app. cbn [flat_map app]. apply app_nil_r.
Qed.

Lemma format_of_nullish (document : value) :
  nullish document = true -> format_of document = Neither.
Proof.
  destruct document; simpl; intro H; try discriminate; reflexivity.
Qed.

(** C3. When the text of the file is not JSON, or the parsed document
    has neither of the two accepted shapes, [handleLoad] shows a
    message that says so, calls none of the setters of the simulation
    data ([setEcosystem] among them), sends nothing to the server, and
    leaves the ecosystem, events, narration and warnings as they
    were. *)
Theorem handleLoad_rejects_bad_file (st : AppState) (file : File) (t : text) :
  file_text file = Normal t ->
  (JSON_parse t = None
   \/ exists document, JSON_parse t = Some document /\ format_of document = Neither) ->
  let m := handleLoad file in
  error (after m st) = Some ("Failed to load: " ++ rejection_message t)
  /\ same_data (after m st) st
  /\ Forall (fun e => data_setter e = false) (trace m)
  /\ requests (trace m) = [].
Proof.
  intros Hfile Hbad m. subst m. unfold after.
  assert (Htrace : exists err,
             trace (handleLoad file) = failed_load [] err
             /\ message_of err = rejection_message t).
  { unfold rejection_message.
    destruct Hbad as [Hparse | [document [Hparse Hformat]]]; rewrite Hparse.
    - eexists. split; [apply (handleLoad_not_JSON file t Hfile Hparse) | reflexivity].
    - destruct (nullish document) eqn:Hnull.
      + eexists. split.
        * apply (handleLoad_not_a_save file t document _ Hfile Hparse).
          apply ecosystemToLoad_nullish. assumption.
        * reflexivity.
      + eexists. split.
        * apply (handleLoad_not_a_save file t document _ Hfile Hparse).
          rewrite (ecosystemToLoad_format _ Hnull), Hformat. reflexivity.
        * reflexivity. }
  destruct Htrace as [err [Htrace Hmsg]].
  rewrite Htrace.
  destruct (failed_load_state [] err st (Forall_nil _)) as (Hsame & Herr & Hnone).
  rewrite <- Hmsg.
  repeat split; try apply Hsame; try assumption.
Qed.

(** C2, as the code has it. A parsed document other than [null] is
    handled by the truth values of its fields: if [version] and
    [ecosystem] are both truthy, the [ecosystem] field is sent to the
    server to be loaded; otherwise, if [species] and [tiles] are both
    truthy, the document itself is sent; otherwise nothing is sent and
    the load fails with the message Invalid save file format. *)
Theorem handleLoad_format_detection
    (st : AppState) (file : File) (t : text) (document : value) :
  file_text file = Normal t ->
  JSON_parse t = Some document ->
  nullish document = false ->
  let m := handleLoad file in
  match format_of document with
  | SaveFormat => requests (trace m) = [loadRequest (field document "ecosystem")]
  | RawState => requests (trace m) = [loadRequest document]
  | Neither =>
      requests (trace m) = []
      /\ error (after m st)
         = Some "Failed to load: Invalid save file format - missing required data"
  end.
Proof.
  intros Hfile Hparse Hnull m. subst m.
  pose proof (ecosystemToLoad_format document Hnull) as Hsel.
  assert (Hsent : forall toLoad,
             ecosystemToLoad document = Normal toLoad ->
             requests (trace (handleLoad file)) = [loadRequest toLoad]).
  { intros toLoad HtoLoad.
    destruct (outcome (loadEcosystem toLoad)) as [loaded | err] eqn:Hout.
    - rewrite (handleLoad_installs file t document toLoad loaded Hfile Hparse HtoLoad Hout).
      reflexivity.
    - rewrite (handleLoad_request_fails file t document toLoad err Hfile Hparse HtoLoad Hout).
      rewrite requests_failed_load. reflexivity. }
  destruct (format_of document).
  - apply Hsent. assumption.
  - apply Hsent. assumption.
  - unfold after.
    rewrite (handleLoad_not_a_save file t document _ Hfile Hparse Hsel).
    split; reflexivity.
Qed.

(** C4. When the load request fails (fetch rejects, the response is
    not ok, or its body cannot be read), [loadEcosystem] throws; for a
    response that is not ok and whose body has a truthy [detail], what
    it throws is an [Error] made from that detail, whose message is the
    detail itself when the detail is a string. [handleLoad] then calls
    none of the setters of the simulation data, so the ecosystem in the
    client is the one from before, and it shows the message. *)
Theorem failed_load_request_keeps_state
    (st : AppState) (file : File) (t : text) (document toLoad : value) :
  file_text file = Normal t ->
  JSON_parse t = Some document ->
  ecosystemToLoad document = Normal toLoad ->
  load_fails (server (loadRequest toLoad)) ->
  let m := handleLoad file in
  let err := load_error (server (loadRequest toLoad)) in
  outcome (loadEcosystem toLoad) = Throw err
  /\ (forall response errorData,
        server (loadRequest toLoad) = Normal response ->
        ok response = false ->
        json response = Normal errorData ->
        truthy (field errorData "detail") = true ->
        err = new_Error (field errorData "detail")
        /\ forall d, field errorData "detail" = VStr d -> err = ErrorInstance d)
  /\ same_data (after m st) st
  /\ Forall (fun e => data_setter e = false) (trace m)
  /\ error (after m st) = Some ("Failed to load: " ++ message_of err).
Proof.
  intros Hfile Hparse HtoLoad Hfails m err. subst m err.
  pose proof (loadEcosystem_fails toLoad Hfails) as Hthrows.
  split; [assumption |]. split.
  { intros response errorData Hs Hok Hj Hdetail.
    assert (Herr : load_error (server (loadRequest toLoad))
                   = new_Error (field errorData "detail")).
    { unfold load_error. rewrite Hs, Hok, Hj.
      destruct (nullish errorData) eqn:Hnull.
      - destruct errorData; try discriminate Hnull; discriminate Hdetail.
      - unfold or_else. rewrite Hdetail. reflexivity. }
    split; [assumption |].
    intros d Hd. rewrite Herr, Hd. reflexivity. }
  unfold after.
  rewrite (handleLoad_request_fails file t document toLoad _ Hfile Hparse HtoLoad Hthrows).
  assert (Hsent : Forall (fun e => data_setter e = false) [Fetch (loadRequest toLoad)])
    by (repeat constructor).
  destruct (failed_load_state [Fetch (loadRequest toLoad)]
              (load_error (server (loadRequest toLoad))) st Hsent)
    as (Hsame & Herr & Hnone).
  repeat split; try apply Hsame; assumption.
Qed.

End LoadFacts.

(** ** Save, then load *)

Section RoundTripFacts.
Import JS Types Eff App Props Backend.
Context {RT : Runtime}.
Variable VITE_API_URL : option string.

Lemma traverse_map {B} (f : B -> value) (g : value -> option B) (l : list B) :
  (forall b, g (f b) = Some b) -> traverse g (map f l) = Some l.
Proof.
  intro Hgf. induction l as [| b l IH]; simpl.
  - reflexivity.
  - rewrite Hgf, IH. reflexivity.
Qed.

Lemma as_strings_strings (l : list string) : as_array as_string (strings l) = Some l.
Proof. apply traverse_map. reflexivity. Qed.

Lemma as_biome_literal (b : BiomeType) : as_biome (VStr (BiomeType_literal b)) = Some b.
Proof. destruct b; reflexivity. Qed.

Lemma as_diet_literal (d : DietType) : as_diet (VStr (DietType_literal d)) = Some d.
Proof. destruct d; reflexivity. Qed.

Lemma as_Species_object (s : Species) : as_Species (Species_object s) = Some s.
Proof.
  unfold as_Species, Species_object. cbn [field lookup String.eqb Ascii.eqb Bool.eqb].
  cbn [as_string as_integer integer inject_Z as_number obind].
  rewrite as_diet_literal, !as_strings_strings, as_biome_literal.
  destruct s; reflexivity.
Qed.

Lemma as_Tile_object (t : Tile) : as_Tile (Tile_object t) = Some t.
Proof.
  unfold as_Tile, Tile_object. cbn [field lookup String.eqb Ascii.eqb Bool.eqb].
  cbn [as_string as_integer integer inject_Z as_number obind].
  rewrite as_biome_literal, as_strings_strings.
  destruct t; reflexivity.
Qed.

(** Reading the object of a state back gives the state, field for
    field. *)
Lemma as_EcosystemState_object (s : EcosystemState) :
  as_EcosystemState (EcosystemState_object s) = Some s.
Proof.
  unfold as_EcosystemState, EcosystemState_object.
  cbn [field lookup String.eqb Ascii.eqb Bool.eqb].
  cbn [as_string as_integer integer inject_Z as_number obind as_array].
  rewrite (traverse_map Tile_object as_Tile _ as_Tile_object).
  rewrite (traverse_map Species_object as_Species _ as_Species_object).
  fold (strings (events_log s)). rewrite as_strings_strings.
  destruct s; reflexivity.
Qed.

Lemma load_valid_state (s : EcosystemState) :
  validate s = true -> load (EcosystemState_object s) = inr s.
Proof.
  intro Hvalid. unfold load.
  change (has_field (EcosystemState_object s) "version") with false.
  change (has_field (EcosystemState_object s) "species") with true.
  change (has_field (EcosystemState_object s) "tiles") with true.
  cbn [andb]. rewrite as_EcosystemState_object, Hvalid. reflexivity.
Qed.

Lemma server_loads_valid_state (s : EcosystemState) :
  validate s = true ->
  Backend.server (Api.API_BASE VITE_API_URL)
    (Api.loadRequest VITE_API_URL (EcosystemState_object s))
  = Normal {| status := 200; json := Normal (EcosystemState_object s) |}.
Proof.
  intro Hvalid. unfold Backend.server, Api.loadRequest.
  cbn [url method body]. rewrite String.eqb_refl. cbn [andb String.eqb Ascii.eqb Bool.eqb].
  unfold JSON_stringify, EcosystemState_object. fold (EcosystemState_object s).
  rewrite serialized_EcosystemState, (load_valid_state s Hvalid). reflexivity.
Qed.

Lemma saved_document_ecosystem (now : Date) (saved : AppState) (s : EcosystemState) :
  ecosystem saved = EcosystemState_object s ->
  field (serialized (saveData now saved)) "ecosystem" = EcosystemState_object s
  /\ format_of (serialized (saveData now saved)) = SaveFormat
  /\ nullish (serialized (saveData now saved)) = false.
Proof.
  intro Heco. unfold saveData, format_of. rewrite Heco.
  pose proof (serialized_EcosystemState s) as Hser.
  unfold EcosystemState_object in *.
  cbn [serialized flat_map app] in *.
  rewrite Hser.
  repeat split.
Qed.

(** C1. Saving a valid ecosystem state S writes a document whose
    [ecosystem] field is S. When the saved file is given to
    [handleLoad], that field is what is extracted and sent: the one
    request made is the load request whose body is the document of S,
    not the saved document around it. With the server's load operation
    behind the request, the ecosystem installed in the client is S,
    field for field, and no error is shown. *)
Theorem save_then_load_round_trip
    (S : EcosystemState) (now : Date) (saved current : AppState) :
  validate S = true ->
  ecosystem saved = EcosystemState_object S ->
  exists filename blob document,
    handleSave now saved = ([Download filename blob], Normal tt)
    /\ JSON_parse blob = Some document
    /\ field document "ecosystem" = EcosystemState_object S
    /\ ecosystemToLoad document = Normal (EcosystemState_object S)
    /\ let m := handleLoad VITE_API_URL (Backend.server (Api.API_BASE VITE_API_URL))
                  {| file_text := Normal blob |} in
       requests (trace m) = [Api.loadRequest VITE_API_URL (EcosystemState_object S)]
       /\ body (Api.loadRequest VITE_API_URL (EcosystemState_object S))
          = Some (JSONText (EcosystemState_object S))
       /\ ecosystem (after m current) = EcosystemState_object S
       /\ as_EcosystemState (ecosystem (after m current)) = Some S
       /\ error (after m current) = None.
Proof.
  intros Hvalid Heco.
  assert (Htruthy : truthy (ecosystem saved) = true) by (rewrite Heco; reflexivity).
  destruct (saved_document_ecosystem now saved S Heco) as (Hfield & Hformat & Hnull).
  eexists. exists (JSONText (serialized (saveData now saved))).
  exists (serialized (saveData now saved)).
  split.
  { rewrite (handleSave_downloads now saved Htruthy).
    unfold JSON_stringify, saveData, as_text. reflexivity. }
  split; [reflexivity |].
  split; [assumption |].
  assert (HtoLoad : ecosystemToLoad (serialized (saveData now saved))
                    = Normal (EcosystemState_object S)).
  { rewrite (ecosystemToLoad_format _ Hnull), Hformat, Hfield. reflexivity. }
  split; [exact HtoLoad |].
  cbv zeta.
  assert (Hloaded : outcome (Api.loadEcosystem VITE_API_URL
                               (Backend.server (Api.API_BASE VITE_API_URL))
                               (EcosystemState_object S))
                    = Normal (EcosystemState_object S)).
  { erewrite loadEcosystem_succeeds.
    - reflexivity.
    - apply server_loads_valid_state. assumption.
    - reflexivity.
    - reflexivity. }
  unfold after.
  rewrite (handleLoad_installs VITE_API_URL _
             {| file_text := Normal (JSONText (serialized (saveData now saved))) |}
             (JSONText (serialized (saveData now saved)))
             (serialized (saveData now saved))
             (EcosystemState_object S) (EcosystemState_object S)
             eq_refl eq_refl HtoLoad Hloaded).
  cbn [fold_left App.apply ecosystem error requests flat_map app].
  split; [reflexivity |].
  split.
  { unfold Api.loadRequest. cbn [body]. unfold JSON_stringify, EcosystemState_object.
    fold (EcosystemState_object S). rewrite serialized_EcosystemState. reflexivity. }
  split; [reflexivity |]. split; [apply as_EcosystemState_object | reflexivity].
Qed.

End RoundTripFacts.

(** ** The intervention of an advance *)

Section InterventionFacts.
Import JS Types Eff App Props ControlPanel.
Context {RT : Runtime}.
Variable VITE_API_URL : option string.
Variable server : Request -> completion Response.
Variable selectedTile : option (Q * Q).

Lemma handleAdvance_intervention (panel : PanelState) (intervention : InterventionRequest) :
  In (OnAdvanceTurn (Some intervention)) (handleAdvance selectedTile panel) ->
  exists details, Types.details intervention = Some details.
Proof.
  unfold handleAdvance.
  destruct (String.eqb (interventionType panel) "" || String.eqb (selectedOption panel) "").
  - simpl. intros [H | [H | [H | []]]]; discriminate H.
  - destruct (String.eqb (interventionType panel) "introduce_species");
      [| destruct (String.eqb (interventionType panel) "remove_species");
         [| destruct (String.eqb (interventionType panel) "natural_disaster");
            [| destruct (String.eqb (interventionType panel) "change_climate")]]];
      simpl; (intros [H | [H | [H | []]]]; try discriminate H);
      injection H as <-; eexists; reflexivity.
Qed.

(** C6, as the code has it. When [handleAdvance] passes an intervention
    on, and there is an ecosystem, the one request made is the advance
    request whose body is the document {action, details}, both of them
    strings. *)
Theorem advance_intervention_shape
    (panel : PanelState) (st : AppState) (intervention : InterventionRequest) :
  In (OnAdvanceTurn (Some intervention)) (handleAdvance selectedTile panel) ->
  truthy (ecosystem st) = true ->
  exists action details : string,
    requests (trace (handleAdvanceTurn VITE_API_URL server st (Some intervention)))
    = [ advance_with (Api.API_BASE VITE_API_URL)
          (VObj [ ("action", VStr action); ("details", VStr details) ]) ].
Proof.
  intros Hcall Heco.
  destruct (handleAdvance_intervention panel intervention Hcall) as [details Hdetails].
  exists (Types.action intervention), details.
  rewrite (handleAdvanceTurn_requests VITE_API_URL server st _ Heco).
  unfold Api.advanceRequest, advance_with, InterventionRequest_object.
  rewrite Hdetails. reflexivity.
Qed.

End InterventionFacts.

(** ** Worked examples *)

Section Examples.
Import JS Types Eff App Props.

(** C6 as stated does not hold: with Remove Species and Fox selected,
    the document sent with the advance request has an [action] and a
    [details], and neither a [kind] nor a [payload]. *)
Lemma intervention_has_no_kind_or_payload :
  let intervention :=
    {| Types.action := "Remove all Fox from the ecosystem"; Types.details := Some EmptyString |} in
  let document :=
    VObj [ ("action", VStr "Remove all Fox from the ecosystem");
           ("details", VStr EmptyString) ] in
  ControlPanel.handleAdvance (RT := Sample.runtime) None Sample.remove_fox
  = [ ControlPanel.OnAdvanceTurn (Some intervention);
      ControlPanel.SetInterventionType EmptyString;
      ControlPanel.SetSelectedOption EmptyString ]
  /\ requests (trace (handleAdvanceTurn (RT := Sample.runtime) None
                        (Backend.server Sample.localhost) Sample.app (Some intervention)))
     = [advance_with Sample.localhost document]
  /\ field document "kind" = VUndefined
  /\ field document "payload" = VUndefined.
Proof.
  cbv zeta. repeat split.
Qed.

Lemma advance_intervention_shape_witness :
  In (ControlPanel.OnAdvanceTurn
        (Some {| Types.action := "Remove all Fox from the ecosystem"; Types.details := Some "" |}))
     (ControlPanel.handleAdvance (RT := Sample.runtime) None Sample.remove_fox)
  /\ truthy (ecosystem Sample.app) = true
  /\ exists action details : string,
       requests (trace (handleAdvanceTurn (RT := Sample.runtime) None
                          (Backend.server Sample.localhost) Sample.app
                          (Some {| Types.action := "Remove all Fox from the ecosystem";
                                   Types.details := Some "" |})))
       = [ advance_with (Api.API_BASE None)
             (VObj [ ("action", VStr action); ("details", VStr details) ]) ].
Proof.
  assert (H1 : In (ControlPanel.OnAdvanceTurn
                     (Some {| Types.action := "Remove all Fox from the ecosystem";
                              Types.details := Some "" |}))
                  (ControlPanel.handleAdvance (RT := Sample.runtime) None Sample.remove_fox))
    by (left; reflexivity).
  assert (H2 : truthy (ecosystem Sample.app) = true) by reflexivity.
  split; [exact H1 |]. split; [exact H2 |].
  exact (advance_intervention_shape (RT := Sample.runtime) None
           (Backend.server Sample.localhost) None Sample.remove_fox Sample.app _ H1 H2).
Defined.

(** C2 as stated does not hold: a document with a [version] field and
    an [ecosystem] field, the version being 0, is not loaded; nothing is
    sent, and the load fails as an invalid save file. *)
Lemma version_zero_is_not_loaded :
  let m := handleLoad (RT := Sample.runtime) None (Backend.server Sample.localhost)
             {| file_text := Normal (JSONText Sample.version_zero) |} in
  format_by_presence Sample.version_zero = SaveFormat
  /\ requests (trace m) = []
  /\ error (after m Sample.app)
     = Some "Failed to load: Invalid save file format - missing required data"
  /\ ecosystem (after m Sample.app) = ecosystem Sample.app.
Proof.
  cbv zeta. repeat split.
Qed.

Lemma handleLoad_format_detection_witness :
  file_text {| file_text := Normal (JSONText (saveData Sample.now Sample.app)) |}
  = Normal (JSONText (saveData Sample.now Sample.app))
  /\ JSON_parse (JSONText (saveData Sample.now Sample.app))
     = Some (saveData Sample.now Sample.app)
  /\ nullish (saveData Sample.now Sample.app) = false
  /\ requests (trace (handleLoad (RT := Sample.runtime) None
                        (Backend.server Sample.localhost)
                        {| file_text := Normal (JSONText (saveData Sample.now Sample.app)) |}))
     = [Api.loadRequest None (EcosystemState_object Sample.state)].
Proof.
  split; [reflexivity |]. split; [reflexivity |]. split; [reflexivity |].
  exact (handleLoad_format_detection (RT := Sample.runtime) None
           (Backend.server Sample.localhost) Sample.app
           {| file_text := Normal (JSONText (saveData Sample.now Sample.app)) |}
           (JSONText (saveData Sample.now Sample.app)) (saveData Sample.now Sample.app)
           eq_refl eq_refl eq_refl).
Defined.

Lemma handleLoad_rejects_bad_file_witness :
  file_text {| file_text := Normal (NotJSON "{ version: ") |} = Normal (NotJSON "{ version: ")
  /\ (JSON_parse (NotJSON "{ version: ") = None
      \/ exists document,
           JSON_parse (NotJSON "{ version: ") = Some document
           /\ format_of document = Neither)
  /\ error (after (handleLoad (RT := Sample.runtime) None (Backend.server Sample.localhost)
                     {| file_text := Normal (NotJSON "{ version: ") |}) Sample.app)
     = Some "Failed to load: Invalid JSON file"
  /\ ecosystem (after (handleLoad (RT := Sample.runtime) None (Backend.server Sample.localhost)
                         {| file_text := Normal (NotJSON "{ version: ") |}) Sample.app)
     = EcosystemState_object Sample.state.
Proof.
  assert (H1 : file_text {| file_text := Normal (NotJSON "{ version: ") |}
               = Normal (NotJSON "{ version: ")) by reflexivity.
  assert (H2 : JSON_parse (NotJSON "{ version: ") = None
               \/ exists document,
                    JSON_parse (NotJSON "{ version: ") = Some document
                    /\ format_of document = Neither) by (left; reflexivity).
  split; [exact H1 |]. split; [exact H2 |].
  destruct (handleLoad_rejects_bad_file (RT := Sample.runtime) None
              (Backend.server Sample.localhost) Sample.app _ _ H1 H2)
    as (Herr & (Heco & _) & _).
  split; [exact Herr | exact Heco].
Defined.

Lemma failed_load_request_keeps_state_witness :
  file_text {| file_text := Normal (JSONText Sample.hollow) |}
  = Normal (JSONText Sample.hollow)
  /\ JSON_parse (JSONText Sample.hollow) = Some Sample.hollow
  /\ ecosystemToLoad (RT := Sample.runtime) Sample.hollow = Normal Sample.hollow
  /\ load_fails (Backend.server Sample.localhost (Api.loadRequest None Sample.hollow))
  /\ outcome (Api.loadEcosystem (RT := Sample.runtime) None
                (Backend.server Sample.localhost) Sample.hollow)
     = Throw (ErrorInstance "ParseError: malformed save document")
  /\ error (after (handleLoad (RT := Sample.runtime) None (Backend.server Sample.localhost)
                     {| file_text := Normal (JSONText Sample.hollow) |}) Sample.app)
     = Some "Failed to load: ParseError: malformed save document"
  /\ ecosystem (after (handleLoad (RT := Sample.runtime) None (Backend.server Sample.localhost)
                         {| file_text := Normal (JSONText Sample.hollow) |}) Sample.app)
     = EcosystemState_object Sample.state.
Proof.
  assert (H1 : file_text {| file_text := Normal (JSONText Sample.hollow) |}
               = Normal (JSONText Sample.hollow)) by reflexivity.
  assert (H2 : JSON_parse (JSONText Sample.hollow) = Some Sample.hollow) by reflexivity.
  assert (H3 : ecosystemToLoad (RT := Sample.runtime) Sample.hollow = Normal Sample.hollow)
    by reflexivity.
  assert (H4 : load_fails (Backend.server Sample.localhost
                             (Api.loadRequest None Sample.hollow)))
    by (left; reflexivity).
  split; [exact H1 |]. split; [exact H2 |]. split; [exact H3 |]. split; [exact H4 |].
  destruct (failed_load_request_keeps_state (RT := Sample.runtime) None
              (Backend.server Sample.localhost) Sample.app _ _ _ _ H1 H2 H3 H4)
    as (Hthrows & _ & (Heco & _) & _ & Herr).
  split; [exact Hthrows |]. split; [exact Herr | exact Heco].
Defined.


Lemma save_then_load_round_trip_witness :
  Backend.validate Sample.state = true
  /\ ecosystem Sample.app = EcosystemState_object Sample.state
  /\ exists filename blob document,
       handleSave (RT := Sample.runtime) Sample.now Sample.app
       = ([Download filename blob], Normal tt)
       /\ JSON_parse blob = Some document
       /\ field document "ecosystem" = EcosystemState_object Sample.state
       /\ ecosystemToLoad (RT := Sample.runtime) document
          = Normal (EcosystemState_object Sample.state)
       /\ let m := handleLoad (RT := Sample.runtime) None
                     (Backend.server (Api.API_BASE None)) {| file_text := Normal blob |} in
          requests (trace m) = [Api.loadRequest None (EcosystemState_object Sample.state)]
          /\ body (Api.loadRequest None (EcosystemState_object Sample.state))
             = Some (JSONText (EcosystemState_object Sample.state))
          /\ ecosystem (after m initial) = EcosystemState_object Sample.state
          /\ Backend.as_EcosystemState (ecosystem (after m initial)) = Some Sample.state
          /\ error (after m initial) = None.
Proof.
  assert (H1 : Backend.validate Sample.state = true) by (vm_compute; reflexivity).
  assert (H2 : ecosystem Sample.app = EcosystemState_object Sample.state) by reflexivity.
  split; [exact H1 |]. split; [exact H2 |].
  exact (save_then_load_round_trip (RT := Sample.runtime) None
           Sample.state Sample.now Sample.app initial H1 H2).
Defined.

End Examples.

(** ** Load, in every case *)

Section LoadCases.
Import JS Types Eff App Props.
Context {RT : Runtime}.
Variable VITE_API_URL : option string.
Variable server : Request -> completion Response.

#[local] Abbreviation handleLoad := (App.handleLoad VITE_API_URL server).
#[local] Abbreviation loadEcosystem := (Api.loadEcosystem VITE_API_URL server).
#[local] Abbreviation loadRequest := (Api.loadRequest VITE_API_URL).

(** A load either fails, having sent nothing or the one load request,
    or installs what the server answered. *)
Lemma handleLoad_cases (file : File) :
  (exists sent err,
      trace (handleLoad file) = failed_load sent err
      /\ (sent = [] \/ exists toLoad, sent = [Fetch (loadRequest toLoad)]))
  \/ (exists document toLoad loaded,
        trace (handleLoad file)
        = [ SetIsLoading true; SetError None; Fetch (loadRequest toLoad);
            SetEcosystem loaded;
            SetEvents (or_else (field document "events") (VArr []));
            SetNarration (or_else (field document "narration")
                            (VStr "Save file loaded successfully!"));
            SetWarnings (VArr []);
            SetIsLoading false ]).
Proof.
  destruct (file_text file) as [t | err] eqn:Hfile.
  2: { left. exists [], err. split; [apply handleLoad_unreadable; assumption | left; reflexivity]. }
  destruct (JSON_parse t) as [document |] eqn:Hparse.
  2: { left. exists [], (ErrorInstance "Invalid JSON file").
       split; [apply (handleLoad_not_JSON _ _ file t); assumption | left; reflexivity]. }
  destruct (ecosystemToLoad document) as [toLoad | err] eqn:HtoLoad.
  2: { left. exists [], err.
       split; [apply (handleLoad_not_a_save _ _ file t document); assumption | left; reflexivity]. }
  destruct (outcome (loadEcosystem toLoad)) as [loaded | err] eqn:Hout.
  - right. exists document, toLoad, loaded.
    apply (handleLoad_installs _ _ file t document toLoad loaded); assumption.
  - left. exists [Fetch (loadRequest toLoad)], err. split.
    + apply (handleLoad_request_fails _ _ file t document toLoad err); assumption.
    + right. exists toLoad. reflexivity.
Qed.

(** X1. Whatever the file and the server, [handleLoad] sends at most one
    request and ends with [isLoading] false; and either it installs a
    state, clears the warnings and shows no error, or it shows an error
    that starts with Failed to load and leaves the ecosystem, events,
    narration and warnings as they were. *)
Theorem handleLoad_settles (st : AppState) (file : File) :
  let m := handleLoad file in
  isLoading (after m st) = false
  /\ (List.length (requests (trace m)) <= 1)%nat
  /\ ((exists loaded,
         In (SetEcosystem loaded) (trace m)
         /\ ecosystem (after m st) = loaded
         /\ warnings (after m st) = VArr []
         /\ error (after m st) = None)
      \/ (exists message,
            error (after m st) = Some ("Failed to load: " ++ message)
            /\ same_data (after m st) st
            /\ Forall (fun e => data_setter e = false) (trace m))).
Proof.
  intro m. subst m. unfold after.
  destruct (handleLoad_cases file)
    as [(sent & err & Htrace & Hsent) | (document & toLoad & loaded & Htrace)];
    rewrite Htrace.
  - assert (Hquiet : Forall (fun e => data_setter e = false) sent).
    { destruct Hsent as [-> | [toLoad ->]]; repeat constructor. }
    destruct (failed_load_state sent err st Hquiet) as (Hsame & Herr & Hnone).
    split.
    { unfold failed_load. rewrite !fold_left_app. reflexivity. }
    split.
    { rewrite requests_failed_load.
      destruct Hsent as [-> | [toLoad ->]]; simpl; lia. }
    right. exists (message_of err). repeat split; try apply Hsame; assumption.
  - split; [reflexivity |]. split; [simpl; lia |].
    left. exists loaded. split; [simpl; tauto |]. repeat split.
Qed.

(** X2. Loading a bare ecosystem state (a document that is the state
    itself), when the server accepts it, installs the server's answer
    and resets the rest: no events, the narration Save file loaded
    successfully!, no warnings, no error. *)
Theorem handleLoad_bare_state_resets_log
    (st : AppState) (S : EcosystemState) (response : Response) (loaded : value) :
  server (loadRequest (EcosystemState_object S)) = Normal response ->
  ok response = true ->
  json response = Normal loaded ->
  let m := handleLoad {| file_text := Normal (JSONText (EcosystemState_object S)) |} in
  requests (trace m) = [loadRequest (EcosystemState_object S)]
  /\ ecosystem (after m st) = loaded
  /\ events (after m st) = VArr []
  /\ narration (after m st) = VStr "Save file loaded successfully!"
  /\ warnings (after m st) = VArr []
  /\ error (after m st) = None.
Proof.
  intros Hserver Hok Hjson m. subst m. unfold after.
  assert (HtoLoad : ecosystemToLoad (EcosystemState_object S)
                    = Normal (EcosystemState_object S)) by reflexivity.
  assert (Hloaded : outcome (loadEcosystem (EcosystemState_object S)) = Normal loaded).
  { rewrite (loadEcosystem_succeeds _ _ _ response loaded Hserver Hok Hjson). reflexivity. }
  rewrite (handleLoad_installs VITE_API_URL server
             {| file_text := Normal (JSONText (EcosystemState_object S)) |}
             (JSONText (EcosystemState_object S)) (EcosystemState_object S)
             (EcosystemState_object S) loaded eq_refl eq_refl HtoLoad Hloaded).
  repeat split.
Qed.

Lemma serialized_truthy (v : value) : truthy (serialized v) = truthy v.
Proof. destruct v; reflexivity. Qed.

Lemma saved_document_fields (now : Date) (saved : AppState) (evs : list value) (n : string) :
  truthy (ecosystem saved) = true ->
  events saved = VArr evs ->
  narration saved = VStr n ->
  let document := serialized (saveData now saved) in
  nullish document = false
  /\ format_of document = SaveFormat
  /\ field document "ecosystem" = serialized (ecosystem saved)
  /\ field document "events" = serialized (VArr evs)
  /\ field document "narration" = VStr n.
Proof.
  intros Heco Hev Hn document. subst document.
  pose proof (serialized_truthy (ecosystem saved)) as Hser.
  unfold saveData, format_of. rewrite Hev, Hn.
  destruct (ecosystem saved) eqn:He; try discriminate Heco;
    cbn [serialized flat_map app] in *;
    cbn [field lookup String.eqb Ascii.eqb Bool.eqb nullish];
    cbn [truthy] in *; try rewrite Heco; repeat split.
Qed.

(** X3. Saving and then loading the saved file, when the server accepts
    the saved ecosystem, brings back the saved events, and the saved
    narration unless it was empty: an empty narration comes back as
    Save file loaded successfully!. The warnings are cleared. *)
Theorem save_then_load_restores_log
    (now : Date) (saved current : AppState) (evs : list value) (n : string)
    (response : Response) (loaded : value) :
  truthy (ecosystem saved) = true ->
  events saved = VArr evs ->
  narration saved = VStr n ->
  server (loadRequest (serialized (ecosystem saved))) = Normal response ->
  ok response = true ->
  json response = Normal loaded ->
  let blob := as_text (JSON_stringify (saveData now saved)) in
  let m := handleLoad {| file_text := Normal blob |} in
  ecosystem (after m current) = loaded
  /\ events (after m current) = serialized (VArr evs)
  /\ narration (after m current)
     = VStr (if String.eqb n EmptyString then "Save file loaded successfully!" else n)
  /\ warnings (after m current) = VArr []
  /\ error (after m current) = None.
Proof.
  intros Heco Hev Hn Hserver Hok Hjson blob m. subst m blob. unfold after.
  change (as_text (JSON_stringify (saveData now saved)))
    with (JSONText (serialized (saveData now saved))).
  destruct (saved_document_fields now saved evs n Heco Hev Hn)
    as (Hnull & Hformat & Hfe & Hfev & Hfn).
  assert (HtoLoad : ecosystemToLoad (serialized (saveData now saved))
                    = Normal (serialized (ecosystem saved))).
  { rewrite (ecosystemToLoad_format _ Hnull), Hformat, Hfe. reflexivity. }
  assert (Hloaded : outcome (loadEcosystem (serialized (ecosystem saved))) = Normal loaded).
  { rewrite (loadEcosystem_succeeds _ _ _ response loaded Hserver Hok Hjson). reflexivity. }
  rewrite (handleLoad_installs VITE_API_URL server
             {| file_text := Normal (JSONText (serialized (saveData now saved))) |}
             (JSONText (serialized (saveData now saved)))
             (serialized (saveData now saved))
             (serialized (ecosystem saved)) loaded eq_refl eq_refl HtoLoad Hloaded).
  rewrite Hfev, Hfn.
  cbn [fold_left App.apply ecosystem events narration warnings error].
  repeat split.
  unfold or_else. cbn [truthy]. destruct (String.eqb n EmptyString); reflexivity.
Qed.

End LoadCases.

(** ** Start-up, and what is on screen after a handler *)

Section ShellFacts.
Import JS Types Eff App Props AppShell.
Context {RT : Runtime}.
Variable VITE_API_URL : option string.
Variable server : Request -> completion Response.

#[local] Abbreviation handleLoad := (App.handleLoad VITE_API_URL server).
#[local] Abbreviation handleAdvanceTurn := (App.handleAdvanceTurn VITE_API_URL server).
#[local] Abbreviation initializeEcosystem :=
  (AppShell.initializeEcosystem VITE_API_URL server).
#[local] Abbreviation createEcosystem := (ApiRest.createEcosystem VITE_API_URL server).

Lemma createEcosystem_trace (gridSize : Q) :
  trace (createEcosystem (Some gridSize)) = [Fetch (ApiRest.createRequest VITE_API_URL gridSize)].
Proof.
  unfold ApiRest.createEcosystem, Api.fetch.
  destruct (server (ApiRest.createRequest VITE_API_URL gridSize)) as [response | e];
    run_action; [| reflexivity].
  destruct (ok response); run_action; [| reflexivity].
  destruct (json response); reflexivity.
Qed.

(** X4. [initializeEcosystem] asks once for a new ecosystem of grid size
    8 and ends with [isLoading] false. If the request succeeds, the
    answer becomes the ecosystem and the narration is the welcome text,
    with no error; events and warnings are not touched. If it fails,
    the ecosystem and the narration stay as they were too, and the
    error says that the backend could not be reached. *)
Theorem initializeEcosystem_outcomes (st : AppState) :
  let m := initializeEcosystem in
  requests (trace m) = [ApiRest.createRequest VITE_API_URL 8%Q]
  /\ isLoading (after m st) = false
  /\ events (after m st) = events st
  /\ warnings (after m st) = warnings st
  /\ match outcome (createEcosystem (Some 8%Q)) with
     | Normal state =>
         ecosystem (after m st) = state
         /\ narration (after m st) = VStr welcome
         /\ error (after m st) = None
     | Throw _ =>
         ecosystem (after m st) = ecosystem st
         /\ narration (after m st) = narration st
         /\ error (after m st)
            = Some "Failed to connect to backend. Make sure the server is running on localhost:8000"
     end.
Proof.
  intro m. subst m. unfold after, AppShell.initializeEcosystem.
  pose proof (createEcosystem_trace 8%Q) as Htrace.
  destruct (createEcosystem (Some 8%Q)) as [tr [state | err]];
    cbn [trace outcome fst snd] in *; subst tr; run_action; repeat split.
Qed.

(** X5. On start-up (no ecosystem yet), a failed request ends on the
    error screen with the message about the backend; a successful one
    whose answer is a usable state ends on the main view, with the
    welcome narration and no error bar; an answer that is falsy (such as
    [null]) ends on a blank page. *)
Theorem initializeEcosystem_screen (st : AppState) :
  truthy (ecosystem st) = false ->
  let m := initializeEcosystem in
  match outcome (createEcosystem (Some 8%Q)) with
  | Throw _ =>
      render (after m st)
      = ErrorScreen "Failed to connect to backend. Make sure the server is running on localhost:8000"
  | Normal state =>
      if truthy state
      then exists props,
             render (after m st) = MainView props
             /\ banner props = None
             /\ log_narration props = VStr welcome
             /\ panel_species props = field state "species"
             /\ control_isLoading props = false
      else render (after m st) = Blank
  end.
Proof.
  intros Heco m. subst m. unfold after, AppShell.initializeEcosystem.
  pose proof (createEcosystem_trace 8%Q) as Htrace.
  destruct (createEcosystem (Some 8%Q)) as [tr [state | err]];
    cbn [trace outcome fst snd] in *; subst tr; run_action.
  - unfold render. cbn [ecosystem isLoading error shown_error andb].
    destruct (truthy state) eqn:Hstate; cbn [negb andb].
    + eexists. split; [reflexivity |]. repeat split.
    + reflexivity.
  - unfold render. cbn [ecosystem isLoading error shown_error]. rewrite Heco.
    reflexivity.
Qed.

Lemma handleAdvanceTurn_traces (seen : AppState) (intervention : option InterventionRequest) :
  truthy (ecosystem seen) = true ->
  let request := Api.advanceRequest VITE_API_URL intervention in
  (exists result,
      nullish result = false
      /\ trace (handleAdvanceTurn seen intervention)
         = [ SetIsLoading true; SetError None; Fetch request;
             SetEcosystem (field result "new_state");
             SetEvents (field result "events");
             SetNarration (field result "narration");
             SetWarnings (field result "warnings");
             SetIsLoading false ])
  \/ (exists err,
        trace (handleAdvanceTurn seen intervention)
        = [ SetIsLoading true; SetError None; Fetch request;
            SetError (Some "Failed to advance simulation. Check the backend logs.");
            ConsoleError EmptyString err;
            SetIsLoading false ]).
Proof.
  intros Heco request. subst request.
  unfold App.handleAdvanceTurn. rewrite Heco. cbn [negb].
  unfold Api.advanceTurn, Api.fetch.
  destruct (server (Api.advanceRequest VITE_API_URL intervention)) as [response | e];
    run_action; [| right; eexists; reflexivity].
  destruct (ok response); run_action; [| right; eexists; reflexivity].
  destruct (json response) as [result | e]; run_action; [| right; eexists; reflexivity].
  destruct (nullish result) eqn:Hnull.
  - right. destruct result; try discriminate Hnull; run_action; eexists; reflexivity.
  - left. exists result. split; [assumption |].
    destruct result; try discriminate Hnull; reflexivity.
Qed.

(** X6. With an ecosystem on screen, a load that ends with an error
    leaves the main view in place: the same ecosystem, events, narration
    and warnings, the error shown in the bar, and the controls enabled
    again. *)
Theorem failed_load_keeps_main_view (st : AppState) (file : File) (message : string) :
  truthy (ecosystem st) = true ->
  error (after (handleLoad file) st) = Some message ->
  exists props,
    render (after (handleLoad file) st) = MainView props
    /\ banner props = Some message
    /\ panel_species props = field (ecosystem st) "species"
    /\ header_turn props = field (ecosystem st) "turn"
    /\ log_events props = events st
    /\ log_narration props = narration st
    /\ log_warnings props = warnings st
    /\ control_isLoading props = false.
Proof.
  intros Heco Herr. unfold after in *.
  destruct (handleLoad_cases VITE_API_URL server file)
    as [(sent & err & Htrace & Hsent) | (document & toLoad & loaded & Htrace)];
    rewrite Htrace in *.
  - assert (Hquiet : Forall (fun e => data_setter e = false) sent).
    { destruct Hsent as [-> | [toLoad ->]]; repeat constructor. }
    destruct (failed_load_state sent err st Hquiet) as ((H1 & H2 & H3 & H4) & Herr' & _).
    assert (Hloading : isLoading (fold_left App.apply (failed_load sent err) st) = false).
    { unfold failed_load. rewrite !fold_left_app. reflexivity. }
    rewrite Herr' in Herr. injection Herr as <-.
    unfold render. rewrite H1, H2, H3, H4, Herr', Hloading, Heco.
    cbn [negb andb shown_error append String.eqb].
    eexists. split; [reflexivity |]. repeat split.
  - discriminate Herr.
Qed.

(** X7. With an ecosystem on screen, an advance that ends with an error
    leaves the main view in place in the same way, with the advance
    failure shown in the bar. *)
Theorem failed_advance_keeps_main_view
    (st : AppState) (intervention : option InterventionRequest) (message : string) :
  truthy (ecosystem st) = true ->
  error (after (handleAdvanceTurn st intervention) st) = Some message ->
  message = "Failed to advance simulation. Check the backend logs."
  /\ exists props,
       render (after (handleAdvanceTurn st intervention) st) = MainView props
       /\ banner props = Some message
       /\ panel_species props = field (ecosystem st) "species"
       /\ log_events props = events st
       /\ log_narration props = narration st
       /\ log_warnings props = warnings st
       /\ control_isLoading props = false.
Proof.
  intros Heco Herr. unfold after in *.
  destruct (handleAdvanceTurn_traces st intervention Heco)
    as [(result & _ & Htrace) | (err & Htrace)]; rewrite Htrace in *.
  - discriminate Herr.
  - cbn [fold_left App.apply error] in Herr. injection Herr as <-.
    split; [reflexivity |].
    unfold render. cbn [fold_left App.apply ecosystem isLoading error]. rewrite Heco.
    eexists. split; [reflexivity |]. repeat split.
Qed.

(** X8. The result of an advance is not checked: when the server
    answers with a document that has no usable [new_state], the advance
    counts as a success, no error is set, and the page goes blank. *)
Theorem advance_without_new_state_blanks
    (st : AppState) (intervention : option InterventionRequest)
    (response : Response) (result : value) :
  truthy (ecosystem st) = true ->
  server (Api.advanceRequest VITE_API_URL intervention) = Normal response ->
  ok response = true ->
  json response = Normal result ->
  nullish result = false ->
  truthy (field result "new_state") = false ->
  error (after (handleAdvanceTurn st intervention) st) = None
  /\ render (after (handleAdvanceTurn st intervention) st) = Blank.
Proof.
  intros Heco Hserver Hok Hjson Hnull Hstate. unfold after.
  unfold App.handleAdvanceTurn. rewrite Heco. cbn [negb].
  unfold Api.advanceTurn, Api.fetch. rewrite Hserver. run_action.
  rewrite Hok. run_action. rewrite Hjson.
  destruct result; try discriminate Hnull; run_action;
    (split; [reflexivity |]);
    unfold render; cbn [ecosystem isLoading error shown_error];
    rewrite Hstate; reflexivity.
Qed.

(** X9. [handleSave] only reads: it calls no setter and sends no
    request, so the state of the app is what it was; it triggers one
    download when there is an ecosystem and none otherwise. *)
Theorem handleSave_only_downloads (now : Date) (st : AppState) :
  after (handleSave now st) st = st
  /\ requests (trace (handleSave now st)) = []
  /\ Forall (fun e => data_setter e = false) (trace (handleSave now st))
  /\ List.length (trace (handleSave now st))
     = (if truthy (ecosystem st) then 1 else 0)%nat.
Proof.
  unfold after.
  destruct (truthy (ecosystem st)) eqn:Heco.
  - rewrite (handleSave_downloads now st Heco). cbn [trace fst].
    repeat split. repeat constructor.
  - unfold handleSave. rewrite Heco. cbn [negb trace fst ret].
    repeat split. constructor.
Qed.

End ShellFacts.

(** ** The requests of api.ts *)

Section ApiFacts.
Import JS Types Eff Props.
Context {RT : Runtime}.
Variable VITE_API_URL : option string.
Variable server : Request -> completion Response.

(** X10. When the load request is answered with a response that is not
    ok, and the body is not JSON or is a document without a truthy
    [detail], [loadEcosystem] throws an [Error] whose message is Server
    error: followed by the status. *)
Theorem loadEcosystem_status_fallback (state : value) (response : Response) :
  server (Api.loadRequest VITE_API_URL state) = Normal response ->
  ok response = false ->
  (match json response with
   | Throw _ => True
   | Normal errorData =>
       nullish errorData = false /\ truthy (field errorData "detail") = false
   end) ->
  outcome (Api.loadEcosystem VITE_API_URL server state)
  = Throw (ErrorInstance ("Server error: " ++ Number_toString (inject_Z (status response)))).
Proof.
  intros Hserver Hok Hbody.
  unfold Api.loadEcosystem, Api.fetch. rewrite Hserver. run_action.
  rewrite Hok. run_action.
  destruct (json response) as [errorData | e]; run_action.
  - destruct Hbody as [Hnull Hdetail].
    destruct errorData; try discriminate Hnull; run_action;
      unfold or_else; rewrite Hdetail; reflexivity.
  - reflexivity.
Qed.

(** X11. [createEcosystem], [getEcosystem], [advanceTurn] and
    [chatAboutEcosystem] each send exactly one request, whatever the
    server does; and when the response is not ok each throws its own
    fixed message, whatever the body of the response says. *)
Theorem requests_fail_with_fixed_messages
    (gridSize : Q) (intervention : option InterventionRequest) (message : string) :
  let create := ApiRest.createEcosystem VITE_API_URL server (Some gridSize) in
  let get := ApiRest.getEcosystem VITE_API_URL server in
  let advance := Api.advanceTurn VITE_API_URL server intervention in
  let chat := ApiRest.chatAboutEcosystem VITE_API_URL server message in
  let not_ok (req : Request) : Prop :=
    exists response, server req = Normal response /\ ok response = false in
  (trace create = [Fetch (ApiRest.createRequest VITE_API_URL gridSize)]
   /\ trace get = [Fetch (ApiRest.getRequest VITE_API_URL)]
   /\ trace advance = [Fetch (Api.advanceRequest VITE_API_URL intervention)]
   /\ trace chat = [Fetch (ApiRest.chatRequest VITE_API_URL message)])
  /\ (not_ok (ApiRest.createRequest VITE_API_URL gridSize) ->
      outcome create = Throw (ErrorInstance "Failed to create ecosystem"))
  /\ (not_ok (ApiRest.getRequest VITE_API_URL) ->
      outcome get = Throw (ErrorInstance "Failed to get ecosystem"))
  /\ (not_ok (Api.advanceRequest VITE_API_URL intervention) ->
      outcome advance = Throw (ErrorInstance "Failed to advance turn"))
  /\ (not_ok (ApiRest.chatRequest VITE_API_URL message) ->
      outcome chat = Throw (ErrorInstance "Failed to chat")).
Proof.
  cbv zeta.
  unfold ApiRest.createEcosystem, ApiRest.getEcosystem, Api.advanceTurn,
    ApiRest.chatAboutEcosystem, Api.fetch.
  split; [repeat split |].
  - destruct (server (ApiRest.createRequest VITE_API_URL gridSize)) as [r | e]; run_action;
      [destruct (ok r); run_action; [destruct (json r) |] |]; reflexivity.
  - destruct (server (ApiRest.getRequest VITE_API_URL)) as [r | e]; run_action;
      [destruct (ok r); run_action; [destruct (json r) |] |]; reflexivity.
  - destruct (server (Api.advanceRequest VITE_API_URL intervention)) as [r | e]; run_action;
      [destruct (ok r); run_action; [destruct (json r) |] |]; reflexivity.
  - destruct (server (ApiRest.chatRequest VITE_API_URL message)) as [r | e]; run_action;
      [destruct (ok r); run_action;
       [destruct (json r) as [d | e]; run_action; [destruct d |] |] |]; reflexivity.
  - repeat split; intros (response & Hserver & Hok); rewrite Hserver; run_action;
      rewrite Hok; reflexivity.
Qed.

End ApiFacts.

(** ** The intervention panel *)

Section PanelFacts.
Import JS Types ControlPanel ControlPanelUI.
Context {RT : Runtime}.

Lemma handleAdvance_shape (selectedTile : option (Q * Q)) (st : PanelState) :
  exists intervention,
    handleAdvance selectedTile st
    = [OnAdvanceTurn intervention; SetInterventionType EmptyString;
       SetSelectedOption EmptyString].
Proof.
  unfold handleAdvance.
  destruct (String.eqb (interventionType st) EmptyString
            || String.eqb (selectedOption st) EmptyString).
  - eexists. reflexivity.
  - destruct (String.eqb (interventionType st) "introduce_species");
      [| destruct (String.eqb (interventionType st) "remove_species");
         [| destruct (String.eqb (interventionType st) "natural_disaster");
            [| destruct (String.eqb (interventionType st) "change_climate")]]];
      eexists; reflexivity.
Qed.

(** X12. [handleAdvance] calls [onAdvanceTurn] exactly once and clears
    both selections, so an intervention is sent once: pressing the
    button again right away advances without an intervention. *)
Theorem handleAdvance_sends_once (selectedTile : option (Q * Q)) (st : PanelState) :
  List.length (interventions (handleAdvance selectedTile st)) = 1%nat
  /\ after (handleAdvance selectedTile st) st
     = {| interventionType := EmptyString; selectedOption := EmptyString |}
  /\ interventions
       (handleAdvance selectedTile (after (handleAdvance selectedTile st) st))
     = [None].
Proof.
  destruct (handleAdvance_shape selectedTile st) as [intervention Hshape].
  rewrite Hshape. repeat split.
Qed.

(** X13. Without a selected tile, which is how [App] renders the panel,
    the details of every intervention that is sent are empty. *)
Theorem details_empty_without_tile (st : PanelState) (intervention : InterventionRequest) :
  In (Some intervention) (interventions (handleAdvance None st)) ->
  details intervention = Some EmptyString.
Proof.
  unfold handleAdvance.
  destruct (String.eqb (interventionType st) EmptyString
            || String.eqb (selectedOption st) EmptyString).
  - simpl. intros [H | []]. discriminate H.
  - destruct (String.eqb (interventionType st) "introduce_species");
      [| destruct (String.eqb (interventionType st) "remove_species");
         [| destruct (String.eqb (interventionType st) "natural_disaster");
            [| destruct (String.eqb (interventionType st) "change_climate")]]];
      simpl; (intros [H | []]); injection H as <-; reflexivity.
Qed.

Lemma append_not_empty_l (a b : string) : a <> EmptyString -> (a ++ b)%string <> EmptyString.
Proof. destruct a; [congruence | discriminate]. Qed.

(** X14. When the selected option is one of the secondary options of
    the selected type, as the second select only offers those, the
    button sends an intervention, and its action is a sentence that is
    not empty: the empty action of the fall-through case of the switch
    cannot be reached from the selects. *)
Theorem offered_option_gives_action (selectedTile : option (Q * Q)) (st : PanelState) :
  In (selectedOption st) (getSecondaryOptions st) ->
  exists intervention,
    interventions (handleAdvance selectedTile st) = [Some intervention]
    /\ action intervention <> EmptyString
    /\ In (interventionType st) (map fst INTERVENTION_TYPES).
Proof.
  unfold getSecondaryOptions, handleAdvance.
  destruct (String.eqb (interventionType st) "introduce_species") eqn:H1;
    [| destruct (String.eqb (interventionType st) "remove_species") eqn:H2;
       [| destruct (String.eqb (interventionType st) "natural_disaster") eqn:H3;
          [| destruct (String.eqb (interventionType st) "change_climate") eqn:H4]]];
    intro Hin; try contradiction;
    match goal with
    | H : String.eqb (interventionType st) _ = true |- _ =>
        apply String.eqb_eq in H; rewrite H in *
    end;
    cbn [String.eqb Ascii.eqb Bool.eqb orb];
    (assert (Hopt : String.eqb (selectedOption st) EmptyString = false)
      by (simpl in Hin; repeat (destruct Hin as [<- | Hin]; [reflexivity |]); contradiction));
    rewrite Hopt; cbn [orb interventions flat_map app];
    eexists; (split; [reflexivity |]); cbn [action]; (split; [| simpl; tauto]).
  - discriminate.
  - discriminate.
  - discriminate.
  - apply append_not_empty_l.
    destruct (selectedOption st); [discriminate Hopt | discriminate].
Qed.

End PanelFacts.

(** ** Health and the sky *)

Section SkyFacts.
Import Types EcosystemViewport Props.
Local Open Scope Q_scope.

(** The three terms of the health of a list that is not empty. *)
Lemma ecosystemHealth_terms (s : Species) (l : list Species) :
  let species := s :: l in
  exists plantHealth diversityHealth balanceHealth : Q,
    ecosystemHealth (Some species)
    = plantHealth * 0.4 + diversityHealth * 0.4 + balanceHealth * 0.2
    /\ plantHealth
       = Qmin 1.0 (inject_Z (totalPopulation (filter (is_diet producer) species)) / 2000)
    /\ diversityHealth
       = inject_Z (Z.of_nat (List.length (filter (fun x => (population x >? 0)%Z) species)))
         / inject_Z (Z.of_nat (List.length species))
    /\ balanceHealth
       = (if ((totalPopulation (filter (is_diet herbivore) species) >? 0)%Z
              && (totalPopulation (filter (is_diet carnivore) species) >? 0)%Z)%bool
          then 1.0 else 0.5).
Proof.
  intro species. do 3 eexists. repeat split.
Qed.

Lemma ecosystemHealth_at_least_tenth (species : option (list Species)) :
  populations_nonnegative species -> 0.1 <= ecosystemHealth species.
Proof.
  intro Hpop.
  destruct species as [[| s l] |]; cbn [ecosystemHealth]; try lra.
  simpl in Hpop.
  set (sp := s :: l) in *.
  pose proof (plantHealth_lower _
                (totalPopulation_nonneg _
                   (Forall_filter_keeps _ (is_diet producer) _ Hpop))) as HP.
  pose proof (ratio_in_unit
                (List.length (filter (fun s0 => (population s0 >? 0)%Z) sp))
                (List.length sp) (filter_length_le _ _)) as HD.
  assert (Hlen : (0 < List.length sp)%nat) by (simpl; lia).
  specialize (HD Hlen).
  destruct ((totalPopulation (filter (is_diet herbivore) sp) >? 0)%Z
            && (totalPopulation (filter (is_diet carnivore) sp) >? 0)%Z)%bool;
    lra.
Qed.

Lemma totalPopulation_extinct (l : list Species) :
  Forall (fun x => population x = 0%Z) l -> totalPopulation l = 0%Z.
Proof.
  induction 1 as [| x l Hx _ IH].
  - reflexivity.
  - unfold totalPopulation. simpl. rewrite totalPopulation_from, IH, Hx. reflexivity.
Qed.

Lemma none_alive (l : list Species) :
  Forall (fun x => population x = 0%Z) l ->
  filter (fun x => (population x >? 0)%Z) l = [].
Proof.
  induction 1 as [| x l Hx _ IH]; simpl.
  - reflexivity.
  - rewrite Hx, IH. reflexivity.
Qed.

(** X15. The health of a species list with no negative population is
    never below 0.1: the balance term alone contributes that much. So
    the sky of health 0 is never drawn. *)
Theorem ecosystemHealth_never_below_tenth (species : option (list Species)) :
  populations_nonnegative species ->
  0.1 <= ecosystemHealth species <= 1.
Proof.
  intro Hpop. split.
  - apply ecosystemHealth_at_least_tenth. assumption.
  - apply ecosystemHealth_at_most_one.
Qed.

(** X16. When every species of a list that is not empty is extinct, the
    health is exactly 0.1. *)
Theorem ecosystemHealth_all_extinct (s : Species) (l : list Species) :
  Forall (fun x => population x = 0%Z) (s :: l) ->
  ecosystemHealth (Some (s :: l)) == 0.1.
Proof.
  intro Hzero.
  destruct (ecosystemHealth_terms s l) as (P & D & B & -> & -> & -> & ->).
  rewrite !(totalPopulation_extinct _ (Forall_filter_keeps _ _ _ Hzero)).
  rewrite (none_alive _ Hzero).
  cbn [List.length Z.of_nat Z.gtb Z.compare andb].
  change (Qmin 1.0 (inject_Z 0 / 2000)) with (inject_Z 0 / 2000).
  unfold Qdiv. rewrite !Qmult_0_l. reflexivity.
Qed.

Lemma all_alive_length (l : list Species) :
  List.length (filter (fun x => (population x >? 0)%Z) l) = List.length l
  <-> Forall (fun x => (0 < population x)%Z) l.
Proof.
  split.
  - intro H. apply filter_length_forallb in H.
    apply Forall_forall. intros x Hx.
    rewrite forallb_forall in H. specialize (H x Hx). lia.
  - induction 1 as [| x l Hx _ IH]; simpl.
    + reflexivity.
    + replace (population x >? 0)%Z with true by (symmetry; apply Z.gtb_lt; lia).
      simpl. rewrite IH. reflexivity.
Qed.

(** X17. The health of a list that is not empty is 1 exactly when the
    producers number at least 2000 in total, every species is alive,
    and both the herbivores and the carnivores have a positive total
    population. *)
Theorem ecosystemHealth_full_iff (s : Species) (l : list Species) :
  ecosystemHealth (Some (s :: l)) == 1
  <-> ((2000 <= totalPopulation (filter (is_diet producer) (s :: l)))%Z
       /\ Forall (fun x => (0 < population x)%Z) (s :: l)
       /\ (0 < totalPopulation (filter (is_diet herbivore) (s :: l)))%Z
       /\ (0 < totalPopulation (filter (is_diet carnivore) (s :: l)))%Z).
Proof.
  destruct (ecosystemHealth_terms s l) as (P & D & B & -> & HP & HD & HB).
  set (sp := s :: l) in *.
  assert (Hlen : (0 < List.length sp)%nat) by (simpl; lia).
  assert (Hlen' : 0 < inject_Z (Z.of_nat (List.length sp))).
  { replace 0 with (inject_Z 0) by reflexivity. rewrite <- Zlt_Qlt. lia. }
  pose proof (plantHealth_upper (totalPopulation (filter (is_diet producer) sp))) as HPle.
  pose proof (ratio_in_unit
                (List.length (filter (fun x => (population x >? 0)%Z) sp))
                (List.length sp) (filter_length_le _ _) Hlen) as HDle.
  rewrite <- HP in HPle. rewrite <- HD in HDle.
  assert (HBle : B <= 1) by (rewrite HB; destruct (_ && _)%bool; lra).
  split.
  - intro Hone.
    assert (HP1 : P == 1) by lra.
    assert (HD1 : D == 1) by lra.
    assert (HB1 : B == 1) by lra.
    split; [| split].
    + rewrite HP in HP1.
      pose proof (Q.le_min_r 1.0
                    (inject_Z (totalPopulation (filter (is_diet producer) sp)) / 2000))
        as Hmin.
      rewrite HP1 in Hmin. clear HP1. rename Hmin into HP1.
      apply (Qmult_le_compat_r _ _ 2000) in HP1; [| lra].
      unfold Qdiv in HP1. rewrite <- Qmult_assoc in HP1.
      rewrite (Qmult_comm (/ 2000)) in HP1. rewrite Qmult_inv_r in HP1 by lra.
      rewrite Qmult_1_r in HP1.
      change (1 * 2000) with (inject_Z 2000) in HP1.
      rewrite <- Zle_Qle in HP1. exact HP1.
    + apply all_alive_length.
      rewrite HD in HD1.
      assert (Hsame : inject_Z (Z.of_nat (List.length
                                   (filter (fun x => (population x >? 0)%Z) sp)))
                      == inject_Z (Z.of_nat (List.length sp))).
      { rewrite <- (Qmult_div_r
                      (inject_Z (Z.of_nat (List.length
                                   (filter (fun x => (population x >? 0)%Z) sp))))
                      (inject_Z (Z.of_nat (List.length sp)))) by lra.
        rewrite HD1. lra. }
      apply Nat2Z.inj. apply inject_Z_injective. exact Hsame.
    + rewrite HB in HB1.
      destruct ((totalPopulation (filter (is_diet herbivore) sp) >? 0)%Z) eqn:Hh;
        destruct ((totalPopulation (filter (is_diet carnivore) sp) >? 0)%Z) eqn:Hc;
        cbn [andb] in HB1; try (exfalso; lra).
      apply Z.gtb_lt in Hh. apply Z.gtb_lt in Hc. split; assumption.
  - intros (Hplants & Halive & Hh & Hc).
    assert (HP1 : P == 1).
    { rewrite HP. rewrite Q.min_l; [reflexivity |].
      apply Qle_shift_div_l; [lra |].
      apply Qle_trans with (inject_Z 2000); [unfold Qle; simpl; lia |].
      rewrite <- Zle_Qle. exact Hplants. }
    assert (HD1 : D == 1).
    { rewrite HD. apply all_alive_length in Halive. rewrite Halive.
      apply Qmult_inv_r. lra. }
    assert (HB1 : B == 1).
    { rewrite HB.
      replace (totalPopulation (filter (is_diet herbivore) sp) >? 0)%Z with true
        by (symmetry; apply Z.gtb_lt; lia).
      replace (totalPopulation (filter (is_diet carnivore) sp) >? 0)%Z with true
        by (symmetry; apply Z.gtb_lt; lia).
      reflexivity. }
    rewrite HP1, HD1, HB1. reflexivity.
Qed.

(** X18. [Scene] follows the health. Of two health values the higher
    one never gives a lower sun, dimmer lights or a hazier sky
    (turbidity, rayleigh, mie coefficient); the sun keeps its place
    along the other two axes. For a species list with no negative
    population the scene is therefore never worse than at health 0.1
    and never better than at health 1. *)
Theorem scene_follows_health (species : option (list Species)) (worse better : Q) :
  worse <= better ->
  populations_nonnegative species ->
  Scene.no_worse worse better
  /\ fst (fst (Scene.sunPosition worse)) = fst (fst (Scene.sunPosition better))
  /\ snd (Scene.sunPosition worse) = snd (Scene.sunPosition better)
  /\ Scene.no_worse 0.1 (ecosystemHealth species)
  /\ Scene.no_worse (ecosystemHealth species) 1.
Proof.
  intros Horder Hpop.
  pose proof (ecosystemHealth_at_least_tenth species Hpop) as Hlo.
  pose proof (ecosystemHealth_at_most_one species) as Hhi.
  set (health := ecosystemHealth species) in *. clearbody health.
  assert (Hmono : forall a b, a <= b -> Scene.no_worse a b).
  { intros a b Hab.
    unfold Scene.no_worse, Scene.sunPosition, Scene.turbidity, Scene.rayleigh,
      Scene.ambientIntensity, Scene.pointLightIntensity, Scene.mieCoefficient.
    cbn [fst snd]. repeat split; lra. }
  split; [apply Hmono; assumption |].
  split; [reflexivity |]. split; [reflexivity |].
  split; apply Hmono; assumption.
Qed.

End SkyFacts.

(** ** Elevation samples and marker positions *)

Section ElevationFacts.
Import JS Types SpeciesMarkers Props Terms.
Local Open Scope Q_scope.

Lemma clamped_unit (u : Q) : 0 <= Qmax 0 (Qmin 1 u) <= 1.
Proof.
  split.
  - apply Q.le_max_l.
  - apply Q.max_lub; [lra | apply Q.le_min_l].
Qed.

Lemma pixel_in_row (c : Q) (n : Z) :
  0 <= c <= 1 -> (1 <= n)%Z -> (0 <= Qfloor (c * inject_Z (n - 1)) <= n - 1)%Z.
Proof.
  intros [Hc0 Hc1] Hn.
  assert (Hn' : 0 <= inject_Z (n - 1)).
  { replace 0 with (inject_Z 0) by reflexivity. rewrite <- Zle_Qle. lia. }
  split.
  - rewrite <- (Qfloor_Z 0). apply Qfloor_resp_le.
    change (inject_Z 0) with 0. apply Qmult_le_0_compat; assumption.
  - rewrite <- (Qfloor_Z (n - 1)) at 2. apply Qfloor_resp_le.
    rewrite <- (Qmult_1_l (inject_Z (n - 1))) at 2.
    apply Qmult_le_compat_r; assumption.
Qed.

(** The red channel read by [getElevationAt] is inside the array and
    is a byte, so the elevation is a number of the unit interval. *)
Lemma getElevationAt_red_channel (data : list Z) (imageSize : ImageSize) (u v : Q) :
  image_consistent data imageSize ->
  exists e, getElevationAt (Some data) imageSize u v = Some e /\ 0 <= e <= 1.
Proof.
  intros (Hw & Hh & Hlen & Hbytes).
  unfold getElevationAt.
  replace (width imageSize =? 0)%Z with false by (symmetry; apply Z.eqb_neq; lia).
  pose proof (pixel_in_row _ _ (clamped_unit u) Hw) as Hpx.
  pose proof (pixel_in_row _ _ (clamped_unit v) Hh) as Hpy.
  set (px := Qfloor (Qmax 0 (Qmin 1 u) * inject_Z (width imageSize - 1))) in *.
  set (py := Qfloor (Qmax 0 (Qmin 1 v) * inject_Z (height imageSize - 1))) in *.
  assert (Hidx : (0 <= (py * width imageSize + px) * 4
                  < Z.of_nat (List.length data))%Z) by nia.
  replace ((py * width imageSize + px) * 4 <? 0)%Z with false
    by (symmetry; apply Z.ltb_ge; lia).
  destruct (nth_error data (Z.to_nat ((py * width imageSize + px) * 4))) as [red |] eqn:Hnth.
  - exists (inject_Z red / 255). split; [reflexivity |].
    apply nth_error_In in Hnth.
    rewrite Forall_forall in Hbytes. specialize (Hbytes red Hnth).
    assert (H0 : 0 <= inject_Z red).
    { replace 0 with (inject_Z 0) by reflexivity. rewrite <- Zle_Qle. lia. }
    assert (H1 : inject_Z red <= 255).
    { replace 255 with (inject_Z 255) by reflexivity. rewrite <- Zle_Qle. lia. }
    split.
    + apply Qle_shift_div_l; lra.
    + apply Qle_shift_div_r; lra.
  - exfalso. apply nth_error_None in Hnth. lia.
Qed.

(** X19. For the pixels of an image (four byte channels per pixel, at
    least one pixel each way), [getElevationAt] reads inside the array
    for every u and v, also outside 0..1, and returns a number between
    0 and 1, never NaN. *)
Theorem getElevationAt_in_range (data : list Z) (imageSize : ImageSize) (u v : Q) :
  image_consistent data imageSize ->
  exists e, getElevationAt (Some data) imageSize u v = Some e /\ 0 <= e <= 1.
Proof.
  intros Himage. exact (getElevationAt_red_channel data imageSize u v Himage).
Qed.

End ElevationFacts.

(** ** Where and how many markers *)

Section PlacementFacts.
Import JS Types SpeciesMarkers Props Terms.
Local Open Scope Q_scope.
Context {RT : Runtime}.
Variable terrainSize : Q.
Variable terrainPosition : Q * Q * Q.
Variable elevationData : option (list Z).
Variable imageSize : ImageSize.
Variable random : nat -> Q.

#[local] Abbreviation place :=
  (SpeciesMarkers.place terrainSize terrainPosition elevationData imageSize random).
#[local] Abbreviation placeSpecies :=
  (SpeciesMarkers.placeSpecies terrainSize terrainPosition elevationData imageSize random).
#[local] Abbreviation markers :=
  (SpeciesMarkers.markers terrainSize terrainPosition elevationData imageSize random).
#[local] Abbreviation sample k :=
  (getElevationAt elevationData imageSize (random k) (random (S k))).

(** One round of the loop, as an equation. *)
Lemma place_step (n : nat) (s : Species) (placed : Z) (calls : nat) (result : list Marker) :
  place (S n) s placed calls result
  = if (placed <? dotCount s)%Z then
      if below_threshold (sample calls)
      then place n s placed (S (S calls)) result
      else place n s (placed + 1)%Z (S (S calls))
             (result ++ [marker_at terrainSize terrainPosition s
                           (random calls) (random (S calls)) (sample calls)])%list
    else (calls, result).
Proof. reflexivity. Qed.

(** Whatever holds of every marker the loop can push holds of all the
    markers. *)
Lemma place_Forall (P : Marker -> Prop) :
  (forall s calls,
      below_threshold (sample calls) = false ->
      P (marker_at terrainSize terrainPosition s
           (random calls) (random (S calls)) (sample calls))) ->
  forall n s placed calls result,
    Forall P result -> Forall P (snd (place n s placed calls result)).
Proof.
  intros Hpush n s. induction n as [| n IH]; intros placed calls result Hresult.
  - exact Hresult.
  - rewrite place_step.
    destruct (placed <? dotCount s)%Z; [| exact Hresult].
    destruct (below_threshold (sample calls)) eqn:Hbelow.
    + apply IH. exact Hresult.
    + apply IH. apply Forall_app. split; [exact Hresult |].
      constructor; [apply Hpush; exact Hbelow | constructor].
Qed.

Lemma markers_Forall (P : Marker -> Prop) :
  (forall s calls,
      below_threshold (sample calls) = false ->
      P (marker_at terrainSize terrainPosition s
           (random calls) (random (S calls)) (sample calls))) ->
  forall species, Forall P (markers species).
Proof.
  intros Hpush species.
  assert (Hfold : forall l acc, Forall P (snd acc) ->
                    Forall P (snd (fold_left placeSpecies l acc))).
  { induction l as [| s l IH]; intros acc Hacc; simpl.
    - exact Hacc.
    - apply IH. unfold SpeciesMarkers.placeSpecies.
      apply place_Forall; assumption. }
  unfold SpeciesMarkers.markers.
  destruct elevationData as [data |]; [| constructor].
  destruct (width imageSize =? 0)%Z; [constructor |].
  apply Hfold. constructor.
Qed.

(** X20. With a terrain of non-negative size, random numbers in the
    half-open interval from 0 to 1, and the pixels of an image, every
    marker lies on the terrain square around the terrain position, and
    its height is at least 0.25 and at most 1.1 above the terrain
    base: no marker is placed where the elevation is under the clip
    threshold. *)
Theorem markers_on_terrain (data : list Z) (species : list Species) :
  elevationData = Some data ->
  image_consistent data imageSize ->
  0 <= terrainSize ->
  (forall k, 0 <= random k < 1) ->
  Forall (on_terrain terrainSize terrainPosition) (markers species).
Proof.
  intros Hdata Himage Hsize Hrandom.
  apply markers_Forall. intros s calls Hbelow.
  destruct (getElevationAt_red_channel data imageSize (random calls) (random (S calls)) Himage)
    as (e & He & He01).
  rewrite Hdata in *. rewrite He in *.
  unfold on_terrain, marker_at. cbn [position].
  destruct terrainPosition as [[tx ty] tz]. cbn [fst snd].
  pose proof (Hrandom calls) as Hu. pose proof (Hrandom (S calls)) as Hv.
  unfold below_threshold in Hbelow.
  apply negb_false_iff in Hbelow. apply Qle_bool_iff in Hbelow.
  unfold clipThreshold in Hbelow.
  assert (Hhalf : terrainSize / 2 == terrainSize * 0.5) by field.
  rewrite Hhalf.
  split; [| split].
  - split; nra.
  - split; nra.
  - eexists. split; [reflexivity |]. lra.
Qed.

Lemma place_draws (n : nat) (s : Species) :
  forall placed calls result,
    (calls <= fst (place n s placed calls result) <= calls + 2 * n)%nat.
Proof.
  induction n as [| n IH]; intros placed calls result.
  - simpl. lia.
  - rewrite place_step.
    destruct (placed <? dotCount s)%Z; [| simpl; lia].
    destruct (below_threshold (sample calls)).
    + specialize (IH placed (S (S calls)) result). lia.
    + match goal with
      | |- context [SpeciesMarkers.place _ _ _ _ _ n s ?p ?c ?r] =>
          specialize (IH p c r)
      end. lia.
Qed.

(** X21. The loops stop: placing the markers of a species list calls
    [Math.random] at most 2000 times per species with a positive
    population (two calls for each of at most 20 attempts per dot, at
    most 50 dots). *)
Theorem markers_draws_bounded (species : list Species) :
  (fst (fold_left placeSpecies (activeSpecies species) (O, []))
   <= 2000 * List.length (activeSpecies species))%nat.
Proof.
  assert (Hfold : forall l acc,
             (fst (fold_left placeSpecies l acc) <= fst acc + 2000 * List.length l)%nat).
  { induction l as [| s l IH]; intro acc; cbn [fold_left List.length].
    - lia.
    - specialize (IH (placeSpecies acc s)).
      assert (Hstep : (fst (placeSpecies acc s) <= fst acc + 2000)%nat).
      { unfold SpeciesMarkers.placeSpecies.
        pose proof (place_draws (Z.to_nat (dotCount s * 20)) s 0%Z (fst acc) (snd acc)) as Hd.
        pose proof (dotCount_range s) as Hrange.
        lia. }
      lia. }
  apply (Hfold (activeSpecies species) (O, [])).
Qed.

Lemma place_all_land (n : nat) (s : Species) :
  (forall k, below_threshold (sample k) = false) ->
  forall placed calls result,
    (placed <= dotCount s)%Z ->
    Z.of_nat (List.length (snd (place n s placed calls result)))
    = (Z.of_nat (List.length result) + Z.min (Z.of_nat n) (dotCount s - placed))%Z.
Proof.
  intro Hland. induction n as [| n IH]; intros placed calls result Hle.
  - simpl. lia.
  - rewrite place_step. rewrite Hland.
    destruct (placed <? dotCount s)%Z eqn:Hlt.
    + apply Z.ltb_lt in Hlt.
      rewrite IH by lia. rewrite length_app. simpl. lia.
    + apply Z.ltb_ge in Hlt. simpl. lia.
Qed.

Lemma place_all_water (n : nat) (s : Species) :
  (forall k, below_threshold (sample k) = true) ->
  forall placed calls result, snd (place n s placed calls result) = result.
Proof.
  intro Hwater. induction n as [| n IH]; intros placed calls result.
  - reflexivity.
  - rewrite place_step. rewrite Hwater.
    destruct (placed <? dotCount s)%Z; [apply IH | reflexivity].
Qed.

(** X22. When every sample falls on land, each species with a positive
    population gets exactly its [dotCount] markers: the number of
    markers is the sum of the dot counts. *)
Theorem markers_all_land (data : list Z) (species : list Species) :
  elevationData = Some data ->
  width imageSize <> 0%Z ->
  (forall k, below_threshold (sample k) = false) ->
  Z.of_nat (List.length (markers species)) = dotTotal (activeSpecies species).
Proof.
  intros Hdata Hwidth Hland.
  unfold SpeciesMarkers.markers. rewrite Hdata.
  replace (width imageSize =? 0)%Z with false by (symmetry; apply Z.eqb_neq; assumption).
  rewrite <- Hdata.
  assert (Hfold : forall l acc,
             Z.of_nat (List.length (snd (fold_left placeSpecies l acc)))
             = (Z.of_nat (List.length (snd acc)) + dotTotal l)%Z).
  { induction l as [| s l IH]; intro acc; simpl.
    - lia.
    - rewrite IH. unfold SpeciesMarkers.placeSpecies.
      rewrite (place_all_land _ s Hland) by (pose proof (dotCount_range s); lia).
      pose proof (dotCount_range s). lia. }
  rewrite Hfold. simpl. lia.
Qed.

(** X23. When every sample falls under the clip threshold, no marker is
    placed at all. *)
Theorem markers_all_water (species : list Species) :
  (forall k, below_threshold (sample k) = true) ->
  markers species = [].
Proof.
  intro Hwater.
  assert (Hfold : forall l acc, snd (fold_left placeSpecies l acc) = snd acc).
  { induction l as [| s l IH]; intro acc; simpl.
    - reflexivity.
    - rewrite IH. unfold SpeciesMarkers.placeSpecies.
      apply place_all_water. assumption. }
  unfold SpeciesMarkers.markers.
  destruct elevationData as [data |]; [| reflexivity].
  destruct (width imageSize =? 0)%Z; [reflexivity |].
  apply Hfold.
Qed.

(** X24. Every diet has a colour of its own: two species get the same
    marker colour only if they have the same diet, and the white of the
    fallback is never used. *)
Theorem marker_colors_distinct (s1 s2 : Species) :
  marker_color s1 <> "#FFFFFF"
  /\ (marker_color s1 = marker_color s2 <-> diet s1 = diet s2).
Proof.
  unfold marker_color.
  split.
  - destruct (diet s1); discriminate.
  - split.
    + destruct (diet s1), (diet s2); simpl; intro H; try reflexivity; discriminate H.
    + intros ->. reflexivity.
Qed.

End PlacementFacts.

(** ** The order of the species list *)

Section OrderFacts.
Import JS Types SpeciesPanel.

Lemma insert_keeps_classes (k : Z) (a : Species) (l : list Species) :
  filter (fun s => dietOrder (diet s) =? k) (insert compareDiet a l)
  = filter (fun s => dietOrder (diet s) =? k) (a :: l).
Proof.
  induction l as [| b l IH].
  - reflexivity.
  - cbn [insert].
    destruct (compareDiet a b <=? 0) eqn:Hab; [reflexivity |].
    apply Z.leb_gt in Hab. unfold compareDiet in Hab.
    cbn [filter] in *. rewrite IH.
    destruct (dietOrder (diet a) =? k) eqn:Ha;
      destruct (dietOrder (diet b) =? k) eqn:Hb; try reflexivity.
    apply Z.eqb_eq in Ha. apply Z.eqb_eq in Hb. lia.
Qed.

(** X25. The species are listed producers first, then herbivores, then
    omnivores, then carnivores, and within one diet in the order in
    which they come in the state. *)
Theorem sortedSpecies_by_diet_stable (species : list Species) :
  StronglySorted (fun s1 s2 => dietOrder (diet s1) <= dietOrder (diet s2))
    (sortedSpecies species)
  /\ forall k, filter (fun s => dietOrder (diet s) =? k) (sortedSpecies species)
               = filter (fun s => dietOrder (diet s) =? k) species.
Proof.
  split.
  - pose proof (sortedSpecies_sorted species) as Hsorted.
    induction Hsorted as [| a l _ IH Hall]; constructor.
    + exact IH.
    + eapply Forall_impl; [| exact Hall].
      unfold compareDiet. intros b Hb. lia.
  - intro k. unfold sortedSpecies, sort.
    induction species as [| a l IH].
    + reflexivity.
    + cbn [fold_right]. rewrite insert_keeps_classes.
      cbn [filter]. rewrite IH. reflexivity.
Qed.

End OrderFacts.

(** ** The event log *)

Section EventLogFacts.
Import JS EventLog.

(** X26. The event log is never blank. The hint to advance the
    simulation is shown exactly when there are neither events nor a
    narration, whether or not there are warnings; the warnings are shown
    exactly when there are some. *)
Theorem EventLog_never_blank
    (events : list SimulationEvent) (narration : string) (warnings : list string) :
  EventLog events narration warnings <> []
  /\ (In (EmptyState "Advance the simulation to see what happens...")
        (EventLog events narration warnings)
      <-> events = [] /\ narration = EmptyString)
  /\ ((exists rows, In (WarningsBlock rows) (EventLog events narration warnings))
      <-> warnings <> []).
Proof.
  unfold EventLog.
  split; [| split].
  - destruct (String.eqb narration EmptyString); cbn [negb app]; [| discriminate].
    destruct warnings as [| w ws]; [| discriminate].
    destruct events as [| ev evs]; discriminate.
  - rewrite !in_app_iff. split.
    + intros [H | [H | [H | H]]].
      * destruct (negb (String.eqb narration EmptyString)); simpl in H;
          intuition discriminate.
      * destruct (0 <? Z.of_nat (List.length warnings)); simpl in H;
          intuition discriminate.
      * destruct (0 <? Z.of_nat (List.length events)); simpl in H;
          intuition discriminate.
      * destruct ((Z.of_nat (List.length events) =? 0)
                  && String.eqb narration EmptyString) eqn:Hc;
          [| contradiction].
        apply andb_prop in Hc. destruct Hc as [Hl Hn].
        apply Z.eqb_eq in Hl. apply String.eqb_eq in Hn.
        split; [| assumption].
        destruct events; [reflexivity | simpl in Hl; lia].
    + intros [-> ->]. right. right. right. left. reflexivity.
  - split.
    + intros [rows Hin]. rewrite !in_app_iff in Hin.
      destruct Hin as [H | [H | [H | H]]].
      * destruct (negb (String.eqb narration EmptyString)); simpl in H;
          intuition discriminate.
      * destruct warnings; [simpl in H; contradiction | discriminate].
      * destruct (0 <? Z.of_nat (List.length events)); simpl in H;
          intuition discriminate.
      * destruct ((Z.of_nat (List.length events) =? 0)
                  && String.eqb narration EmptyString); simpl in H;
          intuition discriminate.
    + intro Hw. destruct warnings as [| w ws]; [congruence |].
      eexists. rewrite !in_app_iff. right. left.
      replace (0 <? Z.of_nat (List.length (w :: ws))) with true
        by (symmetry; apply Z.ltb_lt; simpl; lia).
      left. reflexivity.
Qed.

(** X27. When there are events, the log has one row per event, in
    order, with the description of the event; a row has a line of
    affected species exactly when the event has any. *)
Theorem EventLog_rows (ev : SimulationEvent) (evs : list SimulationEvent)
    (narration : string) (warnings : list string) :
  exists before rows,
    EventLog (ev :: evs) narration warnings = (before ++ [EventsBlock rows])%list
    /\ map rowDescription rows = map description (ev :: evs)
    /\ Forall2 (fun event row =>
                  (affectedLine row = None <-> affected_species event = [])
                  /\ (forall line, affectedLine row = Some line ->
                        line = ("Affected: "
                                ++ String.concat ", " (affected_species event))%string))
               (ev :: evs) rows.
Proof.
  unfold EventLog.
  cbn [List.length Z.of_nat Z.ltb Z.eqb Z.compare andb].
  replace (0 <? Z.pos (Pos.of_succ_nat (List.length evs))) with true by reflexivity.
  replace (Z.pos (Pos.of_succ_nat (List.length evs)) =? 0) with false by reflexivity.
  cbn [andb]. rewrite app_nil_r.
  eexists. exists (map eventRow (ev :: evs)).
  split; [rewrite app_assoc; reflexivity |].
  split; [rewrite map_map; reflexivity |].
  generalize (ev :: evs). intro l.
  induction l as [| e l IH]; constructor; [| exact IH].
  unfold eventRow. cbn [affectedLine].
  destruct (affected_species e) as [| a rest]; simpl.
  - split; [tauto | discriminate].
  - split; [split; discriminate |].
    intros line H. injection H as <-. reflexivity.
Qed.

End EventLogFacts.

(** ** Further worked examples *)

Section MoreExamples.
Import JS Types Eff App Props AppShell Terms.

Lemma handleLoad_bare_state_resets_log_witness :
  Backend.server Sample.localhost (Api.loadRequest None (EcosystemState_object Sample.state))
  = Normal {| status := 200; json := Normal (EcosystemState_object Sample.state) |}
  /\ ok {| status := 200; json := Normal (EcosystemState_object Sample.state) |} = true
  /\ events (after (handleLoad (RT := Sample.runtime) None (Backend.server Sample.localhost)
                      {| file_text := Normal (JSONText (EcosystemState_object Sample.state)) |})
               Sample.app)
     = VArr []
  /\ narration (after (handleLoad (RT := Sample.runtime) None
                         (Backend.server Sample.localhost)
                         {| file_text := Normal (JSONText (EcosystemState_object Sample.state)) |})
                  Sample.app)
     = VStr "Save file loaded successfully!".
Proof.
  assert (H1 : Backend.server Sample.localhost
                 (Api.loadRequest None (EcosystemState_object Sample.state))
               = Normal {| status := 200; json := Normal (EcosystemState_object Sample.state) |})
    by (vm_compute; reflexivity).
  assert (H2 : ok {| status := 200; json := Normal (EcosystemState_object Sample.state) |}
               = true) by reflexivity.
  split; [exact H1 |]. split; [exact H2 |].
  destruct (handleLoad_bare_state_resets_log (RT := Sample.runtime) None
              (Backend.server Sample.localhost) Sample.app Sample.state _ _ H1 H2 eq_refl)
    as (_ & _ & Hev & Hn & _).
  split; [exact Hev | exact Hn].
Defined.

Lemma save_then_load_restores_log_witness :
  truthy (ecosystem Sample.app) = true
  /\ events Sample.app = VArr []
  /\ narration Sample.app = VStr "Spring arrives."
  /\ Backend.server Sample.localhost
       (Api.loadRequest None (serialized (ecosystem Sample.app)))
     = Normal {| status := 200; json := Normal (EcosystemState_object Sample.state) |}
  /\ narration (after (handleLoad (RT := Sample.runtime) None
                         (Backend.server Sample.localhost)
                         {| file_text :=
                              Normal (as_text (JSON_stringify (saveData Sample.now Sample.app))) |})
                  initial)
     = VStr "Spring arrives.".
Proof.
  assert (H1 : truthy (ecosystem Sample.app) = true) by reflexivity.
  assert (H2 : events Sample.app = VArr []) by reflexivity.
  assert (H3 : narration Sample.app = VStr "Spring arrives.") by reflexivity.
  assert (H4 : Backend.server Sample.localhost
                 (Api.loadRequest None (serialized (ecosystem Sample.app)))
               = Normal {| status := 200; json := Normal (EcosystemState_object Sample.state) |})
    by (vm_compute; reflexivity).
  split; [exact H1 |]. split; [exact H2 |]. split; [exact H3 |]. split; [exact H4 |].
  destruct (save_then_load_restores_log (RT := Sample.runtime) None
              (Backend.server Sample.localhost) Sample.now Sample.app initial
              [] "Spring arrives." _ _ H1 H2 H3 H4 eq_refl eq_refl)
    as (_ & _ & Hn & _).
  exact Hn.
Defined.

Lemma initializeEcosystem_screen_witness :
  truthy (ecosystem initial) = false
  /\ render (after (initializeEcosystem (RT := Sample.runtime) None SampleMore.broken_server)
               initial)
     = ErrorScreen "Failed to connect to backend. Make sure the server is running on localhost:8000".
Proof.
  assert (H1 : truthy (ecosystem initial) = false) by reflexivity.
  split; [exact H1 |].
  exact (initializeEcosystem_screen (RT := Sample.runtime) None SampleMore.broken_server
           initial H1).
Defined.

Lemma failed_load_keeps_main_view_witness :
  truthy (ecosystem Sample.app) = true
  /\ error (after (handleLoad (RT := Sample.runtime) None SampleMore.broken_server
                     {| file_text := Normal (NotJSON "{ version: ") |}) Sample.app)
     = Some "Failed to load: Invalid JSON file"
  /\ exists props,
       render (after (handleLoad (RT := Sample.runtime) None SampleMore.broken_server
                        {| file_text := Normal (NotJSON "{ version: ") |}) Sample.app)
       = MainView props
       /\ banner props = Some "Failed to load: Invalid JSON file".
Proof.
  assert (H1 : truthy (ecosystem Sample.app) = true) by reflexivity.
  assert (H2 : error (after (handleLoad (RT := Sample.runtime) None SampleMore.broken_server
                               {| file_text := Normal (NotJSON "{ version: ") |}) Sample.app)
               = Some "Failed to load: Invalid JSON file") by reflexivity.
  split; [exact H1 |]. split; [exact H2 |].
  destruct (failed_load_keeps_main_view (RT := Sample.runtime) None SampleMore.broken_server
              Sample.app _ _ H1 H2) as (props & Hrender & Hbanner & _).
  exists props. split; [exact Hrender | exact Hbanner].
Defined.

Lemma failed_advance_keeps_main_view_witness :
  truthy (ecosystem Sample.app) = true
  /\ error (after (handleAdvanceTurn (RT := Sample.runtime) None SampleMore.broken_server
                     Sample.app None) Sample.app)
     = Some "Failed to advance simulation. Check the backend logs."
  /\ exists props,
       render (after (handleAdvanceTurn (RT := Sample.runtime) None SampleMore.broken_server
                        Sample.app None) Sample.app)
       = MainView props
       /\ banner props = Some "Failed to advance simulation. Check the backend logs.".
Proof.
  assert (H1 : truthy (ecosystem Sample.app) = true) by reflexivity.
  assert (H2 : error (after (handleAdvanceTurn (RT := Sample.runtime) None
                               SampleMore.broken_server Sample.app None) Sample.app)
               = Some "Failed to advance simulation. Check the backend logs.")
    by reflexivity.
  split; [exact H1 |]. split; [exact H2 |].
  destruct (failed_advance_keeps_main_view (RT := Sample.runtime) None
              SampleMore.broken_server Sample.app None _ H1 H2)
    as (_ & props & Hrender & Hbanner & _).
  exists props. split; [exact Hrender | exact Hbanner].
Defined.

Lemma advance_without_new_state_blanks_witness :
  truthy (ecosystem Sample.app) = true
  /\ SampleMore.hollow_server (Api.advanceRequest None None)
     = Normal {| status := 200; json := Normal (VObj []) |}
  /\ nullish (VObj []) = false
  /\ truthy (field (VObj []) "new_state") = false
  /\ render (after (handleAdvanceTurn (RT := Sample.runtime) None SampleMore.hollow_server
                      Sample.app None) Sample.app)
     = Blank.
Proof.
  assert (H1 : truthy (ecosystem Sample.app) = true) by reflexivity.
  split; [exact H1 |]. split; [reflexivity |]. split; [reflexivity |].
  split; [reflexivity |].
  destruct (advance_without_new_state_blanks (RT := Sample.runtime) None
              SampleMore.hollow_server Sample.app None _ (VObj [])
              H1 eq_refl eq_refl eq_refl eq_refl eq_refl) as [_ Hblank].
  exact Hblank.
Defined.

Lemma loadEcosystem_status_fallback_witness :
  SampleMore.broken_server (Api.loadRequest None Sample.hollow)
  = Normal {| status := 500; json := Throw (ErrorInstance "Unexpected token < in JSON") |}
  /\ ok {| status := 500; json := Throw (ErrorInstance "Unexpected token < in JSON") |} = false
  /\ outcome (Api.loadEcosystem (RT := Sample.runtime) None SampleMore.broken_server
                Sample.hollow)
     = Throw (ErrorInstance "Server error: 500").
Proof.
  split; [reflexivity |]. split; [reflexivity |].
  exact (loadEcosystem_status_fallback (RT := Sample.runtime) None SampleMore.broken_server
           Sample.hollow _ eq_refl eq_refl I).
Defined.

Lemma requests_fail_with_fixed_messages_witness :
  (exists response,
      SampleMore.broken_server (ApiRest.chatRequest None "How are the foxes?")
      = Normal response /\ ok response = false)
  /\ outcome (ApiRest.chatAboutEcosystem (RT := Sample.runtime) None
                SampleMore.broken_server "How are the foxes?")
     = Throw (ErrorInstance "Failed to chat").
Proof.
  assert (H : exists response,
             SampleMore.broken_server (ApiRest.chatRequest None "How are the foxes?")
             = Normal response /\ ok response = false).
  { eexists. split; reflexivity. }
  split; [exact H |].
  destruct (requests_fail_with_fixed_messages (RT := Sample.runtime) None
              SampleMore.broken_server 8%Q None "How are the foxes?")
    as (_ & _ & _ & _ & Hchat).
  exact (Hchat H).
Defined.

Lemma details_empty_without_tile_witness :
  In (Some {| Types.action := "Introduce Wolf to the ecosystem";
              Types.details := Some EmptyString |})
     (ControlPanelUI.interventions
        (ControlPanel.handleAdvance (RT := Sample.runtime) None SampleMore.introduce_wolf))
  /\ Types.details {| Types.action := "Introduce Wolf to the ecosystem";
                      Types.details := Some EmptyString |}
     = Some EmptyString.
Proof.
  assert (H : In (Some {| Types.action := "Introduce Wolf to the ecosystem";
                          Types.details := Some EmptyString |})
                 (ControlPanelUI.interventions
                    (ControlPanel.handleAdvance (RT := Sample.runtime) None
                       SampleMore.introduce_wolf)))
    by (left; reflexivity).
  split; [exact H |].
  exact (details_empty_without_tile (RT := Sample.runtime) SampleMore.introduce_wolf _ H).
Defined.

Lemma offered_option_gives_action_witness :
  In (ControlPanel.selectedOption SampleMore.introduce_wolf)
     (ControlPanelUI.getSecondaryOptions SampleMore.introduce_wolf)
  /\ exists intervention,
       ControlPanelUI.interventions
         (ControlPanel.handleAdvance (RT := Sample.runtime) (Some (2, 3)%Q)
            SampleMore.introduce_wolf)
       = [Some intervention]
       /\ Types.action intervention <> EmptyString.
Proof.
  assert (H : In (ControlPanel.selectedOption SampleMore.introduce_wolf)
                 (ControlPanelUI.getSecondaryOptions SampleMore.introduce_wolf))
    by (left; reflexivity).
  split; [exact H |].
  destruct (offered_option_gives_action (RT := Sample.runtime) (Some (2, 3)%Q)
              SampleMore.introduce_wolf H) as (intervention & H1 & H2 & _).
  exists intervention. split; [exact H1 | exact H2].
Defined.

End MoreExamples.

Section SkyAndMarkerExamples.
Import JS Types Props Terms.
Local Open Scope Q_scope.

Lemma ecosystemHealth_never_below_tenth_witness :
  populations_nonnegative (Some [Sample.grass; Sample.dodo])
  /\ 0.1 <= EcosystemViewport.ecosystemHealth (Some [Sample.grass; Sample.dodo]) <= 1.
Proof.
  assert (H : populations_nonnegative (Some [Sample.grass; Sample.dodo])).
  { simpl. repeat constructor; simpl; lia. }
  split; [exact H |].
  exact (ecosystemHealth_never_below_tenth (Some [Sample.grass; Sample.dodo]) H).
Defined.

Lemma ecosystemHealth_all_extinct_witness :
  Forall (fun x => population x = 0%Z) [Sample.dodo; Sample.dodo]
  /\ EcosystemViewport.ecosystemHealth (Some [Sample.dodo; Sample.dodo]) == 0.1.
Proof.
  assert (H : Forall (fun x => population x = 0%Z) [Sample.dodo; Sample.dodo])
    by (repeat constructor).
  split; [exact H |].
  exact (ecosystemHealth_all_extinct Sample.dodo [Sample.dodo] H).
Defined.

Lemma scene_follows_health_witness :
  0.5 <= 0.75
  /\ populations_nonnegative (Some [Sample.grass; Sample.rabbit; Sample.fox])
  /\ Scene.turbidity 0.75 <= Scene.turbidity 0.5
  /\ Scene.ambientIntensity
       (EcosystemViewport.ecosystemHealth (Some [Sample.grass; Sample.rabbit; Sample.fox]))
     <= Scene.ambientIntensity 1.
Proof.
  assert (H1 : 0.5 <= 0.75) by lra.
  assert (H2 : populations_nonnegative (Some [Sample.grass; Sample.rabbit; Sample.fox])).
  { simpl. repeat constructor; simpl; lia. }
  split; [exact H1 |]. split; [exact H2 |].
  destruct (scene_follows_health (Some [Sample.grass; Sample.rabbit; Sample.fox])
              0.5 0.75 H1 H2)
    as ((_ & _ & _ & Hturbidity & _) & _ & _ & _ & (_ & Hambient & _)).
  split; [exact Hturbidity | exact Hambient].
Defined.

Lemma image_one_by_one (pixel : list Z) :
  List.length pixel = 4%nat ->
  Forall (fun channel => (0 <= channel <= 255)%Z) pixel ->
  image_consistent pixel SampleMore.one_by_one.
Proof.
  intros Hlen Hbytes. unfold image_consistent. simpl. rewrite Hlen.
  repeat split; try lia. assumption.
Qed.

Lemma getElevationAt_in_range_witness :
  image_consistent SampleMore.land_pixel SampleMore.one_by_one
  /\ exists e,
       SpeciesMarkers.getElevationAt (Some SampleMore.land_pixel) SampleMore.one_by_one
         (7 # 2) (-1)
       = Some e
       /\ 0 <= e <= 1.
Proof.
  assert (H : image_consistent SampleMore.land_pixel SampleMore.one_by_one).
  { apply image_one_by_one; [reflexivity | repeat constructor; lia]. }
  split; [exact H |].
  exact (getElevationAt_in_range SampleMore.land_pixel SampleMore.one_by_one (7 # 2) (-1) H).
Defined.

Lemma markers_on_terrain_witness :
  Some SampleMore.land_pixel = Some SampleMore.land_pixel
  /\ image_consistent SampleMore.land_pixel SampleMore.one_by_one
  /\ 0 <= 64
  /\ (forall k, 0 <= SampleMore.half k < 1)
  /\ Forall (on_terrain 64 (0, -3, 0))
       (SpeciesMarkers.markers (RT := Sample.runtime) 64 (0, -3, 0)
          (Some SampleMore.land_pixel) SampleMore.one_by_one SampleMore.half
          [Sample.grass; Sample.dodo; Sample.fox]).
Proof.
  assert (H2 : image_consistent SampleMore.land_pixel SampleMore.one_by_one).
  { apply image_one_by_one; [reflexivity | repeat constructor; lia]. }
  assert (H3 : 0 <= 64) by lra.
  assert (H4 : forall k, 0 <= SampleMore.half k < 1).
  { intro k. unfold SampleMore.half. lra. }
  split; [reflexivity |]. split; [exact H2 |]. split; [exact H3 |]. split; [exact H4 |].
  exact (markers_on_terrain (RT := Sample.runtime) 64 (0, -3, 0)
           (Some SampleMore.land_pixel) SampleMore.one_by_one SampleMore.half
           SampleMore.land_pixel [Sample.grass; Sample.dodo; Sample.fox]
           eq_refl H2 H3 H4).
Defined.

Lemma markers_all_land_witness :
  SpeciesMarkers.width SampleMore.one_by_one <> 0%Z
  /\ (forall k,
        below_threshold
          (SpeciesMarkers.getElevationAt (Some SampleMore.land_pixel) SampleMore.one_by_one
             (SampleMore.half k) (SampleMore.half (S k)))
        = false)
  /\ Z.of_nat (List.length
                 (SpeciesMarkers.markers (RT := Sample.runtime) 64 (0, -3, 0)
                    (Some SampleMore.land_pixel) SampleMore.one_by_one SampleMore.half
                    [Sample.grass; Sample.dodo; Sample.fox]))
     = 37%Z.
Proof.
  assert (H1 : SpeciesMarkers.width SampleMore.one_by_one <> 0%Z) by discriminate.
  assert (H2 : forall k,
             below_threshold
               (SpeciesMarkers.getElevationAt (Some SampleMore.land_pixel)
                  SampleMore.one_by_one (SampleMore.half k) (SampleMore.half (S k)))
             = false) by (intro k; reflexivity).
  split; [exact H1 |]. split; [exact H2 |].
  exact (markers_all_land (RT := Sample.runtime) 64 (0, -3, 0)
           (Some SampleMore.land_pixel) SampleMore.one_by_one SampleMore.half
           SampleMore.land_pixel [Sample.grass; Sample.dodo; Sample.fox]
           eq_refl H1 H2).
Defined.

Lemma markers_all_water_witness :
  (forall k,
      below_threshold
        (SpeciesMarkers.getElevationAt (Some SampleMore.water_pixel) SampleMore.one_by_one
           (SampleMore.half k) (SampleMore.half (S k)))
      = true)
  /\ SpeciesMarkers.markers (RT := Sample.runtime) 64 (0, -3, 0)
       (Some SampleMore.water_pixel) SampleMore.one_by_one SampleMore.half
       [Sample.grass; Sample.dodo; Sample.fox]
     = [].
Proof.
  assert (H : forall k,
             below_threshold
               (SpeciesMarkers.getElevationAt (Some SampleMore.water_pixel)
                  SampleMore.one_by_one (SampleMore.half k) (SampleMore.half (S k)))
             = true) by (intro k; reflexivity).
  split; [exact H |].
  exact (markers_all_water (RT := Sample.runtime) 64 (0, -3, 0)
           (Some SampleMore.water_pixel) SampleMore.one_by_one SampleMore.half
           [Sample.grass; Sample.dodo; Sample.fox] H).
Defined.

End SkyAndMarkerExamples.

(** ** Advance without a selection *)

Section PlainAdvanceFacts.
Import JS Types Eff App Props ControlPanel ControlPanelUI.
Context {RT : Runtime}.
Variable VITE_API_URL : option string.
Variable server : Request -> completion Response.

(** X28. With no intervention type or no option selected, pressing the
    button advances the turn with a single POST to the advance
    endpoint that has no body. *)
Theorem plain_advance_has_no_body
    (selectedTile : option (Q * Q)) (panel : PanelState) (st : AppState) :
  interventionType panel = EmptyString \/ selectedOption panel = EmptyString ->
  truthy (ecosystem st) = true ->
  exists intervention,
    interventions (handleAdvance selectedTile panel) = [intervention]
    /\ intervention = None
    /\ requests (trace (handleAdvanceTurn VITE_API_URL server st intervention))
       = [ {| url := Api.API_BASE VITE_API_URL ++ "/ecosystem/advance";
              method := "POST";
              headers := [("Content-Type", "application/json")];
              body := None |} ].
Proof.
  intros Hnone Heco. exists None.
  split; [| split; [reflexivity |]].
  - unfold handleAdvance.
    replace (String.eqb (interventionType panel) EmptyString
             || String.eqb (selectedOption panel) EmptyString) with true.
    + reflexivity.
    + symmetry. apply orb_true_iff.
      destruct Hnone as [H | H]; [left | right]; rewrite H; reflexivity.
  - rewrite (handleAdvanceTurn_requests VITE_API_URL server st None Heco). reflexivity.
Qed.

End PlainAdvanceFacts.

(** ** The tile view *)

Section TileFacts.
Import JS Types TileViewport.
Local Open Scope Q_scope.

(** X29. In the tile view the box of a tile stands on the ground, and
    for an elevation between 0 and 100 it is between 0.1 and 0.9 high;
    the boxes of two tiles with different coordinates share no point of
    the ground plane, whatever the grid size and the selection. *)
Theorem tiles_stand_apart
    (t1 t2 : Tile) (gridSize : Q) (selected1 selected2 : bool) :
  0 <= elevation t1 <= 100 ->
  (x t1, y t1) <> (x t2, y t2) ->
  bottom (TileMesh t1 gridSize selected1) == 0
  /\ 0.1 <= top (TileMesh t1 gridSize selected1) <= 0.9
  /\ apart (TileMesh t1 gridSize selected1) (TileMesh t2 gridSize selected2).
Proof.
  intros He Hdiff.
  unfold bottom, top, apart, east, west, north, south, TileMesh, height.
  cbn [position boxSize fst snd].
  split; [field |]. split.
  - assert (Hh : elevation t1 / 100 == elevation t1 * 0.01) by field.
    split.
    + setoid_replace ((0.1 + elevation t1 / 100 * 0.8) / 2 + (0.1 + elevation t1 / 100 * 0.8) / 2)
        with (0.1 + elevation t1 * 0.01 * 0.8) by (rewrite Hh; field).
      lra.
    + setoid_replace ((0.1 + elevation t1 / 100 * 0.8) / 2 + (0.1 + elevation t1 / 100 * 0.8) / 2)
        with (0.1 + elevation t1 * 0.01 * 0.8) by (rewrite Hh; field).
      lra.
  - assert (Hhalf : 0.9 / 2 == 0.45) by reflexivity.
    rewrite !Hhalf.
    assert (Hcases : (x t1 + 1 <= x t2 \/ x t2 + 1 <= x t1
                      \/ y t1 + 1 <= y t2 \/ y t2 + 1 <= y t1)%Z).
    { destruct (Z.eq_dec (x t1) (x t2)) as [Hx | Hx];
        destruct (Z.eq_dec (y t1) (y t2)) as [Hy | Hy]; try lia.
      exfalso. apply Hdiff. rewrite Hx, Hy. reflexivity. }
    destruct Hcases as [H | [H | [H | H]]];
      rewrite Zle_Qle, inject_Z_plus in H; change (inject_Z 1) with 1 in H;
      [left | right; left | right; right; left | right; right; right]; lra.
Qed.





End TileFacts.

Section PlainAdvanceExamples.
Import JS Types Eff App Props TileViewport.
Local Open Scope Q_scope.

Lemma plain_advance_has_no_body_witness :
  (ControlPanel.interventionType
     {| ControlPanel.interventionType := "remove_species";
        ControlPanel.selectedOption := EmptyString |} = EmptyString
   \/ ControlPanel.selectedOption
        {| ControlPanel.interventionType := "remove_species";
           ControlPanel.selectedOption := EmptyString |} = EmptyString)
  /\ truthy (ecosystem Sample.app) = true
  /\ exists intervention,
       ControlPanelUI.interventions
         (ControlPanel.handleAdvance (RT := Sample.runtime) None
            {| ControlPanel.interventionType := "remove_species";
               ControlPanel.selectedOption := EmptyString |})
       = [intervention]
       /\ intervention = None.
Proof.
  assert (H1 : ControlPanel.interventionType
                 {| ControlPanel.interventionType := "remove_species";
                    ControlPanel.selectedOption := EmptyString |} = EmptyString
               \/ ControlPanel.selectedOption
                    {| ControlPanel.interventionType := "remove_species";
                       ControlPanel.selectedOption := EmptyString |} = EmptyString)
    by (right; reflexivity).
  assert (H2 : truthy (ecosystem Sample.app) = true) by reflexivity.
  split; [exact H1 |]. split; [exact H2 |].
  destruct (plain_advance_has_no_body (RT := Sample.runtime) None
              SampleMore.broken_server None _ Sample.app H1 H2)
    as (intervention & Hi & Hnone & _).
  exists intervention. split; [exact Hi | exact Hnone].
Defined.

Lemma tiles_stand_apart_witness :
  0 <= elevation Sample.meadow <= 100
  /\ (x Sample.meadow, y Sample.meadow)
     <> (x {| x := 1; y := 0; biome := forest; elevation := 40; water_level := 0;
              vegetation := 90; species_present := [] |},
         y {| x := 1; y := 0; biome := forest; elevation := 40; water_level := 0;
              vegetation := 90; species_present := [] |})
  /\ apart (TileMesh Sample.meadow 8 false)
       (TileMesh {| x := 1; y := 0; biome := forest; elevation := 40; water_level := 0;
                    vegetation := 90; species_present := [] |} 8 true).
Proof.
  assert (H1 : 0 <= elevation Sample.meadow <= 100) by (simpl; lra).
  assert (H2 : (x Sample.meadow, y Sample.meadow)
               <> (x {| x := 1; y := 0; biome := forest; elevation := 40; water_level := 0;
                        vegetation := 90; species_present := [] |},
                   y {| x := 1; y := 0; biome := forest; elevation := 40; water_level := 0;
                        vegetation := 90; species_present := [] |}))
    by (simpl; discriminate).
  split; [exact H1 |]. split; [exact H2 |].
  destruct (tiles_stand_apart Sample.meadow _ 8 false true H1 H2) as (_ & _ & Hapart).
  exact Hapart.
Defined.


End PlainAdvanceExamples.
